(** * Cut-Pro: the FFmpeg download-and-install pipeline of [auto.py]

    A shallow embedding of the functions of [src/auto.py] that acquire the
    FFmpeg bundle: the availability gate, the mirror list, the range
    partition and the parallel fetcher ([download_with_ultra_speed]), the
    aria2 probe ([get_aria2_path], [download_with_aria2]), the sequential
    fetcher ([download_with_requests_simple]) and the entry point
    [ensure_ffmpeg_available].

    The disk is a tree of named nodes; every function that touches it is a
    computation over a [world] that either returns, raises (a Python
    exception) or never returns.  What the network, the zip library and the
    person at the dialog do is input: it is read from records that script
    one run.  The progress callback is taken to be absent or not to raise
    (no cancellation through it); [debug_log] only prints. *)

From Stdlib Require Import ZArith NArith List String Bool Lia QArith Qround.
Import ListNotations.

Set Warnings "-register-all".

#[local] Open Scope string_scope.
#[local] Open Scope Z_scope.

(** ** The disk *)

Module FS.

(** A regular file with its size in bytes, or a directory with its
    entries in [os.listdir] order. *)
Inductive node : Type :=
| File (size : Z)
| Dir (entries : list (string * node)).

Definition path := list string.

Fixpoint get_entry (x : string) (es : list (string * node)) : option node :=
  match es with
  | [] => None
  | (y, n) :: es' => if String.eqb x y then Some n else get_entry x es'
  end.

Fixpoint del_entry (x : string) (es : list (string * node)) : list (string * node) :=
  match es with
  | [] => []
  | (y, n) :: es' => if String.eqb x y then es' else (y, n) :: del_entry x es'
  end.

Fixpoint set_entry (x : string) (c : node) (es : list (string * node))
  : list (string * node) :=
  match es with
  | [] => [(x, c)]
  | (y, n) :: es' =>
      if String.eqb x y then (x, c) :: es' else (y, n) :: set_entry x c es'
  end.

(** [lookup p n]: the node reached from [n] along [p]. *)
Fixpoint lookup (p : path) (n : node) : option node :=
  match p with
  | [] => Some n
  | x :: p' =>
      match n with
      | File _ => None
      | Dir es =>
          match get_entry x es with
          | Some c => lookup p' c
          | None => None
          end
      end
  end.

(** [store p v n]: the tree [n] with the entry at [p] set to [v], or
    deleted when [v] is [None].  Fails when the parent of [p] is not an
    existing directory. *)
Fixpoint store (p : path) (v : option node) (n : node) : option node :=
  match p with
  | [] => None
  | x :: p' =>
      match n with
      | File _ => None
      | Dir es =>
          match p' with
          | [] =>
              Some (Dir (match v with
                         | Some c => set_entry x c es
                         | None => del_entry x es
                         end))
          | _ :: _ =>
              match get_entry x es with
              | Some c =>
                  match store p' v c with
                  | Some c' => Some (Dir (set_entry x c' es))
                  | None => None
                  end
              | None => None
              end
          end
      end
  end.

Definition exists_ (p : path) (n : node) : bool :=
  match lookup p n with Some _ => true | None => false end.

Definition isfile (p : path) (n : node) : bool :=
  match lookup p n with Some (File _) => true | _ => false end.

Definition is_dir_node (n : node) : bool :=
  match n with Dir _ => true | File _ => false end.

End FS.

Import FS.

(** The application directory ([get_app_directory ()]) is the root of the
    modelled tree; the file that [tempfile.NamedTemporaryFile] creates lives
    outside it and is kept apart: [None] when it does not exist, else its
    size. *)
Record world : Type := World {
  disk : node;
  tmp : option Z
}.

Definition set_disk (d : node) (w : world) : world := World d (tmp w).
Definition set_tmp (t : option Z) (w : world) : world := World (disk w) t.

(** ** Computations: return, raise, or never return *)

Inductive result (A : Type) : Type :=
| Returns (a : A) (w : world)
| Raises (w : world)
| Hangs (w : world).

Arguments Returns {A} a w.
Arguments Raises {A} w.
Arguments Hangs {A} w.

Definition M (A : Type) : Type := world -> result A.

Definition ret {A} (a : A) : M A := fun w => Returns a w.

Definition bind {A B} (m : M A) (k : A -> M B) : M B :=
  fun w =>
    match m w with
    | Returns a w' => k a w'
    | Raises w' => Raises w'
    | Hangs w' => Hangs w'
    end.

Definition raise {A} : M A := fun w => Raises w.

(** [try: m except: h] *)
Definition try_except {A} (m : M A) (h : M A) : M A :=
  fun w =>
    match m w with
    | Raises w' => h w'
    | r => r
    end.

Definition gets {A} (f : world -> A) : M A := fun w => Returns (f w) w.
Definition modify (f : world -> world) : M unit := fun w => Returns tt (f w).

(** A computation that comes to an end (it returns or raises) and leaves
    the temporary file alone. *)
Definition disk_only {A} (m : M A) : Prop :=
  forall w,
    match m w with
    | Returns _ w' => tmp w' = tmp w
    | Raises w' => tmp w' = tmp w
    | Hangs _ => False
    end.

Declare Scope py_scope.
Delimit Scope py_scope with py.
Notation "x <- m ;; k" := (bind m (fun x => k))
  (at level 100, m at next level, right associativity) : py_scope.
Notation "m ;; k" := (bind m (fun _ => k))
  (at level 100, right associativity) : py_scope.
#[local] Open Scope py_scope.

(** ** The [os] and [shutil] calls the pipeline makes *)

Definition path_exists (p : path) : M bool := gets (fun w => exists_ p (disk w)).

(** [os.makedirs(p, exist_ok=True)] for a directory directly under the
    application directory. *)
Definition makedirs (p : path) : M unit :=
  fun w =>
    match lookup p (disk w) with
    | Some (Dir _) => Returns tt w
    | Some (File _) => Raises w
    | None =>
        match store p (Some (Dir [])) (disk w) with
        | Some d => Returns tt (set_disk d w)
        | None => Raises w
        end
    end.

(** [os.remove(p)]: only a regular file can be removed. *)
Definition os_remove (p : path) : M unit :=
  fun w =>
    match lookup p (disk w) with
    | Some (File _) =>
        match store p None (disk w) with
        | Some d => Returns tt (set_disk d w)
        | None => Raises w
        end
    | _ => Raises w
    end.

(** [shutil.rmtree(p)]: only a directory can be removed. *)
Definition rmtree (p : path) : M unit :=
  fun w =>
    match lookup p (disk w) with
    | Some (Dir _) =>
        match store p None (disk w) with
        | Some d => Returns tt (set_disk d w)
        | None => Raises w
        end
    | _ => Raises w
    end.

(** [shutil.rmtree(p, ignore_errors=True)] *)
Definition rmtree_ignore_errors (p : path) : M unit :=
  try_except (rmtree p) (ret tt).

(** [open(p, 'wb')] followed by writes that leave [size] bytes: the file is
    created or truncated; a directory in its place, or a missing parent,
    raises. *)
Definition write_file (p : path) (size : Z) : M unit :=
  fun w =>
    match lookup p (disk w) with
    | Some (Dir _) => Raises w
    | _ =>
        match store p (Some (File size)) (disk w) with
        | Some d => Returns tt (set_disk d w)
        | None => Raises w
        end
    end.

(** [os.path.getsize(p)], called on regular files only *)
Definition getsize (p : path) : M Z :=
  fun w =>
    match lookup p (disk w) with
    | Some (File n) => Returns n w
    | _ => Raises w
    end.

(** ** Availability gate and mirror list *)

Definition get_ffmpeg_folder : path := ["FFmpeg"].

Definition get_ffmpeg_executable (system : string) : path :=
  if String.eqb system "Windows"
  then (get_ffmpeg_folder ++ ["bin"; "ffmpeg.exe"])%list
  else (get_ffmpeg_folder ++ ["bin"; "ffmpeg"])%list.

Definition is_ffmpeg_available (system : string) : M bool :=
  gets (fun w =>
          let ffmpeg_path := get_ffmpeg_executable system in
          exists_ ffmpeg_path (disk w) && isfile ffmpeg_path (disk w)).

Definition get_ffmpeg_download_urls (system : string) : list string :=
  if String.eqb system "Windows" then
    [ "https://www.gyan.dev/ffmpeg/builds/ffmpeg-release-essentials.zip";
      "https://github.com/BtbN/FFmpeg-Builds/releases/download/latest/ffmpeg-master-latest-win64-gpl.zip";
      "https://github.com/GyanD/codexffmpeg/releases/download/7.1/ffmpeg-7.1-essentials_build.zip" ]
  else if String.eqb system "Darwin" then
    [ "https://evermeet.cx/ffmpeg/ffmpeg-6.0.zip" ]
  else
    [ "https://johnvansickle.com/ffmpeg/releases/ffmpeg-release-amd64-static.tar.xz" ].

(** [urls[0] if urls else None] *)
Definition get_ffmpeg_download_url (system : string) : option string :=
  match get_ffmpeg_download_urls system with
  | url :: _ => Some url
  | [] => None
  end.

(** ** The range partition of the parallel fetcher *)

Definition MAX_CONNECTIONS : Z := 32.
Definition CHUNK_SIZE : Z := 2 * 1024 * 1024.

(** The values a [range] object yields: [n] values from [i] in steps of
    [step]. *)
Fixpoint range_from (i step : Z) (n : nat) : list Z :=
  match n with
  | O => []
  | S n' => i :: range_from (i + step) step n'
  end.

(** [range(0, stop, step)] for a positive [step]: its length is
    [ceil(stop / step)], or 0 when [stop <= 0]. *)
Definition py_range (stop step : Z) : list Z :=
  range_from 0 step (Z.to_nat ((stop + step - 1) / step)).

(** Lines 633-637 of [download_with_ultra_speed]. *)
Definition chunk_ranges (total_size : Z) : list (Z * Z) :=
  let chunk_size := Z.max CHUNK_SIZE (total_size / MAX_CONNECTIONS) in
  map (fun i => (i, Z.min (i + chunk_size - 1) (total_size - 1)))
      (py_range total_size chunk_size).

(** Byte [b] lies in the inclusive range [r]. *)
Definition in_range (b : Z) (r : Z * Z) : bool :=
  (fst r <=? b) && (b <=? snd r).

(** How many ranges of [l] hold byte [b]. *)
Definition coverage (b : Z) (l : list (Z * Z)) : nat :=
  List.length (filter (in_range b) l).

(** [contiguous s l e]: no range of [l] is empty, the first starts at [s],
    each next one starts right after the previous one ends, and the last
    one ends at [e]. *)
Fixpoint contiguous (s : Z) (l : list (Z * Z)) (e : Z) : Prop :=
  match l with
  | [] => s = e + 1
  | (a, b) :: l' => a = s /\ a <= b /\ contiguous (b + 1) l' e
  end.

(** ** What the outside world does during one run *)

(** The [Content-Length] header as [int(headers.get('Content-Length', 0))]
    sees it: missing, not a number, or a number (of either sign: [int]
    accepts a leading minus). *)
Inductive header : Type :=
| Absent
| Unparsable
| Length (n : Z).

(** [int(response.headers.get('Content-Length', 0))]; [None] is the
    [ValueError] of [int]. *)
Definition content_length (h : header) : option Z :=
  match h with
  | Absent => Some 0
  | Unparsable => None
  | Length n => Some n
  end.

(** What [zipfile] makes of the downloaded file: [ZipFile(filename)] raises;
    or [extractall] raises after leaving [listing] in the staging folder; or
    it succeeds and the staging folder then lists [listing]. *)
Inductive unzip : Type :=
| BadZip
| ExtractRaises (listing : list (string * node))
| Unpacked (listing : list (string * node)).

(** One mirror as the parallel fetcher meets it. *)
Record ultra_mirror : Type := {
  (** the first [urlopen]: [None] when it raises, else the header *)
  u_head : option header;
  (** the ranged request of a chunk: [None] when it raises, else
      [len(chunk_data)] *)
  u_chunk : Z * Z -> option N;
  (** [as_completed(futures, timeout=300)] runs out of time *)
  u_timeout : bool;
  u_zip : unzip
}.

(** One [response.readinto(buffer)]: it raises, or reports the bytes read
    (0 at the end of the body). *)
Inductive read : Type :=
| ReadRaises
| ReadBytes (n : N).

(** The reads a response body answers with, in order.  After [Closed] every
    read reports 0 bytes; after [Broken] every read raises.  A body answers
    finitely many reads before that: a response that keeps delivering bytes
    for ever, on which the loop without a length (lines 1176-1207) never
    ends, is not among them. *)
Inductive body : Type :=
| Closed
| Broken
| Next (r : read) (rest : body).

(** The body that answers the reads [rs] first and then goes on as [b]. *)
Fixpoint reads_then (rs : list read) (b : body) : body :=
  match rs with
  | [] => b
  | r :: rs' => Next r (reads_then rs' b)
  end.

(** One mirror as the sequential fetcher meets it. *)
Record simple_mirror : Type := {
  (** [urlopen]: [None] when it raises, else the header and the body *)
  s_open : option (header * body);
  s_zip : unzip
}.

(** The aria2c process on one mirror: its return code, and the size of the
    file it left at the output path, if it wrote one. *)
Record aria_exit : Type := {
  return_code : Z;
  wrote : option Z
}.

Record aria_mirror : Type := {
  (** [subprocess.Popen]: [None] when it raises *)
  a_run : option aria_exit;
  a_zip : unzip
}.

(** The mirrors by URL, for each of the three strategies. *)
Record net : Type := {
  ultra : string -> ultra_mirror;
  simple : string -> simple_mirror;
  aria : string -> aria_mirror
}.

(** ** Installing the downloaded archive *)

Definition filename : path := (get_ffmpeg_folder ++ ["ffmpeg_temp.zip"])%list.
Definition temp_extract : path := (get_ffmpeg_folder ++ ["temp"])%list.
Definition bin_target : path := (get_ffmpeg_folder ++ ["bin"])%list.

(** [os.listdir(p)] *)
Definition listdir (p : path) : M (list (string * node)) :=
  fun w =>
    match lookup p (disk w) with
    | Some (Dir es) => Returns es w
    | _ => Raises w
    end.

(** [shutil.move(src, dst)] inside the tree: a rename when [dst] does not
    exist; into [dst] when it is a directory; over [dst] when both are
    files. *)
Definition move (src dst : path) : M unit :=
  fun w =>
    match lookup src (disk w) with
    | None => Raises w
    | Some n =>
        let real_dst :=
          match lookup dst (disk w) with
          | Some (Dir _) => Some (dst ++ [last src ""])%list
          | Some (File _) => if is_dir_node n then None else Some dst
          | None => Some dst
          end in
        match real_dst with
        | None => Raises w
        | Some q =>
            match lookup dst (disk w), lookup q (disk w) with
            | Some (Dir _), Some _ => Raises w
            | _, _ =>
                match store src None (disk w) with
                | None => Raises w
                | Some d =>
                    match store q (Some n) d with
                    | Some d' => Returns tt (set_disk d' w)
                    | None => Raises w
                    end
                end
            end
        end
    end.

(** [zipfile.ZipFile(filename, 'r')] and [zip_ref.extractall(temp_extract)].
    The staging folder is made with the first member: an archive without
    members leaves the disk as it is. *)
Definition extractall (z : unzip) : M unit :=
  fun w =>
    if negb (isfile filename (disk w)) then Raises w
    else
      match z with
      | BadZip => Raises w
      | ExtractRaises listing =>
          match lookup temp_extract (disk w) with
          | Some (File _) => Raises w
          | _ =>
              match store temp_extract (Some (Dir listing)) (disk w) with
              | Some d => Raises (set_disk d w)
              | None => Raises w
              end
          end
      | Unpacked [] => Returns tt w
      | Unpacked listing =>
          match lookup temp_extract (disk w) with
          | Some (File _) => Raises w
          | _ =>
              match store temp_extract (Some (Dir listing)) (disk w) with
              | Some d => Returns tt (set_disk d w)
              | None => Raises w
              end
          end
      end.

(** The body of the [with zipfile.ZipFile(...)] block after [extractall],
    the same text in the three fetchers: the first directory of the staging
    folder is searched for [bin], which replaces the installed [bin].
    Nothing is done, and nothing is raised, when there is no directory or
    no [bin] in it.

    [shutil_bound] tells whether the name [shutil] is bound when the block
    is entered.  It is in [download_with_ultra_speed] (line 732) and in
    [download_with_requests_simple] (line 1215).  In [download_with_aria2]
    the only [import shutil] before the move is the one of line 977, inside
    [if os.path.exists(bin_target)]; being an import inside the function it
    makes [shutil] a local name, so that without an installed [bin] the
    call [shutil.move] of line 979 raises [UnboundLocalError]. *)
Definition move_bin (shutil_bound : bool) : M unit :=
  listing <- listdir temp_extract ;;
  let extracted_folders := filter (fun e => is_dir_node (snd e)) listing in
  match extracted_folders with
  | [] => ret tt
  | (folder, _) :: _ =>
      let source_folder := (temp_extract ++ [folder])%list in
      let bin_source := (source_folder ++ ["bin"])%list in
      has_bin <- path_exists bin_source ;;
      if has_bin then
        (old <- path_exists bin_target ;;
         if old then rmtree bin_target
         else if shutil_bound then ret tt else raise) ;;
        move bin_source bin_target
      else ret tt
  end.

(** [for x in l: ...] whose body either returns from the function
    ([Some b]) or goes on to the next element ([None]). *)
Fixpoint for_each {A} (step : A -> M (option bool)) (l : list A)
  : M (option bool) :=
  match l with
  | [] => ret None
  | x :: l' =>
      r <- step x ;;
      match r with
      | Some b => ret (Some b)
      | None => for_each step l'
      end
  end.

Definition hang {A} : M A := fun w => Hangs w.

(** ** The sequential fetcher, [download_with_requests_simple] *)

(** The file made by [tempfile.NamedTemporaryFile(delete=False)]. *)
Definition create_tmp : M unit := modify (set_tmp (Some 0)).

(** The bytes written to the temporary file leave it [size] long. *)
Definition write_tmp (size : Z) : M unit := modify (set_tmp (Some size)).

(** [if os.path.exists(temp_filename): os.remove(temp_filename)] *)
Definition remove_tmp : M unit := modify (set_tmp None).

(** The name under which the temporary file lands when it is moved into a
    directory (its random base name). *)
Definition tmp_name : string := "tmp".

(** [shutil.move(temp_filename, dst)] *)
Definition move_tmp (dst : path) : M unit :=
  fun w =>
    match tmp w with
    | None => Raises w
    | Some size =>
        let real_dst :=
          match lookup dst (disk w) with
          | Some (Dir _) => (dst ++ [tmp_name])%list
          | _ => dst
          end in
        match lookup dst (disk w), lookup real_dst (disk w) with
        | Some (Dir _), Some _ => Raises w
        | _, _ =>
            match store real_dst (Some (File size)) (disk w) with
            | Some d => Returns tt (World d None)
            | None => Raises w
            end
        end
    end.

(** What a read loop comes to: it is left after [reads] calls of [readinto]
    with [downloaded] bytes counted, or it is never left. *)
Inductive loop_end : Type :=
| Left_loop (downloaded : Z) (reads : nat)
| Never_left.

Definition one_more_read (e : loop_end) : loop_end :=
  match e with
  | Left_loop d r => Left_loop d (S r)
  | Never_left => Never_left
  end.

(** The loop [while downloaded < total_size] over the memory-mapped file
    (lines 1126-1158).  A read that raises, and a slice assignment that does
    not fit the map, are caught by [except Exception: continue]. *)
Fixpoint mmap_loop (total_size position downloaded : Z) (b : body) : loop_end :=
  if downloaded <? total_size then
    match b with
    | Closed => Left_loop downloaded 1
    | Broken => Never_left
    | Next ReadRaises rest =>
        one_more_read (mmap_loop total_size position downloaded rest)
    | Next (ReadBytes n) rest =>
        let bytes_read := Z.of_N n in
        if bytes_read =? 0 then Left_loop downloaded 1
        else if position + bytes_read <=? total_size then
          one_more_read
            (mmap_loop total_size (position + bytes_read)
               (downloaded + bytes_read) rest)
        else one_more_read (mmap_loop total_size position downloaded rest)
    end
  else Left_loop downloaded 0.

(** The loop [while True] of the streaming branch (lines 1176-1207).  A read
    that raises is caught by [except Exception: continue]; only a read of
    no bytes leaves the loop. *)
Fixpoint stream_loop (downloaded : Z) (b : body) : loop_end :=
  match b with
  | Closed => Left_loop downloaded 1
  | Broken => Never_left
  | Next ReadRaises rest => one_more_read (stream_loop downloaded rest)
  | Next (ReadBytes n) rest =>
      let bytes_read := Z.of_N n in
      if bytes_read =? 0 then Left_loop downloaded 1
      else one_more_read (stream_loop (downloaded + bytes_read) rest)
  end.

(** The block of lines 1098-1226: fill the temporary file and move it to
    [filename]; on any exception remove the temporary file and raise
    again.  Writing to the temporary file itself is taken to succeed. *)
Definition fetch_to_file (total_size : Z) (b : body) : M unit :=
  try_except
    ((if 0 <? total_size then
        write_tmp total_size ;;
        match mmap_loop total_size 0 0 b with
        | Left_loop _ _ => ret tt
        | Never_left => hang
        end
      else
        match stream_loop 0 b with
        | Left_loop downloaded _ => write_tmp downloaded
        | Never_left => hang
        end) ;;
     move_tmp filename)
    (remove_tmp ;; raise).

(** One turn of [for i, url in enumerate(urls)] (lines 1035-1265). *)
Definition simple_attempt (m : simple_mirror) : M (option bool) :=
  try_except
    (match s_open m with
     | None => raise
     | Some (h, b) =>
         match content_length h with
         | None => raise
         | Some total_size =>
             create_tmp ;;
             fetch_to_file total_size b ;;
             (extractall (s_zip m) ;;
              move_bin true ;;
              rmtree_ignore_errors temp_extract) ;;
             os_remove filename ;;
             ret (Some true)
         end
     end)
    (present <- path_exists filename ;;
     (if present then try_except (os_remove filename) (ret tt) else ret tt) ;;
     ret None).

Definition download_with_requests_simple (system : string) (n : net) : M bool :=
  try_except
    (makedirs get_ffmpeg_folder ;;
     let urls := get_ffmpeg_download_urls system in
     r <- for_each (fun url => simple_attempt (simple n url)) urls ;;
     match r with
     | Some b => ret b
     | None => ret false
     end)
    (ret false).

(** ** The parallel fetcher, [download_with_ultra_speed] *)

(** Lines 621-627: the size of the file, or [None] when the mirror is
    skipped ([continue]) before anything is written. *)
Definition probe_size (m : ultra_mirror) : option Z :=
  match u_head m with
  | None => None
  | Some h =>
      match content_length h with
      | None => None
      | Some total_size => if total_size =? 0 then None else Some total_size
      end
  end.

(** [f.seek(offset)] on a file opened for writing raises on a negative
    offset.  (It raises as well on an offset too large for the platform;
    that case is left out, and nothing below rests on such a seek
    returning: a length that large is not the length of an archive that
    the zip library unpacks.) *)
Definition seek (offset : Z) : M unit :=
  if offset <? 0 then raise else ret tt.

(** Lines 640-642: [open(filename, 'wb')], [f.seek(total_size - 1)],
    [f.write(b'\0')]. *)
Definition preallocate (total_size : Z) : M unit :=
  write_file filename 0 ;;
  seek (total_size - 1) ;;
  write_file filename total_size.

(** The value [download_chunk] returns (lines 650-668): [len(chunk_data)],
    or 0 when the request raised. *)
Definition download_chunk (m : ultra_mirror) (chunk_info : Z * Z) : Z :=
  match u_chunk m chunk_info with
  | Some n => Z.of_N n
  | None => 0
  end.

(** [completed_size] once every future is done (lines 675-681). *)
Definition completed_size (m : ultra_mirror) (ranges : list (Z * Z)) : Z :=
  fold_left (fun acc r => acc + download_chunk m r) ranges 0.

(** The dictionary [downloaded_chunks] once every [download_chunk] is done,
    as the list of its items [(start, len(chunk_data))] in the order of
    [sorted(downloaded_chunks.keys())]: a chunk whose request raised has no
    entry. *)
Fixpoint fetch_chunks (m : ultra_mirror) (ranges : list (Z * Z)) : list (Z * Z) :=
  match ranges with
  | [] => []
  | (start, end_) :: rest =>
      match u_chunk m (start, end_) with
      | Some n => (start, Z.of_N n) :: fetch_chunks m rest
      | None => fetch_chunks m rest
      end
  end.

(** [f.seek(start_pos); f.write(data)] on a file of [size] bytes: writing
    past the end extends the file. *)
Definition size_after_write (size : Z) (chunk : Z * Z) : Z :=
  let (start_pos, len) := chunk in
  if len =? 0 then size else Z.max size (start_pos + len).

(** Lines 713-717 *)
Definition assemble (downloaded_chunks : list (Z * Z)) : M unit :=
  size <- getsize filename ;;
  write_file filename (fold_left size_after_write downloaded_chunks size).

(** Lines 750-754 *)
Definition cleanup : M unit :=
  try_except (os_remove filename ;; rmtree temp_extract) (ret tt).

(** One turn of [for url_index, url in enumerate(urls)] (lines 610-760). *)
Definition ultra_attempt (m : ultra_mirror) : M (option bool) :=
  try_except
    (match probe_size m with
     | None => ret None
     | Some total_size =>
         let ranges := chunk_ranges total_size in
         preallocate total_size ;;
         let downloaded_chunks := fetch_chunks m ranges in
         (if u_timeout m then raise else ret tt) ;;
         assemble downloaded_chunks ;;
         actual_size <- getsize filename ;;
         if actual_size =? total_size then
           (extractall (u_zip m) ;;
            move_bin true) ;;
           cleanup ;;
           ret (Some true)
         else ret None
     end)
    (ret None).

Definition download_with_ultra_speed (system : string) (n : net) : M bool :=
  try_except
    (makedirs get_ffmpeg_folder ;;
     let urls := get_ffmpeg_download_urls system in
     r <- for_each (fun url => ultra_attempt (ultra n url)) urls ;;
     match r with
     | Some b => ret b
     | None => download_with_requests_simple system n
     end)
    (download_with_requests_simple system n).

(** ** The aria2 strategy: [get_aria2_path], [download_with_aria2] *)

(** The machine the program runs on, as [get_aria2_path] looks at it. *)
Record host : Type := {
  (** [sys.platform.startswith('win')] *)
  win : bool;
  (** [sys._MEIPASS], or [os.path.abspath(".")] without it *)
  base_path : string;
  (** the current directory, and the separator of [os.path.join] *)
  cwd : string;
  sep : string;
  (** [os.path.exists] *)
  os_path_exists : string -> bool;
  (** [subprocess.run(['aria2c', '--version'], timeout=5)]: [None] when it
      raises (no such program, or the 5 seconds are over), else the return
      code *)
  aria2c_version : option Z
}.

Definition resource_path (h : host) (relative_path : string) : string :=
  base_path h ++ sep h ++ relative_path.

Definition abspath (h : host) (p : string) : string :=
  cwd h ++ sep h ++ p.

Definition common_paths : list string :=
  [ "C:\Program Files\aria2\aria2c.exe";
    "C:\Program Files (x86)\aria2\aria2c.exe";
    "/usr/bin/aria2c";
    "/usr/local/bin/aria2c" ].

(** The probe of the search path succeeds: the call returns, with code 0. *)
Definition on_search_path (h : host) : bool :=
  match aria2c_version h with
  | Some rc => rc =? 0
  | None => false
  end.

Definition get_aria2_path (h : host) : option string :=
  let bundled_path := resource_path h (if win h then "aria2c.exe" else "aria2c") in
  if os_path_exists h bundled_path then Some bundled_path
  else
    let local_path := if win h then "aria2c.exe" else "aria2c" in
    if os_path_exists h local_path then Some (abspath h local_path)
    else if on_search_path h then Some "aria2c"
    else find (os_path_exists h) common_paths.

(** Every probe of [get_aria2_path] fails: no bundled copy, no copy in the
    current directory, no successful [aria2c --version], and none of the
    common locations exists. *)
Definition all_probes_fail (h : host) : Prop :=
  os_path_exists h (resource_path h (if win h then "aria2c.exe" else "aria2c")) = false
  /\ os_path_exists h (if win h then "aria2c.exe" else "aria2c") = false
  /\ on_search_path h = false
  /\ forall p, In p common_paths -> os_path_exists h p = false.

(** Truth value of an optional string: [None] and the empty string are
    false. *)
Definition truthy (p : option string) : bool :=
  match p with
  | Some s => negb (String.eqb s "")
  | None => false
  end.

(** What the aria2c process leaves at [filename]; it raises nothing in the
    program. *)
Definition external_write (p : path) (size : option Z) : M unit :=
  match size with
  | Some n => try_except (write_file p n) (ret tt)
  | None => ret tt
  end.

(** One turn of [for i, url in enumerate(urls)] (lines 834-995). *)
Definition aria_attempt (m : aria_mirror) : M (option bool) :=
  try_except
    (match a_run m with
     | None => raise
     | Some e =>
         external_write filename (wrote e) ;;
         present <- path_exists filename ;;
         if (return_code e =? 0) && present then
           (extractall (a_zip m) ;;
            move_bin false) ;;
           cleanup ;;
           ret (Some true)
         else ret None
     end)
    (ret None).

Definition download_with_aria2 (h : host) (system : string) (n : net) : M bool :=
  try_except
    (let aria2_path := get_aria2_path h in
     if negb (truthy aria2_path) then download_with_requests_simple system n
     else
       makedirs get_ffmpeg_folder ;;
       let urls := get_ffmpeg_download_urls system in
       r <- for_each (fun url => aria_attempt (aria n url)) urls ;;
       match r with
       | Some b => ret b
       | None => download_with_requests_simple system n
       end)
    (download_with_requests_simple system n).

(** ** The entry point *)

(** The person at [FFmpegDownloadDialog]: they close the dialog (which
    makes its result false), or let a download run, on the network [during],
    and go on as [on_failure] if it fails (the Retry button). *)
Inductive user : Type :=
| Closes
| Lets_run (during : net) (on_failure : user).

(** [FFmpegDownloadDialog.download_ffmpeg]: [self.result], set to [True]
    only by [download_complete(True)]. *)
Fixpoint download_ffmpeg (system : string) (u : user) : M bool :=
  match u with
  | Closes => ret false
  | Lets_run during on_failure =>
      success <- try_except (download_with_ultra_speed system during) (ret false) ;;
      if success then ret true else download_ffmpeg system on_failure
  end.

(** [parent_window] is [None], or the person at the dialog it opens. *)
Definition ensure_ffmpeg_available (system : string) (n : net)
  (parent_window : option user) : M bool :=
  available <- is_ffmpeg_available system ;;
  if available then ret true
  else
    match parent_window with
    | Some u => download_ffmpeg system u
    | None => download_with_requests_simple system n
    end.

(** ** The percentage of the progress messages *)

(** Python floats are modelled by the rationals they denote and a rounding
    [rnd] to the nearest float: it keeps the order, and leaves the integers
    up to [2^53] as they are. *)
Record rounding (rnd : Q -> Q) : Prop := {
  rnd_monotone : forall x y : Q, (x <= y)%Q -> (rnd x <= rnd y)%Q;
  rnd_integer : forall n : Z, Z.abs n <= 2 ^ 53 -> (rnd (inject_Z n) == inject_Z n)%Q
}.

(** [a / b] on integers *)
Definition truediv (rnd : Q -> Q) (a b : Z) : Q :=
  rnd (inject_Z a / inject_Z b)%Q.

(** [x * k] for a float [x] and an integer [k] *)
Definition fmul (rnd : Q -> Q) (x : Q) (k : Z) : Q :=
  rnd (x * inject_Z k)%Q.

(** [int(x)]: towards zero *)
Definition int (x : Q) : Z := Z.quot (Qnum x) (Zpos (Qden x)).

(** [progress = int((completed_size / total_size) * 100)] (lines 444, 686
    and 1141) *)
Definition progress (rnd : Q -> Q) (completed_size total_size : Z) : Z :=
  int (fmul rnd (truediv rnd completed_size total_size) 100).

(** * Further functions of [auto.py]

    Besides the fetchers: the installation from the bundle
    ([extract_bundled_ffmpeg]), the command the tools run
    ([get_ffmpeg_command]) and the guard of the blur tools, the GPU probe
    and its cache, the licence dates, and the list of imported videos. *)

(** ** Invariants of computations *)

(** [preserves P m]: from a world where [P] holds, [m] stops, however it
    stops, in a world where [P] holds. *)
Definition preserves {A} (P : world -> Prop) (m : M A) : Prop :=
  forall w, P w ->
    match m w with
    | Returns _ w' => P w'
    | Raises w' => P w'
    | Hangs w' => P w'
    end.

(** The installed [bin] folder, with all it holds, and the temporary file
    are in [w] as they are in [w0]. *)
Definition same_install (w0 w : world) : Prop :=
  tmp w = tmp w0
  /\ forall q : path,
      lookup (bin_target ++ q)%list (disk w) = lookup (bin_target ++ q)%list (disk w0).

(** Nothing but [ffmpeg_temp.zip] tells [w] from [w0]: the temporary
    file, every other entry of the [FFmpeg] folder with all it holds ([bin]
    and the staging folder [temp] among them, there or not), and the rest
    of the application directory are the same. *)
Definition same_but_archive (w0 w : world) : Prop :=
  tmp w = tmp w0
  /\ (forall x q, x <> "ffmpeg_temp.zip" ->
        lookup (get_ffmpeg_folder ++ x :: q)%list (disk w)
        = lookup (get_ffmpeg_folder ++ x :: q)%list (disk w0))
  /\ (forall y q, y <> "FFmpeg" ->
        lookup (y :: q) (disk w) = lookup (y :: q) (disk w0)).

(** The body comes to its end after finitely many reads: it is not cut
    short by reads that raise for ever. *)
Fixpoint ends (b : body) : bool :=
  match b with
  | Closed => true
  | Broken => false
  | Next _ rest => ends rest
  end.


(** The entries of the [FFmpeg] folder, from [fs], after the steps of one
    installation, in the order the fetchers take them: the archive is
    written, unpacked to [temp] as [listing], the installed [bin] removed,
    the [bin] of the folder [folder] (whose entries are [fes]) moved into
    its place, [temp] and the archive removed. *)
Definition after_install (fs listing fes : list (string * node))
    (folder : string) (bin : node) (sz : Z) : list (string * node) :=
  del_entry "ffmpeg_temp.zip"
    (del_entry "temp"
       (set_entry "bin" bin
          (set_entry "temp"
             (Dir (set_entry folder (Dir (del_entry "bin" fes)) listing))
             (del_entry "bin"
                (set_entry "temp" (Dir listing)
                   (set_entry "ffmpeg_temp.zip" (File sz) fs)))))).

(** ** Installing from the bundle, [extract_bundled_ffmpeg] *)

(** What [resource_path("FFmpeg")] names: the install folder itself (a run
    from the application directory, or a build whose resources lie beside
    the executable), or another place, which the function only reads and
    where there is the tree [n], or nothing. *)
Inductive bundle : Type :=
| In_place
| Elsewhere (n : option node).

Record bundle_host : Type := {
  (** [hasattr(sys, '_MEIPASS')] *)
  has_meipass : bool;
  resource : bundle
}.

(** The values [bundled_ffmpeg_path] takes: [resource_path("FFmpeg")],
    which is [os.path.join(sys._MEIPASS, "FFmpeg")] when [sys._MEIPASS] is
    set; or the folder [FFmpeg] beside the executable (beside the script
    in a run from source), which is [get_ffmpeg_folder()]. *)
Inductive place : Type :=
| Resource
| Beside_executable.

(** The node at [p] below the folder [pl]. *)
Definition place_lookup (bh : bundle_host) (pl : place) (p : path) (w : world)
  : option node :=
  match pl, resource bh with
  | Resource, Elsewhere n =>
      match n with
      | Some c => lookup p c
      | None => None
      end
  | _, _ => lookup (get_ffmpeg_folder ++ p)%list (disk w)
  end.

(** [os.path.exists] and [os.listdir] below [pl] *)
Definition place_exists (bh : bundle_host) (pl : place) (p : path) : M bool :=
  gets (fun w => match place_lookup bh pl p w with Some _ => true | None => false end).

Definition place_listdir (bh : bundle_host) (pl : place) (p : path)
  : M (list (string * node)) :=
  fun w =>
    match place_lookup bh pl p w with
    | Some (Dir es) => Returns es w
    | _ => Raises w
    end.

(** [shutil.copy2(source_file, target_file)] for the file [filename] of the
    [bin] below [pl]: a regular file is copied, into [target_file] if that
    is a directory; a source that is not a regular file raises.  When [pl]
    is the install folder the two paths are the same: the call raises
    [FileNotFoundError], or [SameFileError] if the file is there. *)
Definition copy2 (bh : bundle_host) (pl : place) (filename : string) : M unit :=
  fun w =>
    match pl, resource bh with
    | Resource, Elsewhere _ =>
        match place_lookup bh pl ["bin"; filename] w with
        | Some (File size) =>
            let target_file := (bin_target ++ [filename])%list in
            match lookup target_file (disk w) with
            | Some (Dir _) => write_file (target_file ++ [filename])%list size w
            | _ => write_file target_file size w
            end
        | _ => Raises w
        end
    | _, _ => Raises w
    end.

(** [for i, filename in enumerate(ffmpeg_files)] (lines 552-562) *)
Fixpoint copy_files (bh : bundle_host) (pl : place) (ffmpeg_files : list string)
  : M unit :=
  match ffmpeg_files with
  | [] => ret tt
  | filename :: rest => copy2 bh pl filename ;; copy_files bh pl rest
  end.

(** Lines 485-513: the three places tried for the bundle, each only when
    nothing exists at the one before. *)
Definition locate_bundle (bh : bundle_host) : M place :=
  (* Method 1 *)
  let bundled_ffmpeg_path := Resource in
  (* Method 2 *)
  found <- place_exists bh bundled_ffmpeg_path [] ;;
  let bundled_ffmpeg_path :=
    if negb found then Beside_executable else bundled_ffmpeg_path in
  (* Method 3 *)
  found <- place_exists bh bundled_ffmpeg_path [] ;;
  let bundled_ffmpeg_path :=
    if negb found then
      if has_meipass bh then Resource else bundled_ffmpeg_path
    else bundled_ffmpeg_path in
  ret bundled_ffmpeg_path.

(** Lines 472-586 *)
Definition extract_bundled_ffmpeg (bh : bundle_host) : M bool :=
  try_except
    (makedirs get_ffmpeg_folder ;;
     bundled_ffmpeg_path <- locate_bundle bh ;;
     found <- place_exists bh bundled_ffmpeg_path [] ;;
     if negb found then raise
     else
       let source_bin_folder := ["bin"] in
       has_bin <- place_exists bh bundled_ffmpeg_path source_bin_folder ;;
       if negb has_bin then raise
       else
         ffmpeg_files <- place_listdir bh bundled_ffmpeg_path source_bin_folder ;;
         old <- path_exists bin_target ;;
         (if old then rmtree bin_target else ret tt) ;;
         makedirs bin_target ;;
         copy_files bh bundled_ffmpeg_path (map fst ffmpeg_files) ;;
         extracted_files <- listdir bin_target ;;
         if negb (Nat.eqb (List.length extracted_files) (List.length ffmpeg_files))
         then raise
         else
           ok <- path_exists (bin_target ++ ["ffmpeg.exe"])%list ;;
           if negb ok then raise else ret true)
    (ret false).

(** ** The command the tools run, [CutPro.get_ffmpeg_command] *)

(** What [get_ffmpeg_command] returns: the path of the local executable,
    or the bare program name ["ffmpeg"], left to the search path. *)
Inductive command : Type :=
| Local (p : path)
| Program (name : string).

(** Lines 1906-1913 *)
Definition get_ffmpeg_command (system : string) : M command :=
  let local_ffmpeg := get_ffmpeg_executable system in
  found <- path_exists local_ffmpeg ;;
  if found then ret (Local local_ffmpeg) else ret (Program "ffmpeg").

(** [os.path.exists(ffmpeg_cmd)]: a bare name is looked for in the current
    directory, which [in_cwd] describes. *)
Definition command_exists (in_cwd : string -> bool) (c : command) : M bool :=
  match c with
  | Local p => path_exists p
  | Program name => ret (in_cwd name)
  end.

(** [ffmpeg_cmd != "ffmpeg"]: the path of the local executable is longer
    than the bare name. *)
Definition is_not_ffmpeg (c : command) : bool :=
  match c with
  | Local _ => true
  | Program name => negb (String.eqb name "ffmpeg")
  end.

(** The guard that opens [_ffmpeg_blur_background] and
    [_ffmpeg_blur_background_reverse] (lines 3298-3304 and 3422-3428):
    whether the question "Download now?" is asked. *)
Definition blur_asks_to_download (system : string) (in_cwd : string -> bool)
  : M bool :=
  ffmpeg_cmd <- get_ffmpeg_command system ;;
  found <- command_exists in_cwd ffmpeg_cmd ;;
  if negb found && is_not_ffmpeg ffmpeg_cmd then
    available <- is_ffmpeg_available system ;;
    ret (negb available)
  else ret false.

(** ** GPU encoders: [detect_gpu_encoders], [get_optimal_encoding_settings],
    [get_gpu_settings] *)

(** [needle in haystack] *)
Fixpoint contains (needle haystack : string) : bool :=
  String.prefix needle haystack
  || match haystack with
     | EmptyString => false
     | String _ rest => contains needle rest
     end.

Record encoders : Type := {
  nvidia : option string;
  amd : option string;
  intel : option string;
  cpu_only : bool
}.

(** Lines 37-74.  [run] is what [subprocess.run([ffmpeg_path, "-encoders"],
    ...)] comes to: [None] when it raises (no such program, or the 10
    seconds are over), else the return code and [result.stdout.lower()]. *)
Definition detect_gpu_encoders (run : option (Z * string)) : encoders :=
  let available_encoders :=
    {| nvidia := None; amd := None; intel := None; cpu_only := true |} in
  match run with
  | None => available_encoders
  | Some (returncode, encoders_output) =>
      if returncode =? 0 then
        let available_encoders :=
          if contains "h264_nvenc" encoders_output then
            {| nvidia := Some "h264_nvenc"; amd := amd available_encoders;
               intel := intel available_encoders; cpu_only := false |}
          else available_encoders in
        let available_encoders :=
          if contains "h264_amf" encoders_output then
            {| nvidia := nvidia available_encoders; amd := Some "h264_amf";
               intel := intel available_encoders; cpu_only := false |}
          else available_encoders in
        let available_encoders :=
          if contains "h264_qsv" encoders_output then
            {| nvidia := nvidia available_encoders; amd := amd available_encoders;
               intel := Some "h264_qsv"; cpu_only := false |}
          else available_encoders in
        available_encoders
      else available_encoders
  end.

Record settings : Type := {
  encoder : string;
  preset : string;
  extra_args : list string;
  gpu_type : string
}.

(** Lines 76-114 *)
Definition get_optimal_encoding_settings (gpu_encoders : encoders) : settings :=
  if truthy (nvidia gpu_encoders) then
    {| encoder := "h264_nvenc"; preset := "p4";
       extra_args := ["-rc"; "vbr"; "-cq"; "23"; "-b:v"; "0"];
       gpu_type := "nvidia" |}
  else if truthy (amd gpu_encoders) then
    {| encoder := "h264_amf"; preset := "balanced";
       extra_args := ["-rc"; "vbr_peak"; "-qp_i"; "23"; "-qp_p"; "23"];
       gpu_type := "amd" |}
  else if truthy (intel gpu_encoders) then
    {| encoder := "h264_qsv"; preset := "medium";
       extra_args := ["-global_quality"; "23"];
       gpu_type := "intel" |}
  else
    {| encoder := "libx264"; preset := "medium"; extra_args := [];
       gpu_type := "cpu" |}.

(** The module globals of lines 118-119. *)
Record gpu_cache : Type := {
  gpu_encoders_cache : option encoders;
  encoding_settings_cache : option settings
}.

(** Both are [None] when the module is loaded. *)
Definition gpu_cache_at_load : gpu_cache :=
  {| gpu_encoders_cache := None; encoding_settings_cache := None |}.

(** Lines 121-129: the value returned and the globals after the call.
    [run] is what the probe comes to if it is made. *)
Definition get_gpu_settings (run : option (Z * string)) (c : gpu_cache)
  : option settings * gpu_cache :=
  let c' :=
    match gpu_encoders_cache c with
    | None =>
        let e := detect_gpu_encoders run in
        {| gpu_encoders_cache := Some e;
           encoding_settings_cache := Some (get_optimal_encoding_settings e) |}
    | Some _ => c
    end in
  (encoding_settings_cache c', c').

(** ** The licence dates: [is_token_expired], [get_remaining_days] *)

(** [expires_at.replace('Z', '+00:00')] *)
Fixpoint replace_Z (s : string) : string :=
  match s with
  | EmptyString => EmptyString
  | String c rest =>
      if String.eqb (String c EmptyString) "Z" then ("+00:00" ++ replace_Z rest)%string
      else String c (replace_Z rest)
  end.

(** The length of a day in microseconds, the resolution of [datetime]. *)
Definition day : Z := 86400 * 1000000.

(** Lines 267-276.  [fromisoformat] is [datetime.fromisoformat]: [None] when
    it raises, else the instant in microseconds; [now] is
    [datetime.now(exp_date.tzinfo)] on the same time line. *)
Definition is_token_expired (fromisoformat : string -> option Z) (now : Z)
    (expires_at : option string) : bool :=
  match expires_at with
  | None => false
  | Some s =>
      if negb (truthy expires_at) then false
      else
        match fromisoformat (replace_Z s) with
        | Some exp_date => exp_date <=? now
        | None => true
        end
  end.

(** What [get_remaining_days] returns: the string ["Lifetime"] or a number
    of days. *)
Inductive remaining : Type :=
| Lifetime
| Days (n : Z).

(** Lines 278-288; [(exp_date - now).days] rounds towards minus infinity. *)
Definition get_remaining_days (fromisoformat : string -> option Z) (now : Z)
    (expires_at : option string) : remaining :=
  match expires_at with
  | None => Lifetime
  | Some s =>
      if negb (truthy expires_at) then Lifetime
      else
        match fromisoformat (replace_Z s) with
        | Some exp_date =>
            let days_left := (exp_date - now) / day in
            Days (Z.max 0 days_left)
        | None => Days 0
        end
  end.

(** ** The list of imported videos: [add_videos], [remove_video],
    [clear_all] *)

Record video : Type := {
  v_path : string;
  v_name : string;
  v_width : Z;
  v_height : Z
}.

(** [any(v['path'] == path for v in self.videos)] *)
Definition listed (path : string) (videos : list video) : bool :=
  existsb (fun v => String.eqb (v_path v) path) videos.

(** Lines 2130-2165: [self.videos] and [added] after the loop.  [probe] is
    what [cv2.VideoCapture(path)] gives, taken to be the same each time a
    path is tried: [None] when the file cannot be opened or a call raises,
    else the width and the height; [basename] is [os.path.basename]. *)
Fixpoint add_videos (probe : string -> option (Z * Z)) (basename : string -> string)
    (paths : list string) (videos : list video) (added : Z) : list video * Z :=
  match paths with
  | [] => (videos, added)
  | path :: rest =>
      if negb (listed path videos) then
        match probe path with
        | Some (width, height) =>
            add_videos probe basename rest
              (videos ++ [{| v_path := path; v_name := basename path;
                             v_width := width; v_height := height |}])%list
              (added + 1)
        | None => add_videos probe basename rest videos added
        end
      else add_videos probe basename rest videos added
  end.

(** Lines 2276-2281: [self.videos.pop(index)] inside the bounds. *)
Definition remove_video (index : Z) (videos : list video) : list video :=
  if (0 <=? index) && (index <? Z.of_nat (List.length videos)) then
    (firstn (Z.to_nat index) videos ++ skipn (S (Z.to_nat index)) videos)%list
  else videos.

(** What the user does with the list, and the list afterwards: imports
    (lines 2096-2128 call [add_videos]), removals, [clear_all] (line 2176:
    [self.videos.clear()]).  Each stands for a call that gets past the
    licence guard of its button; a call that does not leaves the list as
    it is. *)
Inductive list_action : Type :=
| Import (paths : list string)
| Remove (index : Z)
| Clear_all.

Definition act (probe : string -> option (Z * Z)) (basename : string -> string)
    (videos : list video) (a : list_action) : list video :=
  match a with
  | Import paths => fst (add_videos probe basename paths videos 0)
  | Remove index => remove_video index videos
  | Clear_all => []
  end.
(** * Properties *)

(** ** The range partition *)

Section Partition.

Lemma contiguous_bounds (l : list (Z * Z)) : forall s e,
  contiguous s l e -> s <= e + 1.
Proof.
  induction l as [|[a b] l IH]; simpl; intros s e H.
  - lia.
  - destruct H as (-> & Hab & Hl). apply IH in Hl. lia.
Qed.

Lemma contiguous_coverage (l : list (Z * Z)) : forall s e b,
  contiguous s l e ->
  coverage b l = if (s <=? b) && (b <=? e) then 1%nat else 0%nat.
Proof.
  unfold coverage.
  induction l as [|[a c] l IH]; simpl; intros s e b H.
  - destruct (Z.leb_spec s b), (Z.leb_spec b e); simpl; try reflexivity; lia.
  - destruct H as (-> & Hac & Hl).
    pose proof (contiguous_bounds _ _ _ Hl) as Hb.
    specialize (IH _ _ b Hl). unfold in_range at 1. simpl.
    destruct (Z.leb_spec s b), (Z.leb_spec b c); simpl;
      rewrite IH;
      destruct (Z.leb_spec (c + 1) b), (Z.leb_spec b e); simpl;
      try reflexivity; lia.
Qed.

Lemma contiguous_In (l : list (Z * Z)) : forall s e a b,
  contiguous s l e -> In (a, b) l -> s <= a <= b /\ b <= e.
Proof.
  induction l as [|[a0 b0] l IH]; simpl; intros s e a b H Hin; [destruct Hin|].
  destruct H as (-> & Hab & Hl).
  pose proof (contiguous_bounds _ _ _ Hl).
  destruct Hin as [[= <- <-]|Hin]; [lia|].
  specialize (IH _ _ _ _ Hl Hin). lia.
Qed.

Lemma contiguous_last (l : list (Z * Z)) : forall s e d,
  contiguous s l e -> l <> [] -> snd (last l d) = e.
Proof.
  induction l as [|[a b] l IH]; intros s e d H Hne; [congruence|].
  destruct H as (-> & Hab & Hl).
  destruct l as [|r l].
  - simpl in *. lia.
  - change (last ((s, b) :: r :: l) d) with (last (r :: l) d).
    eapply IH; [exact Hl | discriminate].
Qed.

Variables c t : Z.
Hypothesis Hc : 0 < c.

(** [n] steps of [c] from [i] that end exactly when [t] is reached. *)
Lemma range_from_contiguous : forall n i,
  (0 < n)%nat ->
  i + (Z.of_nat n - 1) * c < t <= i + Z.of_nat n * c ->
  contiguous i
    (map (fun j => (j, Z.min (j + c - 1) (t - 1))) (range_from i c n))
    (t - 1).
Proof.
  induction n as [|n IH]; intros i Hn Hi; [lia|].
  simpl. split; [reflexivity|].
  destruct n as [|n].
  - change (Z.of_nat 1) with 1 in Hi. simpl range_from. simpl map.
    simpl contiguous. lia.
  - assert (Hlt : i + c - 1 < t - 1) by lia.
    rewrite Z.min_l by lia. split; [lia|].
    replace (i + c - 1 + 1) with (i + c) by lia.
    apply IH; lia.
Qed.

(** The length of [range(0, t, c)]. *)
Lemma py_range_count : 0 < t ->
  let n := Z.to_nat ((t + c - 1) / c) in
  (0 < n)%nat /\ (Z.of_nat n - 1) * c < t <= Z.of_nat n * c.
Proof.
  intros Ht n.
  assert (Hq : 1 <= (t + c - 1) / c).
  { apply Z.div_le_lower_bound; lia. }
  assert (Hn : Z.of_nat n = (t + c - 1) / c) by (unfold n; lia).
  pose proof (Z.mul_div_le (t + c - 1) c Hc).
  pose proof (Z.mul_succ_div_gt (t + c - 1) c Hc).
  rewrite Hn. split; [lia|]. lia.
Qed.

End Partition.

Lemma chunk_ranges_contiguous (total_size : Z) :
  0 < total_size ->
  contiguous 0 (chunk_ranges total_size) (total_size - 1)
  /\ chunk_ranges total_size <> [].
Proof.
  intros Ht.
  set (c := Z.max CHUNK_SIZE (total_size / MAX_CONNECTIONS)).
  assert (Hc : 0 < c) by (unfold c, CHUNK_SIZE; lia).
  destruct (py_range_count c total_size Hc Ht) as [Hn Hb].
  split.
  - unfold chunk_ranges, py_range. fold c.
    apply range_from_contiguous; [exact Hc | exact Hn | lia].
  - unfold chunk_ranges, py_range. fold c.
    destruct (Z.to_nat ((total_size + c - 1) / c)); [lia | discriminate].
Qed.

(** C3: for every positive total length the ranges of the parallel fetcher
    are contiguous from byte 0 (none empty, each starting right after the
    previous one), every byte of [0, total_size) lies in exactly one of them
    and every other byte in none, and the last range ends at
    [total_size - 1]. *)
Theorem chunk_ranges_partition (total_size : Z) :
  0 < total_size ->
  contiguous 0 (chunk_ranges total_size) (total_size - 1)
  /\ (forall b, coverage b (chunk_ranges total_size)
                = if (0 <=? b) && (b <? total_size) then 1%nat else 0%nat)
  /\ snd (last (chunk_ranges total_size) (0, 0)) = total_size - 1.
Proof.
  intros Ht.
  destruct (chunk_ranges_contiguous total_size Ht) as [Hcont Hne].
  split; [exact Hcont|]. split.
  - intros b. rewrite (contiguous_coverage _ _ _ b Hcont).
    destruct (Z.leb_spec 0 b), (Z.leb_spec b (total_size - 1)),
      (Z.ltb_spec b total_size); simpl; try reflexivity; lia.
  - exact (contiguous_last _ 0 _ _ Hcont Hne).
Qed.

Lemma chunk_ranges_partition_witness :
  0 < 5242880
  /\ chunk_ranges 5242880
     = [(0, 2097151); (2097152, 4194303); (4194304, 5242879)]
  /\ coverage 4194304 (chunk_ranges 5242880) = 1%nat
  /\ snd (last (chunk_ranges 5242880) (0, 0)) = 5242879.
Proof.
  assert (H : 0 < 5242880) by lia.
  destruct (chunk_ranges_partition 5242880 H) as (_ & Hcov & Hlast).
  split; [exact H|]. split; [reflexivity|]. split.
  - rewrite Hcov. reflexivity.
  - exact Hlast.
Defined.

(** ** The availability gate and the mirror list *)

(** C6: the gate answers true exactly when a regular file sits at
    [FFmpeg/bin/ffmpeg.exe] (on Windows) or [FFmpeg/bin/ffmpeg] (elsewhere)
    under the application directory; it returns, and leaves the disk and
    the temporary file as they were. *)
Theorem is_ffmpeg_available_spec (system : string) (w : world) :
  get_ffmpeg_executable system
  = (get_ffmpeg_folder
       ++ ["bin"; if String.eqb system "Windows" then "ffmpeg.exe" else "ffmpeg"])%list
  /\ exists b : bool,
      is_ffmpeg_available system w = Returns b w
      /\ (b = true <->
          exists size : Z,
            lookup (get_ffmpeg_executable system) (disk w) = Some (File size)).
Proof.
  split.
  - unfold get_ffmpeg_executable. destruct (String.eqb system "Windows"); reflexivity.
  - unfold is_ffmpeg_available, gets, exists_, isfile.
    eexists. split; [reflexivity|].
    destruct (lookup (get_ffmpeg_executable system) (disk w)) as [[size|es]|];
      simpl; split; intros H; try discriminate; try reflexivity.
    + exists size. reflexivity.
    + destruct H as [size H]. discriminate.
    + destruct H as [size H]. discriminate.
Qed.

(** C10: whatever the platform string, the mirror list is not empty, a
    platform that is neither Windows nor Darwin gets the Linux list, and
    [get_ffmpeg_download_url] is not [None]. *)
Theorem get_ffmpeg_download_urls_nonempty (system : string) :
  get_ffmpeg_download_urls system <> []
  /\ (system <> "Windows" -> system <> "Darwin" ->
      get_ffmpeg_download_urls system = get_ffmpeg_download_urls "Linux")
  /\ get_ffmpeg_download_url system <> None.
Proof.
  unfold get_ffmpeg_download_url, get_ffmpeg_download_urls.
  destruct (String.eqb_spec system "Windows") as [Hw|Hw];
    [|destruct (String.eqb_spec system "Darwin") as [Hd|Hd]];
    (split; [discriminate|]); (split; [|discriminate]); intros; try congruence.
  reflexivity.
Qed.

Lemma get_ffmpeg_download_urls_nonempty_witness :
  get_ffmpeg_download_urls "FreeBSD"
  = [ "https://johnvansickle.com/ffmpeg/releases/ffmpeg-release-amd64-static.tar.xz" ]
  /\ get_ffmpeg_download_url "FreeBSD" <> None.
Proof.
  destruct (get_ffmpeg_download_urls_nonempty "FreeBSD") as (_ & Hlinux & Hurl).
  split; [|exact Hurl].
  rewrite Hlinux; [reflexivity | discriminate | discriminate].
Defined.

(** ** The aria2 probe *)

Lemma get_aria2_path_None_iff (h : host) :
  get_aria2_path h = None <-> all_probes_fail h.
Proof.
  unfold get_aria2_path, all_probes_fail.
  set (bundled_path := resource_path h (if win h then "aria2c.exe" else "aria2c")).
  set (local_path := if win h then "aria2c.exe" else "aria2c").
  destruct (os_path_exists h bundled_path);
    [split; [discriminate | intros (? & _); discriminate]|].
  destruct (os_path_exists h local_path);
    [split; [discriminate | intros (_ & ? & _); discriminate]|].
  destruct (on_search_path h);
    [split; [discriminate | intros (_ & _ & ? & _); discriminate]|].
  split.
  - intros Hfind. repeat (split; [reflexivity|]).
    intros p Hp. exact (find_none _ _ Hfind p Hp).
  - intros (_ & _ & _ & Hall).
    destruct (find (os_path_exists h) common_paths) as [p|] eqn:Hfind; [|reflexivity].
    apply find_some in Hfind. destruct Hfind as [Hin Hex].
    rewrite (Hall p Hin) in Hex. discriminate.
Qed.

(** The sequential fetcher reports failure by its result: it does not
    raise. *)
Lemma download_with_requests_simple_no_raise (system : string) (n : net) (w w' : world) :
  download_with_requests_simple system n w <> Raises w'.
Proof.
  unfold download_with_requests_simple, try_except.
  match goal with |- context [match ?m w with _ => _ end] => destruct (m w) end;
    discriminate.
Qed.

(** C8: when the bundled copy, the copy in the current directory, the
    5-second [aria2c --version] call and the four common locations all
    fail, [get_aria2_path] is [None]; this is no error:
    [download_with_aria2] then does what [download_with_requests_simple]
    does (it falls back to the built-in fetch) and does not raise. *)
Theorem get_aria2_path_none_falls_back (h : host) :
  all_probes_fail h ->
  get_aria2_path h = None
  /\ forall (system : string) (n : net) (w : world),
      download_with_aria2 h system n w = download_with_requests_simple system n w
      /\ forall w', download_with_aria2 h system n w <> Raises w'.
Proof.
  intros Hfail. apply get_aria2_path_None_iff in Hfail.
  split; [exact Hfail|].
  intros system n w.
  assert (E : download_with_aria2 h system n w
              = download_with_requests_simple system n w).
  { unfold download_with_aria2. rewrite Hfail. simpl.
    unfold try_except.
    destruct (download_with_requests_simple system n w) as [b w'|w'|w'] eqn:E;
      try reflexivity.
    exfalso. exact (download_with_requests_simple_no_raise _ _ _ _ E). }
  split; [exact E|].
  intros w'. rewrite E. apply download_with_requests_simple_no_raise.
Qed.

Lemma get_aria2_path_none_falls_back_witness :
  let h := {| win := false; base_path := "/opt/cutpro"; cwd := "/opt/cutpro";
              sep := "/"; os_path_exists := fun _ => false;
              aria2c_version := None |} in
  all_probes_fail h /\ get_aria2_path h = None.
Proof.
  intros h.
  assert (Hfail : all_probes_fail h).
  { unfold all_probes_fail. simpl. repeat split; reflexivity. }
  split; [exact Hfail|].
  exact (proj1 (get_aria2_path_none_falls_back h Hfail)).
Defined.

(** ** The size probe of the parallel fetcher *)




(** ** The percentage of the progress messages *)

Lemma int_bounds (x : Q) (lo hi : Z) :
  0 <= lo -> (inject_Z lo <= x)%Q -> (x <= inject_Z hi)%Q -> lo <= int x <= hi.
Proof.
  intros Hlo Hx Hhi. unfold int.
  assert (Hnum : 0 <= Qnum x).
  { destruct x as [n d]. unfold Qle in Hx. simpl in *. nia. }
  rewrite Z.quot_div_nonneg by (try exact Hnum; lia).
  change (Qnum x / Z.pos (Qden x)) with (Qfloor (Qnum x # Qden x)).
  destruct x as [n d]. simpl Qnum. simpl Qden.
  split.
  - rewrite <- (Qfloor_Z lo). apply Qfloor_resp_le. exact Hx.
  - rewrite <- (Qfloor_Z hi). apply Qfloor_resp_le. exact Hhi.
Qed.

Lemma rnd_proper (rnd : Q -> Q) (Hr : rounding rnd) (x y : Q) :
  (x == y)%Q -> (rnd x == rnd y)%Q.
Proof.
  intros E. apply Qle_antisym; apply (rnd_monotone rnd Hr); rewrite E; apply Qle_refl.
Qed.

Lemma rnd_le_integer (rnd : Q -> Q) (Hr : rounding rnd) (x : Q) (n : Z) :
  Z.abs n <= 2 ^ 53 -> (x <= inject_Z n)%Q -> (rnd x <= inject_Z n)%Q.
Proof.
  intros Hn Hx.
  apply Qle_trans with (rnd (inject_Z n)).
  - apply (rnd_monotone rnd Hr). exact Hx.
  - rewrite (rnd_integer rnd Hr n Hn). apply Qle_refl.
Qed.

Lemma rnd_ge_integer (rnd : Q -> Q) (Hr : rounding rnd) (x : Q) (n : Z) :
  Z.abs n <= 2 ^ 53 -> (inject_Z n <= x)%Q -> (inject_Z n <= rnd x)%Q.
Proof.
  intros Hn Hx.
  apply Qle_trans with (rnd (inject_Z n)).
  - rewrite (rnd_integer rnd Hr n Hn). apply Qle_refl.
  - apply (rnd_monotone rnd Hr). exact Hx.
Qed.

(** The percentage of a whole multiple: with [completed_size = k * total_size]
    the message shows [100 * k]. *)
Lemma progress_multiple (rnd : Q -> Q) (Hr : rounding rnd) (k total_size : Z) :
  0 < total_size -> 0 <= k -> 100 * k <= 2 ^ 53 ->
  progress rnd (k * total_size) total_size = 100 * k.
Proof.
  intros Ht Hk Hb. unfold progress, fmul, truediv.
  assert (E1 : (rnd (inject_Z (k * total_size) / inject_Z total_size) == inject_Z k)%Q).
  { rewrite <- (rnd_integer rnd Hr k) by lia.
    apply (rnd_proper rnd Hr).
    rewrite inject_Z_mult. field.
    intros E. unfold Qeq in E. simpl in E. lia. }
  assert (E2 : (rnd (rnd (inject_Z (k * total_size) / inject_Z total_size) * inject_Z 100)
                == inject_Z (100 * k))%Q).
  { rewrite <- (rnd_integer rnd Hr (100 * k)) by lia.
    apply (rnd_proper rnd Hr).
    rewrite E1, inject_Z_mult. ring. }
  set (x := rnd (rnd (inject_Z (k * total_size) / inject_Z total_size) * inject_Z 100)%Q) in *.
  assert (H : 100 * k <= int x <= 100 * k).
  { apply int_bounds; [lia | rewrite E2; apply Qle_refl | rewrite E2; apply Qle_refl]. }
  lia.
Qed.

(** [completed_size] adds up what the chunks brought. *)
Lemma completed_size_ignoring_range :
  let m := {| u_head := Some (Length 5242880);
              u_chunk := fun _ => Some 5242880%N;
              u_timeout := false; u_zip := BadZip |} in
  completed_size m (chunk_ranges 5242880) = 15728640.
Proof. reflexivity. Qed.

(** C7, as stated, fails: nothing clamps the percentage.  When a mirror
    ignores the [Range] header and answers each of the three ranged
    requests for a 5 MiB file with the whole file, [completed_size] reaches
    15 MiB and the message shows 300%, whatever the rounding. *)
Lemma progress_not_clamped :
  (forall rnd, rounding rnd -> progress rnd 15728640 5242880 = 300)
  /\ ~ (forall (rnd : Q -> Q) (completed_size total_size : Z),
          rounding rnd -> 0 < total_size ->
          0 <= progress rnd completed_size total_size <= 100).
Proof.
  assert (H300 : forall rnd, rounding rnd -> progress rnd 15728640 5242880 = 300).
  { intros rnd Hr. change 15728640 with (3 * 5242880).
    rewrite (progress_multiple rnd Hr 3 5242880) by (try lia; reflexivity).
    reflexivity. }
  split; [exact H300|].
  intros H.
  assert (Hid : rounding (fun x => x)).
  { split; [intros x y Hxy; exact Hxy | intros n _; apply Qeq_refl]. }
  specialize (H (fun x => x) 15728640 5242880 Hid ltac:(lia)).
  rewrite (H300 _ Hid) in H. lia.
Qed.

(** In the loop over the memory-mapped file the bytes counted never exceed
    [total_size]: a read that does not fit the map is dropped. *)
Lemma mmap_loop_bounded (total_size : Z) (b : body) : forall position downloaded,
  position = downloaded -> downloaded <= total_size ->
  match mmap_loop total_size position downloaded b with
  | Left_loop d _ => downloaded <= d <= total_size
  | Never_left => True
  end.
Proof.
  induction b as [| |r rest IH]; intros position downloaded Hp Hd; simpl.
  - destruct (downloaded <? total_size); lia.
  - destruct (downloaded <? total_size); [exact I | lia].
  - destruct (downloaded <? total_size); [|lia].
    destruct r as [|n].
    + specialize (IH position downloaded Hp Hd).
      destruct (mmap_loop total_size position downloaded rest); simpl; exact IH.
    + destruct (Z.eqb_spec (Z.of_N n) 0); [lia|].
      destruct (Z.leb_spec (position + Z.of_N n) total_size).
      * specialize (IH (position + Z.of_N n) (downloaded + Z.of_N n)
                      ltac:(lia) ltac:(lia)).
        destruct (mmap_loop total_size _ _ rest); simpl; [lia | exact I].
      * specialize (IH position downloaded Hp Hd).
        destruct (mmap_loop total_size position downloaded rest); simpl; exact IH.
Qed.

(** C7, amended: whenever the bytes counted do not exceed the total, and
    the total is positive, the percentage lies between 0 and 100. *)
Theorem progress_in_range (rnd : Q -> Q) (completed_size total_size : Z) :
  rounding rnd ->
  0 < total_size -> 0 <= completed_size <= total_size ->
  0 <= progress rnd completed_size total_size <= 100.
Proof.
  intros Hr Ht Hc. unfold progress, fmul, truediv.
  set (q := (inject_Z completed_size / inject_Z total_size)%Q).
  assert (Ht' : (0 < inject_Z total_size)%Q).
  { change 0%Q with (inject_Z 0). rewrite <- Zlt_Qlt. exact Ht. }
  assert (Hq0 : (inject_Z 0 <= q)%Q).
  { unfold q. apply Qle_shift_div_l; [exact Ht'|].
    rewrite Qmult_0_l. change 0%Q with (inject_Z 0). rewrite <- Zle_Qle. lia. }
  assert (Hq1 : (q <= inject_Z 1)%Q).
  { unfold q. apply Qle_shift_div_r; [exact Ht'|].
    rewrite Qmult_1_l. rewrite <- Zle_Qle. lia. }
  assert (Hr0 : (inject_Z 0 <= rnd q)%Q).
  { apply (rnd_ge_integer rnd Hr); [simpl; lia | exact Hq0]. }
  assert (Hr1 : (rnd q <= inject_Z 1)%Q).
  { apply (rnd_le_integer rnd Hr); [simpl; lia | exact Hq1]. }
  apply int_bounds; [lia | |].
  - apply (rnd_ge_integer rnd Hr); [simpl; lia|].
    change (inject_Z 0) with (inject_Z 0 * inject_Z 100)%Q.
    apply Qmult_le_compat_r; [exact Hr0 | discriminate].
  - apply (rnd_le_integer rnd Hr); [simpl; lia|].
    change (inject_Z 100) with (inject_Z 1 * inject_Z 100)%Q.
    apply Qmult_le_compat_r; [exact Hr1 | discriminate].
Qed.

Lemma progress_in_range_witness :
  0 <= progress (fun x => x) 2097152 5242880 <= 100.
Proof.
  apply progress_in_range.
  - split; [intros x y Hxy; exact Hxy | intros n _; apply Qeq_refl].
  - lia.
  - lia.
Defined.

(** ** The parallel fetcher accepts a file with a missing chunk *)

(** Writing chunks that stay inside a file of [total_size] bytes leaves its
    size alone. *)
Lemma fold_size_after_write (total_size : Z) (chunks : list (Z * Z)) :
  (forall start len, In (start, len) chunks -> start + len <= total_size) ->
  fold_left size_after_write chunks total_size = total_size.
Proof.
  induction chunks as [|[start len] chunks IH]; intros Hfit; [reflexivity|].
  simpl.
  assert (Hs : start + len <= total_size) by (apply Hfit; left; reflexivity).
  replace (if len =? 0 then total_size else Z.max total_size (start + len))
    with total_size by (destruct (len =? 0); lia).
  apply IH. intros s l Hin. apply Hfit. right. exact Hin.
Qed.

Lemma fetch_chunks_In (m : ultra_mirror) (ranges : list (Z * Z)) (start len : Z) :
  In (start, len) (fetch_chunks m ranges) ->
  exists end_ n, In (start, end_) ranges
                 /\ u_chunk m (start, end_) = Some n /\ len = Z.of_N n.
Proof.
  induction ranges as [|[s e] ranges IH]; simpl; [intros []|].
  destruct (u_chunk m (s, e)) as [n|] eqn:E.
  - intros [[= <- <-]|Hin].
    + exists e, n. auto.
    + destruct (IH Hin) as (e' & n' & H1 & H2 & H3). exists e', n'. auto.
  - intros Hin. destruct (IH Hin) as (e' & n' & H1 & H2 & H3). exists e', n'. auto.
Qed.

(** The check [actual_size == total_size] of line 721 cannot see a chunk
    that failed: as long as no answer is longer than the range asked for,
    the pre-allocated file still has [total_size] bytes after the chunks
    that did arrive are written, whichever chunks are missing. *)
Lemma size_check_blind_to_failures (m : ultra_mirror) (total_size : Z) :
  (forall r n, In r (chunk_ranges total_size) -> u_chunk m r = Some n ->
               Z.of_N n <= snd r - fst r + 1) ->
  0 < total_size ->
  fold_left size_after_write (fetch_chunks m (chunk_ranges total_size)) total_size
  = total_size.
Proof.
  intros Hfit Ht. apply fold_size_after_write.
  intros start len Hin.
  destruct (fetch_chunks_In _ _ _ _ Hin) as (e & n & Hr & Hc & ->).
  specialize (Hfit _ _ Hr Hc). simpl in Hfit.
  destruct (chunk_ranges_contiguous total_size Ht) as [Hcont _].
  pose proof (contiguous_In _ _ _ _ _ Hcont Hr). lia.
Qed.

(** Whichever chunk requests fail, even all of them, a mirror whose answers
    are no longer than the ranges asked for passes the size check, and the
    turn returns [True] as soon as the zip library opens the file. *)
Lemma any_failed_chunk_accepted (m : ultra_mirror) (total_size : Z) :
  probe_size m = Some total_size ->
  0 < total_size ->
  u_timeout m = false ->
  (forall r n, In r (chunk_ranges total_size) -> u_chunk m r = Some n ->
               Z.of_N n <= snd r - fst r + 1) ->
  u_zip m = Unpacked [("ffmpeg-7.1-essentials_build",
                       Dir [("bin", Dir [("ffmpeg.exe", File 1000)])])] ->
  ultra_attempt m (World (Dir [("FFmpeg", Dir [])]) None)
  = Returns (Some true)
      (World (Dir [("FFmpeg", Dir [("bin", Dir [("ffmpeg.exe", File 1000)])])]) None).
Proof.
  intros Hp Ht Hto Hfit Hzip.
  unfold ultra_attempt. rewrite Hp, Hto, Hzip.
  unfold try_except, bind, preallocate, assemble, bind, seek.
  destruct (Z.ltb_spec (total_size - 1) 0) as [|_]; [lia|].
  cbn -[chunk_ranges fetch_chunks fold_left Z.eqb].
  rewrite (size_check_blind_to_failures m total_size Hfit Ht).
  cbn -[Z.eqb]. rewrite Z.eqb_refl. reflexivity.
Qed.

(** C1 fails on the code.  A mirror serves a 5 MiB archive; the request for
    the second of the three ranges raises, the other two arrive; the zip
    library opens the assembled file.  The chunk is missing from
    [downloaded_chunks], yet the size check passes, the archive is
    installed, and the fetcher returns [True] for that mirror. *)
Theorem failed_chunk_accepted :
  let m := {| u_head := Some (Length 5242880);
              u_chunk := fun r => if fst r =? 2097152 then None
                                  else Some (Z.to_N (snd r - fst r + 1));
              u_timeout := false;
              u_zip := Unpacked [("ffmpeg-7.1-essentials_build",
                                  Dir [("bin", Dir [("ffmpeg.exe", File 1000)])])] |} in
  let n := {| ultra := fun _ => m;
              simple := fun _ => {| s_open := None; s_zip := BadZip |};
              aria := fun _ => {| a_run := None; a_zip := BadZip |} |} in
  chunk_ranges 5242880 = [(0, 2097151); (2097152, 4194303); (4194304, 5242879)]
  /\ u_chunk m (2097152, 4194303) = None
  /\ fetch_chunks m (chunk_ranges 5242880) = [(0, 2097152); (4194304, 1048576)]
  /\ ultra_attempt m (World (Dir [("FFmpeg", Dir [])]) None)
     = Returns (Some true)
         (World (Dir [("FFmpeg", Dir [("bin", Dir [("ffmpeg.exe", File 1000)])])]) None)
  /\ download_with_ultra_speed "Windows" n (World (Dir []) None)
     = Returns true
         (World (Dir [("FFmpeg", Dir [("bin", Dir [("ffmpeg.exe", File 1000)])])]) None).
Proof.
  cbv zeta. repeat split; vm_compute; reflexivity.
Qed.

(** ** Success is reported without an installed executable *)

(** Whatever the name of the top folder and whatever it holds, if it has no
    [bin] the turn of the sequential fetcher returns [True] with nothing
    installed. *)
Lemma missing_bin_accepted (folder : string) (es : list (string * node)) :
  get_entry "bin" es = None ->
  simple_attempt
    {| s_open := Some (Length 1000, Next (ReadBytes 1000) Closed);
       s_zip := Unpacked [(folder, Dir es)] |}
    (World (Dir [("FFmpeg", Dir [])]) None)
  = Returns (Some true) (World (Dir [("FFmpeg", Dir [])]) None).
Proof.
  intros Hbin.
  assert (E : exists_ ["FFmpeg"; "temp"; folder; "bin"]
               (Dir [("FFmpeg", Dir [("ffmpeg_temp.zip", File 1000);
                                     ("temp", Dir [(folder, Dir es)])])])
             = false).
  { unfold exists_.
    repeat first
      [ progress cbn [lookup get_entry]
      | progress change (String.eqb "FFmpeg" "FFmpeg") with true
      | progress change (String.eqb "temp" "ffmpeg_temp.zip") with false
      | progress change (String.eqb "temp" "temp") with true
      | rewrite String.eqb_refl
      | rewrite Hbin ].
    reflexivity. }
  cbv [simple_attempt s_open s_zip content_length try_except bind create_tmp
       modify set_tmp fetch_to_file write_tmp disk tmp].
  cbn. rewrite E. cbn. reflexivity.
Qed.

(** C4 fails on the code.  The archive unpacks to one folder that has no
    [bin] in it.  Both fetchers that install it return [True], nothing is
    installed, and the gate still answers false. *)
Theorem archive_without_bin_accepted :
  let listing := [("ffmpeg-7.1-essentials_build",
                   Dir [("doc", Dir []); ("README.txt", File 10)])] in
  let n := {| ultra := fun _ => {| u_head := Some (Length 1000);
                                   u_chunk := fun _ => Some 1000%N;
                                   u_timeout := false;
                                   u_zip := Unpacked listing |};
              simple := fun _ => {| s_open := Some (Length 1000,
                                                    Next (ReadBytes 1000) Closed);
                                    s_zip := Unpacked listing |};
              aria := fun _ => {| a_run := None; a_zip := BadZip |} |} in
  let w := World (Dir []) None in
  let w' := World (Dir [("FFmpeg", Dir [])]) None in
  download_with_requests_simple "Windows" n w = Returns true w'
  /\ download_with_ultra_speed "Windows" n w = Returns true w'
  /\ lookup bin_target (disk w') = None
  /\ is_ffmpeg_available "Windows" w' = Returns false w'.
Proof.
  cbv zeta. repeat split; vm_compute; reflexivity.
Qed.

(** C2 fails on the code.  On macOS the only mirror serves a zip that holds
    the [ffmpeg] binary and no folder.  Called without a parent window,
    [ensure_ffmpeg_available] finds the gate closed, downloads, and returns
    [True]; the gate is still closed afterwards. *)
Theorem ensure_returns_true_without_executable :
  let n := {| ultra := fun _ => {| u_head := None; u_chunk := fun _ => None;
                                   u_timeout := false; u_zip := BadZip |};
              simple := fun _ => {| s_open := Some (Absent,
                                                    Next (ReadBytes 4194304)
                                                      (Next (ReadBytes 1000) Closed));
                                    s_zip := Unpacked [("ffmpeg", File 77000000)] |};
              aria := fun _ => {| a_run := None; a_zip := BadZip |} |} in
  let w := World (Dir []) None in
  let w' := World (Dir [("FFmpeg", Dir [])]) None in
  is_ffmpeg_available "Darwin" w = Returns false w
  /\ ensure_ffmpeg_available "Darwin" n None w = Returns true w'
  /\ is_ffmpeg_available "Darwin" w' = Returns false w'.
Proof.
  cbv zeta. repeat split; vm_compute; reflexivity.
Qed.

(** ** Read errors in the streaming branch *)

Section DiskOnly.

Context {A B : Type}.

Lemma disk_only_ret (a : A) : disk_only (ret a).
Proof. intros w. reflexivity. Qed.

Lemma disk_only_raise : disk_only (@raise A).
Proof. intros w. reflexivity. Qed.

Lemma disk_only_gets (f : world -> A) : disk_only (gets f).
Proof. intros w. reflexivity. Qed.

Lemma disk_only_bind (m : M A) (k : A -> M B) :
  disk_only m -> (forall a, disk_only (k a)) -> disk_only (bind m k).
Proof.
  intros Hm Hk w. unfold bind. specialize (Hm w).
  destruct (m w) as [a w'|w'|w']; try exact Hm.
  specialize (Hk a w').
  destruct (k a w') as [c w''|w''|w'']; try exact Hk; congruence.
Qed.

Lemma disk_only_try_except (m h : M A) :
  disk_only m -> disk_only h -> disk_only (try_except m h).
Proof.
  intros Hm Hh w. unfold try_except. specialize (Hm w).
  destruct (m w) as [a w'|w'|w']; try exact Hm.
  specialize (Hh w').
  destruct (h w') as [c w''|w''|w'']; try exact Hh; congruence.
Qed.

End DiskOnly.

(** A primitive that returns or raises with the disk changed at most. *)
Ltac disk_only_prim :=
  let w := fresh "w" in
  intros w;
  repeat match goal with
         | |- context [match lookup ?p ?d with _ => _ end] => destruct (lookup p d)
         | |- context [match store ?p ?v ?d with _ => _ end] => destruct (store p v d)
         | |- context [match ?x with _ => _ end] =>
             lazymatch x with
             | context [match _ with _ => _ end] => fail
             | _ => destruct x
             end
         end;
  reflexivity.

Lemma disk_only_os_remove (p : path) : disk_only (os_remove p).
Proof. unfold os_remove. disk_only_prim. Qed.

Lemma disk_only_rmtree (p : path) : disk_only (rmtree p).
Proof. unfold rmtree. disk_only_prim. Qed.

Lemma disk_only_listdir (p : path) : disk_only (listdir p).
Proof. unfold listdir. disk_only_prim. Qed.

Lemma disk_only_move (src dst : path) : disk_only (move src dst).
Proof. unfold move. disk_only_prim. Qed.

Lemma disk_only_extractall (z : unzip) : disk_only (extractall z).
Proof. unfold extractall. disk_only_prim. Qed.

Lemma disk_only_path_exists (p : path) : disk_only (path_exists p).
Proof. apply disk_only_gets. Qed.

Lemma disk_only_move_bin (shutil_bound : bool) : disk_only (move_bin shutil_bound).
Proof.
  unfold move_bin.
  apply disk_only_bind; [apply disk_only_listdir|]. intros listing.
  destruct (filter _ listing) as [|[folder c] l]; [apply disk_only_ret|].
  apply disk_only_bind; [apply disk_only_path_exists|]. intros [|];
    [|apply disk_only_ret].
  apply disk_only_bind; [|intros _; apply disk_only_move].
  apply disk_only_bind; [apply disk_only_path_exists|]. intros [|];
    [apply disk_only_rmtree|].
  destruct shutil_bound; [apply disk_only_ret | apply disk_only_raise].
Qed.

Create HintDb disk_only.

#[local] Hint Resolve disk_only_ret disk_only_raise disk_only_gets
  disk_only_os_remove disk_only_rmtree disk_only_listdir disk_only_move
  disk_only_extractall disk_only_path_exists disk_only_move_bin
  disk_only_try_except : disk_only.

#[local] Hint Extern 1 (disk_only (bind _ _)) =>
  apply disk_only_bind; [|intros ?] : disk_only.

(** What is left of a turn of the sequential fetcher once the file is
    fetched: unpack, install, clean up. *)
Lemma disk_only_install (z : unzip) :
  disk_only
    ((extractall z ;; move_bin true ;; rmtree_ignore_errors temp_extract) ;;
     os_remove filename ;; ret (Some true)).
Proof. unfold rmtree_ignore_errors. auto 10 with disk_only. Qed.

(** The [except] branch of a turn: it returns, and goes on to the next
    mirror. *)
Lemma simple_handler_returns (w : world) :
  exists w',
    (present <- path_exists filename ;;
     (if present then try_except (os_remove filename) (ret tt) else ret tt) ;;
     ret (@None bool)) w = Returns None w'
    /\ tmp w' = tmp w.
Proof.
  unfold bind, path_exists, gets.
  destruct (exists_ filename (disk w)).
  - unfold try_except. pose proof (disk_only_os_remove filename w) as H.
    destruct (os_remove filename w) as [[] w'|w'|w'] eqn:E; simpl in *.
    + exists w'. split; [reflexivity | exact H].
    + exists w'. split; [reflexivity | exact H].
    + destruct H.
  - exists w. split; reflexivity.
Qed.

(** A read that raises does not end the streaming loop: the loop goes on as
    if that read had never been made, with one read more. *)
Lemma stream_loop_skips_error (pre : list read) (rest : body) : forall downloaded,
  Forall (fun r => r <> ReadBytes 0) pre ->
  stream_loop downloaded (reads_then pre (Next ReadRaises rest))
  = one_more_read (stream_loop downloaded (reads_then pre rest)).
Proof.
  induction pre as [|r pre IH]; intros downloaded Hpre; [reflexivity|].
  inversion Hpre as [|? ? Hr Hpre']; subst.
  destruct r as [|n]; simpl.
  - rewrite IH by exact Hpre'. reflexivity.
  - destruct (Z.eqb_spec (Z.of_N n) 0) as [E|E].
    + exfalso. apply Hr. f_equal. lia.
    + rewrite IH by exact Hpre'. reflexivity.
Qed.

(** [shutil.move(temp_filename, dst)] ends with the temporary file gone, or
    raises and leaves it. *)
Lemma move_tmp_outcome (dst : path) (w : world) :
  match move_tmp dst w with
  | Returns _ w' => tmp w' = None
  | Raises w' => w' = w
  | Hangs _ => False
  end.
Proof.
  unfold move_tmp.
  destruct (tmp w) as [size|]; [|reflexivity].
  destruct (lookup dst (disk w)) as [[s|es]|].
  - destruct (store dst _ (disk w)); reflexivity.
  - destruct (lookup _ (disk w)); [reflexivity|].
    destruct (store _ _ (disk w)); reflexivity.
  - destruct (store dst _ (disk w)); reflexivity.
Qed.

(** The streaming branch of [fetch_to_file]: it ends with the temporary
    file gone, or never ends. *)
Lemma fetch_to_file_streaming (total_size : Z) (b : body) (w : world) :
  total_size <= 0 ->
  match fetch_to_file total_size b w with
  | Returns _ w' => tmp w' = None
  | Raises w' => tmp w' = None
  | Hangs w' => w' = w /\ stream_loop 0 b = Never_left
  end.
Proof.
  intros Ht. unfold fetch_to_file.
  destruct (Z.ltb_spec 0 total_size) as [|_]; [lia|].
  unfold try_except, bind.
  destruct (stream_loop 0 b) as [downloaded reads|].
  - unfold write_tmp, modify.
    pose proof (move_tmp_outcome filename (set_tmp (Some downloaded) w)) as Hm.
    destruct (move_tmp filename (set_tmp (Some downloaded) w)) as [[] w'|w'|w'].
    + exact Hm.
    + reflexivity.
    + destruct Hm.
  - simpl. split; reflexivity.
Qed.

(** C5, amended: in the streaming branch a read that raises is caught and
    the loop goes on with the next read, counting the bytes as if the
    failed read had not been made; and a turn on a mirror of unknown length
    either comes to an end, with the temporary file gone (moved into place,
    or removed), or never ends because the reads never stop raising, with
    the temporary file still there. *)
Theorem streaming_read_error_is_skipped
  (m : simple_mirror) (h : header) (b : body) (total_size : Z) (w : world) :
  s_open m = Some (h, b) ->
  content_length h = Some total_size ->
  total_size <= 0 ->
  (forall pre rest,
      b = reads_then pre (Next ReadRaises rest) ->
      Forall (fun r => r <> ReadBytes 0) pre ->
      stream_loop 0 b = one_more_read (stream_loop 0 (reads_then pre rest)))
  /\ match simple_attempt m w with
     | Returns _ w' => tmp w' = None
     | Raises _ => False
     | Hangs w' => tmp w' <> None /\ stream_loop 0 b = Never_left
     end.
Proof.
  intros Hopen Hlen Ht. split.
  - intros pre rest -> Hpre. apply stream_loop_skips_error. exact Hpre.
  - unfold simple_attempt. rewrite Hopen, Hlen.
    unfold try_except at 1.
    unfold bind at 1. unfold create_tmp, modify.
    set (w1 := set_tmp (Some 0) w).
    unfold bind at 1.
    pose proof (fetch_to_file_streaming total_size b w1 Ht) as Hf.
    destruct (fetch_to_file total_size b w1) as [[] w2|w2|w2].
    + pose proof (disk_only_install (s_zip m) w2) as Hi.
      match type of Hi with
      | match ?c with _ => _ end => destruct c as [r w3|w3|w3]
      end.
      * congruence.
      * destruct (simple_handler_returns w3) as (w4 & -> & Hw4). congruence.
      * destruct Hi.
    + destruct (simple_handler_returns w2) as (w4 & -> & Hw4). congruence.
    + destruct Hf as [-> Hs]. split; [discriminate | exact Hs].
Qed.

Lemma streaming_read_error_is_skipped_witness :
  let b := Next (ReadBytes 500) (Next ReadRaises (Next (ReadBytes 1000) Closed)) in
  let m := {| s_open := Some (Absent, b); s_zip := BadZip |} in
  let w := World (Dir [("FFmpeg", Dir [])]) None in
  (s_open m = Some (Absent, b) /\ content_length Absent = Some 0 /\ 0 <= 0)
  /\ stream_loop 0 b
     = one_more_read (stream_loop 0 (Next (ReadBytes 500) (Next (ReadBytes 1000) Closed)))
  /\ match simple_attempt m w with
     | Returns _ w' => tmp w' = None
     | Raises _ => False
     | Hangs w' => tmp w' <> None /\ stream_loop 0 b = Never_left
     end.
Proof.
  intros b m w.
  assert (Hopen : s_open m = Some (Absent, b)) by reflexivity.
  assert (Hlen : content_length Absent = Some 0) by reflexivity.
  assert (Ht : 0 <= 0) by lia.
  destruct (streaming_read_error_is_skipped m Absent b 0 w Hopen Hlen Ht)
    as [Hskip Hend].
  split; [repeat split; assumption|]. split; [|exact Hend].
  apply (Hskip [ReadBytes 500] (Next (ReadBytes 1000) Closed)).
  - reflexivity.
  - constructor; [discriminate | constructor].
Defined.

(** C5, as stated, fails.  With a body whose first read raises and whose
    second read brings 1000 bytes, the loop makes three reads, the transfer
    is completed and installed, and the turn returns [True].  With a body
    whose reads all raise, the loop is never left and the temporary file
    stays on the disk. *)
Lemma read_error_does_not_abort :
  let installed := Dir [("bin", Dir [("ffmpeg.exe", File 1000)])] in
  let unpacked := Unpacked [("ffmpeg-7.1-essentials_build", installed)] in
  let w := World (Dir [("FFmpeg", Dir [])]) None in
  let b := Next ReadRaises (Next (ReadBytes 1000) Closed) in
  stream_loop 0 b = Left_loop 1000 3
  /\ simple_attempt {| s_open := Some (Absent, b); s_zip := unpacked |} w
     = Returns (Some true) (World (Dir [("FFmpeg", installed)]) None)
  /\ simple_attempt {| s_open := Some (Absent, Next ReadRaises Broken);
                       s_zip := unpacked |} w
     = Hangs (World (Dir [("FFmpeg", Dir [])]) (Some 0)).
Proof.
  cbv zeta. repeat split; vm_compute; reflexivity.
Qed.

(** * Further properties *)

(** ** The disk: looking up what was stored *)

Module FSFacts.

Lemma get_entry_set_entry_eq (x : string) (c : node) (es : list (string * node)) :
  get_entry x (set_entry x c es) = Some c.
Proof.
  induction es as [|[y n] es IH]; simpl.
  - rewrite String.eqb_refl. reflexivity.
  - destruct (String.eqb x y) eqn:E; simpl.
    + rewrite String.eqb_refl. reflexivity.
    + rewrite E. exact IH.
Qed.

Lemma get_entry_set_entry_neq (x y : string) (c : node) (es : list (string * node)) :
  x <> y -> get_entry x (set_entry y c es) = get_entry x es.
Proof.
  intros Hxy. induction es as [|[z n] es IH]; simpl.
  - apply String.eqb_neq in Hxy. rewrite Hxy. reflexivity.
  - destruct (String.eqb y z) eqn:E; simpl.
    + apply String.eqb_eq in E. subst z.
      apply String.eqb_neq in Hxy. rewrite Hxy. reflexivity.
    + destruct (String.eqb x z); [reflexivity | exact IH].
Qed.

Lemma get_entry_del_entry_neq (x y : string) (es : list (string * node)) :
  x <> y -> get_entry x (del_entry y es) = get_entry x es.
Proof.
  intros Hxy. induction es as [|[z n] es IH]; simpl; [reflexivity|].
  destruct (String.eqb y z) eqn:E; simpl.
  - apply String.eqb_eq in E. subst z.
    apply String.eqb_neq in Hxy. rewrite Hxy. reflexivity.
  - destruct (String.eqb x z); [reflexivity | exact IH].
Qed.

Lemma get_entry_None_not_In (x : string) (es : list (string * node)) :
  get_entry x es = None <-> ~ In x (map fst es).
Proof.
  induction es as [|[y n] es IH]; simpl.
  - split; [intros _ [] | reflexivity].
  - destruct (String.eqb_spec x y) as [->|Hxy].
    + split; [discriminate | intros H; exfalso; apply H; left; reflexivity].
    + rewrite IH. split.
      * intros H [E|Hin]; [congruence | exact (H Hin)].
      * intros H Hin. apply H. right. exact Hin.
Qed.

Lemma get_entry_del_entry_eq (x : string) (es : list (string * node)) :
  NoDup (map fst es) -> get_entry x (del_entry x es) = None.
Proof.
  induction es as [|[y n] es IH]; simpl; intros Hnd; [reflexivity|].
  inversion Hnd as [|? ? Hy Hnd']; subst.
  destruct (String.eqb_spec x y) as [->|Hxy].
  - apply get_entry_None_not_In. exact Hy.
  - simpl. apply String.eqb_neq in Hxy. rewrite Hxy. apply IH. exact Hnd'.
Qed.

Lemma set_entry_set_entry (x : string) (c c' : node) (es : list (string * node)) :
  set_entry x c' (set_entry x c es) = set_entry x c' es.
Proof.
  induction es as [|[y n] es IH]; simpl.
  - rewrite String.eqb_refl. reflexivity.
  - destruct (String.eqb x y) eqn:E; simpl.
    + rewrite String.eqb_refl. reflexivity.
    + rewrite E. rewrite IH. reflexivity.
Qed.

Lemma lookup_cons (x : string) (p : path) (es : list (string * node)) :
  lookup (x :: p) (Dir es)
  = match get_entry x es with Some c => lookup p c | None => None end.
Proof. reflexivity. Qed.

Lemma lookup_one (x : string) (es : list (string * node)) :
  lookup [x] (Dir es) = get_entry x es.
Proof. simpl. destruct (get_entry x es); reflexivity. Qed.

Lemma store_one (x : string) (v : option node) (es : list (string * node)) :
  store [x] v (Dir es)
  = Some (Dir (match v with
               | Some c => set_entry x c es
               | None => del_entry x es
               end)).
Proof. reflexivity. Qed.

Lemma store_more (x y : string) (p : path) (v : option node)
    (es : list (string * node)) :
  store (x :: y :: p) v (Dir es)
  = match get_entry x es with
    | Some c =>
        match store (y :: p) v c with
        | Some c' => Some (Dir (set_entry x c' es))
        | None => None
        end
    | None => None
    end.
Proof. reflexivity. Qed.

Lemma del_entry_absent (x : string) (es : list (string * node)) :
  get_entry x es = None -> del_entry x es = es.
Proof.
  induction es as [|[y n] es IH]; simpl; [reflexivity|].
  destruct (String.eqb x y); [discriminate|].
  intros H. rewrite (IH H). reflexivity.
Qed.

Lemma set_entry_present (x : string) (c : node) (es : list (string * node)) :
  get_entry x es = Some c -> set_entry x c es = es.
Proof.
  induction es as [|[y n] es IH]; simpl; [discriminate|].
  destruct (String.eqb_spec x y) as [->|Hxy].
  - intros H. injection H as ->. reflexivity.
  - intros H. rewrite (IH H). reflexivity.
Qed.

Lemma NoDup_set_entry (x : string) (c : node) (es : list (string * node)) :
  NoDup (map fst es) -> NoDup (map fst (set_entry x c es)).
Proof.
  induction es as [|[y n] es IH]; simpl; intros Hnd.
  - constructor; [intros [] | constructor].
  - inversion Hnd as [|? ? Hy Hnd']; subst.
    destruct (String.eqb_spec x y) as [->|Hxy]; simpl.
    + constructor; assumption.
    + constructor; [|exact (IH Hnd')].
      apply get_entry_None_not_In.
      rewrite get_entry_set_entry_neq by congruence.
      apply get_entry_None_not_In. exact Hy.
Qed.

Lemma NoDup_del_entry (x : string) (es : list (string * node)) :
  NoDup (map fst es) -> NoDup (map fst (del_entry x es)).
Proof.
  induction es as [|[y n] es IH]; simpl; intros Hnd; [constructor|].
  inversion Hnd as [|? ? Hy Hnd']; subst.
  destruct (String.eqb x y); simpl; [exact Hnd'|].
  constructor; [|exact (IH Hnd')].
  apply get_entry_None_not_In.
  destruct (String.eqb_spec y x) as [->|Hyx].
  - apply get_entry_del_entry_eq. exact Hnd'.
  - rewrite get_entry_del_entry_neq by exact Hyx.
    apply get_entry_None_not_In. exact Hy.
Qed.

Lemma set_entry_absent (x : string) (c : node) (es : list (string * node)) :
  get_entry x es = None -> set_entry x c es = (es ++ [(x, c)])%list.
Proof.
  induction es as [|[y n] es IH]; simpl; [reflexivity|].
  destruct (String.eqb x y); [discriminate|].
  intros H. rewrite (IH H). reflexivity.
Qed.

Lemma length_set_entry_present (x : string) (c c0 : node) (es : list (string * node)) :
  get_entry x es = Some c0 -> List.length (set_entry x c es) = List.length es.
Proof.
  induction es as [|[y n] es IH]; simpl; [discriminate|].
  destruct (String.eqb x y); [reflexivity|].
  intros H. simpl. rewrite (IH H). reflexivity.
Qed.

Lemma length_set_entry_le (x : string) (c : node) (es : list (string * node)) :
  (List.length (set_entry x c es) <= S (List.length es))%nat.
Proof.
  induction es as [|[y n] es IH]; simpl; [lia|].
  destruct (String.eqb x y); simpl; lia.
Qed.

Lemma Forall_set_entry (P : string * node -> Prop) (x : string) (c : node)
    (es : list (string * node)) :
  P (x, c) -> Forall P es -> Forall P (set_entry x c es).
Proof.
  intros Hx. induction es as [|[y n] es IH]; simpl; intros Hes.
  - constructor; [exact Hx | constructor].
  - inversion Hes as [|? ? Hy Hes']; subst.
    destruct (String.eqb x y); constructor; auto.
Qed.

Lemma get_entry_app (x : string) (l1 l2 : list (string * node)) :
  get_entry x (l1 ++ l2)%list
  = match get_entry x l1 with
    | Some c => Some c
    | None => get_entry x l2
    end.
Proof.
  induction l1 as [|[y n] l1 IH]; simpl; [reflexivity|].
  destruct (String.eqb x y); [reflexivity | exact IH].
Qed.

Lemma get_entry_In (x : string) (c : node) (es : list (string * node)) :
  get_entry x es = Some c -> In (x, c) es.
Proof.
  induction es as [|[y n] es IH]; simpl; [discriminate|].
  destruct (String.eqb_spec x y) as [->|Hxy].
  - intros [= ->]. left. reflexivity.
  - intros H. right. exact (IH H).
Qed.

Lemma del_entry_comm (x y : string) (es : list (string * node)) :
  del_entry x (del_entry y es) = del_entry y (del_entry x es).
Proof.
  induction es as [|[z n] es IH]; [reflexivity|].
  cbn [del_entry].
  destruct (String.eqb y z) eqn:Ey; destruct (String.eqb x z) eqn:Ex;
    cbn [del_entry]; rewrite ?Ey, ?Ex; try reflexivity.
  - apply String.eqb_eq in Ey, Ex. subst. reflexivity.
  - rewrite IH. reflexivity.
Qed.

(** What was stored at [p] is found at [p]. *)
Lemma lookup_store_same (p : path) (v : node) : forall d d',
  store p (Some v) d = Some d' -> lookup p d' = Some v.
Proof.
  induction p as [|x p IH]; intros d d' H; [discriminate|].
  simpl in H. destruct d as [s|es]; [discriminate|].
  destruct p as [|y p].
  - injection H as <-. simpl. rewrite get_entry_set_entry_eq. reflexivity.
  - destruct (get_entry x es) as [c|]; [|discriminate].
    destruct (store (y :: p) (Some v) c) as [c'|] eqn:E; [|discriminate].
    injection H as <-.
    change (lookup (x :: y :: p) (Dir (set_entry x c' es)))
      with (match get_entry x (set_entry x c' es) with
            | Some c0 => lookup (y :: p) c0
            | None => None
            end).
    rewrite get_entry_set_entry_eq. exact (IH _ _ E).
Qed.

(** Storing at [p ++ [x]] does not change what is found through another
    name [y] of the same directory. *)
Lemma lookup_store_sibling (p : path) (x y : string) (q : path) (v : option node) :
  x <> y -> forall d d',
  store (p ++ [x])%list v d = Some d' ->
  lookup (p ++ y :: q)%list d' = lookup (p ++ y :: q)%list d.
Proof.
  intros Hxy. induction p as [|a p IH]; intros d d' H.
  - simpl in H. destruct d as [s|es]; [discriminate|]. injection H as <-.
    simpl. destruct v as [c|].
    + rewrite get_entry_set_entry_neq by congruence. reflexivity.
    + rewrite get_entry_del_entry_neq by congruence. reflexivity.
  - change ((a :: p) ++ [x])%list with (a :: (p ++ [x]))%list in H.
    simpl in H. destruct d as [s|es]; [discriminate|].
    destruct (p ++ [x])%list as [|b r] eqn:Epx.
    { destruct p; discriminate. }
    destruct (get_entry a es) as [c|] eqn:Ea; [|discriminate].
    destruct (store (b :: r) v c) as [c'|] eqn:E; [|discriminate].
    injection H as <-.
    change (((a :: p) ++ y :: q))%list with (a :: (p ++ y :: q))%list.
    simpl. rewrite get_entry_set_entry_eq, Ea.
    exact (IH _ _ E).
Qed.

End FSFacts.

Import FSFacts.

(** ** Invariants and outcomes of computations *)

Section Preserves.

Context {A B : Type} (P : world -> Prop).

Lemma preserves_ret (a : A) : preserves P (ret a).
Proof. intros w H. exact H. Qed.

Lemma preserves_raise : preserves P (@raise A).
Proof. intros w H. exact H. Qed.

Lemma preserves_hang : preserves P (@hang A).
Proof. intros w H. exact H. Qed.

Lemma preserves_gets (f : world -> A) : preserves P (gets f).
Proof. intros w H. exact H. Qed.

Lemma preserves_bind (m : M A) (k : A -> M B) :
  preserves P m -> (forall a, preserves P (k a)) -> preserves P (bind m k).
Proof.
  intros Hm Hk w H. unfold bind. specialize (Hm w H).
  destruct (m w) as [a w'|w'|w']; try exact Hm.
  exact (Hk a w' Hm).
Qed.

Lemma preserves_try_except (m h : M A) :
  preserves P m -> preserves P h -> preserves P (try_except m h).
Proof.
  intros Hm Hh w H. unfold try_except. specialize (Hm w H).
  destruct (m w) as [a w'|w'|w']; try exact Hm.
  exact (Hh w' Hm).
Qed.

End Preserves.

Lemma preserves_for_each {A} (P : world -> Prop) (step : A -> M (option bool))
    (l : list A) :
  (forall x, preserves P (step x)) -> preserves P (for_each step l).
Proof.
  intros Hstep. induction l as [|x l IH]; simpl.
  - apply preserves_ret.
  - apply preserves_bind; [apply Hstep|].
    intros [b|]; [apply preserves_ret | exact IH].
Qed.

(** [try: ... except: h] does not raise when [h] does not. *)
Lemma try_except_no_raise {A} (m h : M A) :
  (forall w w', h w <> Raises w') ->
  forall w w', try_except m h w <> Raises w'.
Proof.
  intros Hh w w'. unfold try_except.
  destruct (m w) as [a w1|w1|w1]; try discriminate. apply Hh.
Qed.

Lemma download_with_ultra_speed_no_raise (system : string) (n : net) (w w' : world) :
  download_with_ultra_speed system n w <> Raises w'.
Proof.
  unfold download_with_ultra_speed. apply try_except_no_raise.
  intros w0 w0'. apply download_with_requests_simple_no_raise.
Qed.

Lemma download_ffmpeg_no_raise (system : string) (u : user) : forall w w',
  download_ffmpeg system u w <> Raises w'.
Proof.
  induction u as [|during on_failure IH]; intros w w'; simpl; [discriminate|].
  unfold bind.
  pose proof (try_except_no_raise (download_with_ultra_speed system during)
                (ret false) ltac:(discriminate) w) as Ht.
  destruct (try_except _ _ w) as [[|] w1|w1|w1]; try discriminate.
  - apply IH.
  - exfalso. exact (Ht w1 eq_refl).
Qed.


(** X2: With the executable in place [ensure_ffmpeg_available] returns [True]
    at once: no download is started, nothing on the disk changes, whatever
    the network and the person at the dialog would have done.  And it never
    raises. *)
Theorem ensure_ffmpeg_available_short_circuit
    (system : string) (n : net) (parent_window : option user) (w : world) :
  (is_ffmpeg_available system w = Returns true w ->
   ensure_ffmpeg_available system n parent_window w = Returns true w)
  /\ (forall w', ensure_ffmpeg_available system n parent_window w <> Raises w').
Proof.
  split.
  - intros H. unfold ensure_ffmpeg_available, bind. rewrite H. reflexivity.
  - intros w'. unfold ensure_ffmpeg_available, bind, is_ffmpeg_available, gets.
    destruct (exists_ _ (disk w) && isfile _ (disk w)); [discriminate|].
    destruct parent_window as [u|].
    + apply download_ffmpeg_no_raise.
    + apply download_with_requests_simple_no_raise.
Qed.

Lemma ensure_ffmpeg_available_short_circuit_witness :
  let w := World (Dir [("FFmpeg", Dir [("bin", Dir [("ffmpeg.exe", File 1000)])])]) None in
  let n := {| ultra := fun _ => {| u_head := None; u_chunk := fun _ => None;
                                   u_timeout := false; u_zip := BadZip |};
              simple := fun _ => {| s_open := None; s_zip := BadZip |};
              aria := fun _ => {| a_run := None; a_zip := BadZip |} |} in
  is_ffmpeg_available "Windows" w = Returns true w
  /\ ensure_ffmpeg_available "Windows" n (Some (Lets_run n Closes)) w = Returns true w.
Proof.
  intros w n.
  assert (H : is_ffmpeg_available "Windows" w = Returns true w) by reflexivity.
  split; [exact H|].
  exact (proj1 (ensure_ffmpeg_available_short_circuit "Windows" n _ w) H).
Defined.

(** ** The parallel fetcher without a usable mirror *)

Lemma makedirs_idempotent (p : path) (w w1 : world) :
  makedirs p w = Returns tt w1 -> makedirs p w1 = Returns tt w1.
Proof.
  unfold makedirs.
  destruct (lookup p (disk w)) as [[s|es]|] eqn:E; try discriminate.
  - intros [= <-]. rewrite E. reflexivity.
  - destruct (store p (Some (Dir [])) (disk w)) as [d|] eqn:Es; [|discriminate].
    intros [= <-]. simpl. rewrite (lookup_store_same _ _ _ _ Es). reflexivity.
Qed.

Lemma makedirs_outcome (p : path) (w : world) :
  (exists w1, makedirs p w = Returns tt w1) \/ makedirs p w = Raises w.
Proof.
  unfold makedirs.
  destruct (lookup p (disk w)) as [[s|es]|]; eauto.
  destruct (store p (Some (Dir [])) (disk w)); eauto.
Qed.

(** Once the install folder is made, making it again changes nothing. *)
Lemma download_with_requests_simple_after_makedirs
    (system : string) (n : net) (w w1 : world) :
  makedirs get_ffmpeg_folder w = Returns tt w1 ->
  download_with_requests_simple system n w1 = download_with_requests_simple system n w.
Proof.
  intros H. unfold download_with_requests_simple, try_except.
  unfold bind at 1 3. rewrite H, (makedirs_idempotent _ _ _ H). reflexivity.
Qed.

Lemma for_each_all_skip {A} (step : A -> M (option bool)) (l : list A) (w : world) :
  (forall x, In x l -> step x w = Returns None w) ->
  for_each step l w = Returns None w.
Proof.
  induction l as [|x l IH]; intros H; [reflexivity|].
  simpl. unfold bind. rewrite (H x (or_introl eq_refl)).
  apply IH. intros y Hy. apply H. right. exact Hy.
Qed.

(** X3: When no mirror reports a usable length (every size request raises, or
    reports no length, or 0), [download_with_ultra_speed] does exactly what
    [download_with_requests_simple] does. *)
Theorem ultra_speed_without_length_is_simple (system : string) (n : net) (w : world) :
  (forall url, In url (get_ffmpeg_download_urls system) ->
               probe_size (ultra n url) = None) ->
  download_with_ultra_speed system n w = download_with_requests_simple system n w.
Proof.
  intros Hprobe. unfold download_with_ultra_speed.
  unfold try_except at 1. unfold bind at 1.
  destruct (makedirs_outcome get_ffmpeg_folder w) as [[w1 Hm]|Hm]; rewrite Hm.
  - unfold bind at 1.
    rewrite for_each_all_skip.
    + rewrite (download_with_requests_simple_after_makedirs _ _ _ _ Hm).
      destruct (download_with_requests_simple system n w) as [b w2|w2|w2] eqn:E;
        try reflexivity.
      exfalso. exact (download_with_requests_simple_no_raise _ _ _ _ E).
    + intros url Hin. unfold ultra_attempt. rewrite (Hprobe url Hin). reflexivity.
  - reflexivity.
Qed.

Lemma ultra_speed_without_length_is_simple_witness :
  let n := {| ultra := fun _ => {| u_head := Some Absent; u_chunk := fun _ => None;
                                   u_timeout := false; u_zip := BadZip |};
              simple := fun _ => {| s_open := None; s_zip := BadZip |};
              aria := fun _ => {| a_run := None; a_zip := BadZip |} |} in
  let w := World (Dir []) None in
  download_with_ultra_speed "Windows" n w = download_with_requests_simple "Windows" n w.
Proof.
  intros n w. apply ultra_speed_without_length_is_simple.
  intros url _. reflexivity.
Defined.

(** ** The sequential fetcher: failure, termination, the temporary file *)

Lemma lookup_app (p q : path) : forall d,
  lookup (p ++ q)%list d
  = match lookup p d with Some c => lookup q c | None => None end.
Proof.
  induction p as [|x p IH]; intros d; [reflexivity|].
  simpl. destruct d as [s|es]; [reflexivity|].
  destruct (get_entry x es); [apply IH | reflexivity].
Qed.

Lemma same_install_refl (w : world) : same_install w w.
Proof. split; reflexivity. Qed.

Lemma preserves_makedirs_install (w0 : world) :
  preserves (same_install w0) (makedirs get_ffmpeg_folder).
Proof.
  intros w [Ht Hb]. unfold makedirs.
  destruct (lookup get_ffmpeg_folder (disk w)) as [[s|es]|] eqn:E;
    try (split; assumption).
  destruct (store get_ffmpeg_folder (Some (Dir [])) (disk w)) as [d|] eqn:Es;
    [|split; assumption].
  split; [exact Ht|].
  intros q. rewrite <- Hb. simpl disk.
  change (bin_target ++ q)%list with (get_ffmpeg_folder ++ "bin" :: q)%list.
  rewrite !lookup_app, E, (lookup_store_same _ _ _ _ Es). reflexivity.
Qed.

(** Writing or removing [ffmpeg_temp.zip] or the staging folder leaves the
    installed [bin] alone. *)
Lemma store_sibling_install (w0 w : world) (x : string) (v : option node) (d : node) :
  x <> "bin" ->
  same_install w0 w ->
  store (get_ffmpeg_folder ++ [x])%list v (disk w) = Some d ->
  same_install w0 (set_disk d w).
Proof.
  intros Hx [Ht Hb] Hs. split; [exact Ht|].
  intros q. rewrite <- Hb. simpl disk.
  change (bin_target ++ q)%list with (get_ffmpeg_folder ++ "bin" :: q)%list.
  exact (lookup_store_sibling _ _ _ _ _ Hx _ _ Hs).
Qed.

Lemma preserves_os_remove_filename (w0 : world) :
  preserves (same_install w0) (os_remove filename).
Proof.
  intros w H. unfold os_remove.
  destruct (lookup filename (disk w)) as [[s|es]|]; try exact H.
  destruct (store filename None (disk w)) as [d|] eqn:Es; [|exact H].
  apply (store_sibling_install w0 w "ffmpeg_temp.zip" None d); try assumption.
  discriminate.
Qed.

(** The [except] branch of a turn of the sequential fetcher. *)
Lemma simple_handler_install (w0 w : world) :
  same_install w0 w ->
  exists w',
    (present <- path_exists filename ;;
     (if present then try_except (os_remove filename) (ret tt) else ret tt) ;;
     ret (@None bool)) w = Returns None w'
    /\ same_install w0 w'.
Proof.
  intros H. unfold bind, path_exists, gets.
  destruct (exists_ filename (disk w)).
  - unfold try_except.
    pose proof (preserves_os_remove_filename w0 w H) as Hp.
    pose proof (disk_only_os_remove filename w) as Hd.
    destruct (os_remove filename w) as [[] w'|w'|w']; simpl in *.
    + exists w'. split; [reflexivity | exact Hp].
    + exists w'. split; [reflexivity | exact Hp].
    + destruct Hd.
  - exists w. split; [reflexivity | exact H].
Qed.

(** X4: When no mirror can be reached the sequential fetcher returns [False];
    the temporary file and an installed [bin] folder, with everything in
    it, are as before. *)
Theorem unreachable_mirrors_report_failure (system : string) (n : net) (w : world) :
  (forall url, In url (get_ffmpeg_download_urls system) ->
               s_open (simple n url) = None) ->
  exists w',
    download_with_requests_simple system n w = Returns false w'
    /\ same_install w w'.
Proof.
  intros Hopen. unfold download_with_requests_simple.
  unfold try_except at 1. unfold bind at 1.
  pose proof (preserves_makedirs_install w w (same_install_refl w)) as Hm.
  destruct (makedirs_outcome get_ffmpeg_folder w) as [[w1 E]|E]; rewrite E in *.
  - unfold bind at 1.
    assert (Hloop : forall l, (forall url, In url l -> s_open (simple n url) = None) ->
              forall w2, same_install w w2 ->
              exists w3, for_each (fun url => simple_attempt (simple n url)) l w2
                         = Returns None w3 /\ same_install w w3).
    { induction l as [|url l IH]; intros Hl w2 H2.
      - exists w2. split; [reflexivity | exact H2].
      - simpl. unfold bind at 1. unfold simple_attempt at 1.
        rewrite (Hl url (or_introl eq_refl)).
        unfold try_except at 1. unfold raise at 1.
        destruct (simple_handler_install w w2 H2) as (w3 & -> & H3).
        apply IH; [|exact H3]. intros u Hu. apply Hl. right. exact Hu. }
    destruct (Hloop _ Hopen w1 Hm) as (w3 & -> & H3).
    exists w3. split; [reflexivity | exact H3].
  - exists w. split; [reflexivity | exact Hm].
Qed.

Lemma unreachable_mirrors_report_failure_witness :
  let n := {| ultra := fun _ => {| u_head := None; u_chunk := fun _ => None;
                                   u_timeout := false; u_zip := BadZip |};
              simple := fun _ => {| s_open := None; s_zip := BadZip |};
              aria := fun _ => {| a_run := None; a_zip := BadZip |} |} in
  let w := World (Dir [("FFmpeg", Dir [("bin", Dir [("ffmpeg.exe", File 1000)]);
                                       ("ffmpeg_temp.zip", File 7)])]) None in
  exists w',
    download_with_requests_simple "Windows" n w = Returns false w'
    /\ same_install w w'.
Proof.
  intros n w. apply unreachable_mirrors_report_failure.
  intros url _. reflexivity.
Defined.

Lemma mmap_loop_ends (total_size : Z) (b : body) : ends b = true ->
  forall position downloaded,
    mmap_loop total_size position downloaded b <> Never_left.
Proof.
  induction b as [| |r rest IH]; intros He position downloaded; simpl in *.
  - destruct (downloaded <? total_size); discriminate.
  - discriminate.
  - destruct (downloaded <? total_size); [|discriminate].
    destruct r as [|n].
    + specialize (IH He position downloaded).
      destruct (mmap_loop total_size position downloaded rest);
        [discriminate | congruence].
    + destruct (Z.of_N n =? 0); [discriminate|].
      destruct (position + Z.of_N n <=? total_size).
      * specialize (IH He (position + Z.of_N n) (downloaded + Z.of_N n)).
        destruct (mmap_loop total_size _ _ rest); [discriminate | congruence].
      * specialize (IH He position downloaded).
        destruct (mmap_loop total_size position downloaded rest);
          [discriminate | congruence].
Qed.

Lemma stream_loop_ends (b : body) : ends b = true ->
  forall downloaded, stream_loop downloaded b <> Never_left.
Proof.
  induction b as [| |r rest IH]; intros He downloaded; simpl in *;
    try discriminate.
  destruct r as [|n].
  - specialize (IH He downloaded).
    destruct (stream_loop downloaded rest); [discriminate | congruence].
  - destruct (Z.of_N n =? 0); [discriminate|].
    specialize (IH He (downloaded + Z.of_N n)).
    destruct (stream_loop _ rest); [discriminate | congruence].
Qed.

(** The download block is left with the temporary file gone, unless a read
    loop is never left. *)
Lemma fetch_to_file_tmp (total_size : Z) (b : body) (w : world) :
  match fetch_to_file total_size b w with
  | Returns _ w' => tmp w' = None
  | Raises w' => tmp w' = None
  | Hangs _ =>
      (if 0 <? total_size then mmap_loop total_size 0 0 b else stream_loop 0 b)
      = Never_left
  end.
Proof.
  unfold fetch_to_file, try_except, bind.
  destruct (0 <? total_size).
  - unfold write_tmp, modify.
    destruct (mmap_loop total_size 0 0 b) as [d r|]; [|reflexivity].
    unfold ret.
    pose proof (move_tmp_outcome filename (set_tmp (Some total_size) w)) as Hm.
    destruct (move_tmp filename (set_tmp (Some total_size) w)) as [[] w'|w'|w'];
      [exact Hm | reflexivity | destruct Hm].
  - destruct (stream_loop 0 b) as [d r|]; [|reflexivity].
    unfold write_tmp, modify.
    pose proof (move_tmp_outcome filename (set_tmp (Some d) w)) as Hm.
    destruct (move_tmp filename (set_tmp (Some d) w)) as [[] w'|w'|w'];
      [exact Hm | reflexivity | destruct Hm].
Qed.

(** A turn on a mirror whose body comes to an end returns, with the
    temporary file gone. *)
Lemma simple_attempt_ends (m : simple_mirror) (w : world) :
  (forall h b, s_open m = Some (h, b) -> ends b = true) ->
  tmp w = None ->
  exists r w', simple_attempt m w = Returns r w' /\ tmp w' = None.
Proof.
  intros Hends Ht. unfold simple_attempt, try_except at 1.
  destruct (s_open m) as [[h b]|] eqn:Eo.
  - specialize (Hends h b eq_refl).
    destruct (content_length h) as [total_size|].
    + unfold bind at 1. unfold create_tmp, modify.
      set (w1 := set_tmp (Some 0) w).
      unfold bind at 1.
      pose proof (fetch_to_file_tmp total_size b w1) as Hf.
      destruct (fetch_to_file total_size b w1) as [[] w2|w2|w2].
      * pose proof (disk_only_install (s_zip m) w2) as Hi.
        match type of Hi with
        | match ?c with _ => _ end => destruct c as [r w3|w3|w3]
        end.
        -- exists r, w3. split; [reflexivity | congruence].
        -- destruct (simple_handler_returns w3) as (w4 & -> & Hw4).
           exists None, w4. split; [reflexivity | congruence].
        -- destruct Hi.
      * destruct (simple_handler_returns w2) as (w4 & -> & Hw4).
        exists None, w4. split; [reflexivity | congruence].
      * exfalso. destruct (0 <? total_size).
        -- exact (mmap_loop_ends _ _ Hends _ _ Hf).
        -- exact (stream_loop_ends _ Hends _ Hf).
    + unfold raise.
      destruct (simple_handler_returns w) as (w4 & -> & Hw4).
      exists None, w4. split; [reflexivity | congruence].
  - unfold raise.
    destruct (simple_handler_returns w) as (w4 & -> & Hw4).
    exists None, w4. split; [reflexivity | congruence].
Qed.

Lemma disk_only_makedirs (p : path) : disk_only (makedirs p).
Proof. unfold makedirs. disk_only_prim. Qed.

(** However a turn of the sequential fetcher stops, if it stops, the
    temporary file is gone. *)
Lemma simple_attempt_tmp (m : simple_mirror) (w : world) :
  tmp w = None ->
  match simple_attempt m w with
  | Returns _ w' => tmp w' = None
  | Raises w' => tmp w' = None
  | Hangs _ => True
  end.
Proof.
  intros Ht. unfold simple_attempt, try_except at 1.
  assert (Hh : forall w0, tmp w0 = None ->
            match
              (present <- path_exists filename ;;
               (if present then try_except (os_remove filename) (ret tt) else ret tt) ;;
               ret (@None bool)) w0
            with
            | Returns _ w' => tmp w' = None
            | Raises w' => tmp w' = None
            | Hangs _ => True
            end).
  { intros w0 H0. destruct (simple_handler_returns w0) as (w4 & -> & Hw4).
    congruence. }
  destruct (s_open m) as [[h b]|]; [|apply Hh; exact Ht].
  destruct (content_length h) as [total_size|]; [|apply Hh; exact Ht].
  unfold bind at 1. unfold create_tmp, modify.
  set (w1 := set_tmp (Some 0) w).
  unfold bind at 1.
  pose proof (fetch_to_file_tmp total_size b w1) as Hf.
  destruct (fetch_to_file total_size b w1) as [[] w2|w2|w2].
  - pose proof (disk_only_install (s_zip m) w2) as Hi.
    match type of Hi with
    | match ?c with _ => _ end => destruct c as [r w3|w3|w3]
    end.
    + congruence.
    + apply Hh. congruence.
    + destruct Hi.
  - apply Hh. exact Hf.
  - exact I.
Qed.

Lemma simple_loop_tmp (n : net) (l : list string) : forall w,
  tmp w = None ->
  match for_each (fun url => simple_attempt (simple n url)) l w with
  | Returns _ w' => tmp w' = None
  | Raises w' => tmp w' = None
  | Hangs _ => True
  end.
Proof.
  induction l as [|url l IH]; intros w Ht; [exact Ht|].
  cbn [for_each]. unfold bind at 1.
  pose proof (simple_attempt_tmp (simple n url) w Ht) as Ha.
  destruct (simple_attempt (simple n url) w) as [[b|] w1|w1|w1];
    [exact Ha | apply IH; exact Ha | exact Ha | exact I].
Qed.

(** When every response that is opened comes to its end, the sequential
    fetcher returns. *)
Lemma sequential_fetch_ends (system : string) (n : net) (w : world) :
  (forall url h b, In url (get_ffmpeg_download_urls system) ->
                   s_open (simple n url) = Some (h, b) -> ends b = true) ->
  tmp w = None ->
  exists (result : bool) (w' : world),
    download_with_requests_simple system n w = Returns result w'.
Proof.
  intros Hends Ht. unfold download_with_requests_simple.
  unfold try_except at 1. unfold bind at 1.
  pose proof (disk_only_makedirs get_ffmpeg_folder w) as Hm.
  destruct (makedirs get_ffmpeg_folder w) as [[] w1|w1|w1]; [| |destruct Hm].
  - unfold bind at 1.
    assert (Hloop : forall l,
              (forall url, In url l -> In url (get_ffmpeg_download_urls system)) ->
              forall w2, tmp w2 = None ->
              exists r w3, for_each (fun url => simple_attempt (simple n url)) l w2
                           = Returns r w3 /\ tmp w3 = None).
    { induction l as [|url l IH]; intros Hl w2 H2.
      - exists None, w2. split; [reflexivity | exact H2].
      - simpl. unfold bind at 1.
        destruct (simple_attempt_ends (simple n url) w2) as (r & w3 & -> & H3).
        + intros h b. apply Hends. apply Hl. left. reflexivity.
        + exact H2.
        + destruct r as [b|].
          * exists (Some b), w3. split; [reflexivity | exact H3].
          * apply IH; [|exact H3]. intros u Hu. apply Hl. right. exact Hu. }
    destruct (Hloop _ (fun _ H => H) w1 ltac:(congruence)) as (r & w3 & -> & H3).
    destruct r as [b|]; [exists b, w3 | exists false, w3]; reflexivity.
  - exists false, w1. reflexivity.
Qed.

(** X5: Whenever the sequential fetcher returns, with [True] or with
    [False] and whatever the mirrors answered, the temporary file it made
    for each mirror is gone: moved into place or removed.  And it does
    return when every response it opens comes to its end after finitely
    many reads, raising ones among them or not. *)
Theorem sequential_fetch_leaves_no_temp_file (system : string) (n : net) (w : world) :
  tmp w = None ->
  (forall result w',
     download_with_requests_simple system n w = Returns result w' -> tmp w' = None)
  /\ ((forall url h b, In url (get_ffmpeg_download_urls system) ->
                       s_open (simple n url) = Some (h, b) -> ends b = true) ->
      exists (result : bool) (w' : world),
        download_with_requests_simple system n w = Returns result w').
Proof.
  intros Ht. split; [|intros Hends; exact (sequential_fetch_ends system n w Hends Ht)].
  intros result w'. unfold download_with_requests_simple.
  unfold try_except at 1. unfold bind at 1.
  pose proof (disk_only_makedirs get_ffmpeg_folder w) as Hm.
  destruct (makedirs get_ffmpeg_folder w) as [[] w1|w1|w1]; [| |destruct Hm].
  - unfold bind at 1.
    pose proof (simple_loop_tmp n (get_ffmpeg_download_urls system) w1
                  ltac:(congruence)) as Hl.
    destruct (for_each _ _ w1) as [[b|] w2|w2|w2];
      try (intros [= _ <-]; exact Hl); discriminate.
  - intros [= _ <-]. congruence.
Qed.

Lemma sequential_fetch_leaves_no_temp_file_witness :
  let n := {| ultra := fun _ => {| u_head := None; u_chunk := fun _ => None;
                                   u_timeout := false; u_zip := BadZip |};
              simple := fun _ => {| s_open := Some (Length 3000,
                                        Next (ReadBytes 1000)
                                          (Next ReadRaises (Next (ReadBytes 2000) Closed)));
                                    s_zip := BadZip |};
              aria := fun _ => {| a_run := None; a_zip := BadZip |} |} in
  let w := World (Dir []) None in
  tmp w = None
  /\ exists result w',
      download_with_requests_simple "Windows" n w = Returns result w'
      /\ tmp w' = None.
Proof.
  intros n w.
  assert (Ht : tmp w = None) by reflexivity.
  split; [exact Ht|].
  destruct (sequential_fetch_leaves_no_temp_file "Windows" n w Ht) as [Hsafe Hret].
  destruct Hret as (result & w' & E).
  { intros url h b _ [= <- <-]. reflexivity. }
  exists result, w'. split; [exact E | exact (Hsafe result w' E)].
Defined.

(** X6: In the known-size branch nothing compares the bytes received with
    [total_size]: whatever the body delivered, even nothing at all, the
    file that reaches [ffmpeg_temp.zip] is the pre-allocated one, of
    [total_size] bytes. *)
Theorem known_size_file_is_full_size
    (total_size : Z) (b : body) (w w' : world) :
  0 < total_size ->
  (forall es, lookup filename (disk w) <> Some (Dir es)) ->
  fetch_to_file total_size b w = Returns tt w' ->
  lookup filename (disk w') = Some (File total_size) /\ tmp w' = None.
Proof.
  intros Ht Hnd. unfold fetch_to_file, try_except, bind.
  destruct (Z.ltb_spec 0 total_size) as [_|]; [|lia].
  unfold write_tmp, modify.
  destruct (mmap_loop total_size 0 0 b) as [d r|]; [|discriminate].
  unfold ret, move_tmp. simpl tmp. simpl disk.
  destruct (lookup filename (disk w)) as [[s|es]|] eqn:E.
  - destruct (store filename _ (disk w)) as [d1|] eqn:Es; [|discriminate].
    intros [= <-]. split; [|reflexivity].
    exact (lookup_store_same _ _ _ _ Es).
  - exfalso. exact (Hnd es eq_refl).
  - destruct (store filename _ (disk w)) as [d1|] eqn:Es; [|discriminate].
    intros [= <-]. split; [|reflexivity].
    exact (lookup_store_same _ _ _ _ Es).
Qed.

Lemma known_size_file_is_full_size_witness :
  let w := World (Dir [("FFmpeg", Dir [])]) (Some 0) in
  let w' := World (Dir [("FFmpeg", Dir [("ffmpeg_temp.zip", File 5242880)])]) None in
  mmap_loop 5242880 0 0 Closed = Left_loop 0 1
  /\ fetch_to_file 5242880 Closed w = Returns tt w'
  /\ lookup filename (disk w') = Some (File 5242880).
Proof.
  intros w w'.
  assert (H : fetch_to_file 5242880 Closed w = Returns tt w') by reflexivity.
  split; [reflexivity|]. split; [exact H|].
  refine (proj1 (known_size_file_is_full_size 5242880 Closed w w' _ _ H)).
  - lia.
  - intros es. discriminate.
Defined.

(** ** The ranges and the byte counts of the parallel fetcher *)

Lemma length_range_from (step : Z) (n : nat) : forall i,
  List.length (range_from i step n) = n.
Proof.
  induction n as [|n IH]; intros i; simpl; [reflexivity|].
  rewrite IH. reflexivity.
Qed.

Lemma length_chunk_ranges (total_size : Z) :
  let c := Z.max CHUNK_SIZE (total_size / MAX_CONNECTIONS) in
  List.length (chunk_ranges total_size) = Z.to_nat ((total_size + c - 1) / c).
Proof.
  unfold chunk_ranges, py_range. cbv zeta.
  rewrite length_map, length_range_from. reflexivity.
Qed.

Lemma In_chunk_ranges_size (total_size : Z) (r : Z * Z) :
  In r (chunk_ranges total_size) ->
  snd r - fst r + 1 <= Z.max CHUNK_SIZE (total_size / MAX_CONNECTIONS).
Proof.
  unfold chunk_ranges. intros H. apply in_map_iff in H.
  destruct H as (i & <- & _). simpl. lia.
Qed.

(** X7: The partition has at most 33 ranges, one more than [MAX_CONNECTIONS]:
    33 exactly when the file is larger than 64 MiB and its length is not a
    multiple of 32 (the last range then holds the fewer than 32 bytes that
    are left over); and no range is longer than
    [max(CHUNK_SIZE, total_size // MAX_CONNECTIONS)]. *)
Theorem chunk_ranges_count (total_size : Z) :
  0 < total_size ->
  (List.length (chunk_ranges total_size) <= 33)%nat
  /\ (List.length (chunk_ranges total_size) = 33%nat
      <-> 67108864 < total_size /\ total_size mod 32 <> 0)
  /\ (forall r, In r (chunk_ranges total_size) ->
                snd r - fst r + 1 <= Z.max CHUNK_SIZE (total_size / MAX_CONNECTIONS)).
Proof.
  intros Ht.
  rewrite length_chunk_ranges. cbv zeta.
  unfold CHUNK_SIZE, MAX_CONNECTIONS.
  change (2 * 1024 * 1024) with 2097152.
  set (c := Z.max 2097152 (total_size / 32)).
  assert (Hc : 2097152 <= c) by (unfold c; lia).
  pose proof (Z.div_mod total_size 32 ltac:(lia)) as Hdm.
  pose proof (Z.mod_pos_bound total_size 32 ltac:(lia)) as Hmod.
  assert (Hq : total_size / 32 <= c) by (unfold c; lia).
  set (q := (total_size + c - 1) / c).
  pose proof (Z.mul_div_le (total_size + c - 1) c ltac:(lia)) as Hlo.
  pose proof (Z.mul_succ_div_gt (total_size + c - 1) c ltac:(lia)) as Hhi.
  fold q in Hlo, Hhi.
  assert (Hq0 : 0 <= q) by (unfold q; apply Z.div_pos; lia).
  assert (Hq33 : q <= 33) by nia.
  split; [lia|]. split.
  - split.
    + intros H. assert (Hq' : q = 33) by lia.
      destruct (Z.le_gt_cases total_size 67108864) as [Hs|Hs]; [exfalso; nia|].
      split; [exact Hs|]. intros Hz.
      assert (Hc' : c = total_size / 32) by (unfold c; lia).
      nia.
    + intros [Hs Hz].
      assert (Hc' : c = total_size / 32) by (unfold c; lia).
      assert (Hq' : 33 <= q) by nia.
      lia.
  - intros r Hr. apply In_chunk_ranges_size in Hr.
    unfold CHUNK_SIZE, MAX_CONNECTIONS in Hr. exact Hr.
Qed.

Lemma chunk_ranges_count_witness :
  0 < 67108865
  /\ List.length (chunk_ranges 67108865) = 33%nat
  /\ last (chunk_ranges 67108865) (0, 0) = (67108864, 67108864).
Proof.
  assert (Ht : 0 < 67108865) by lia.
  split; [exact Ht|]. split; [|reflexivity].
  apply (proj1 (proj2 (chunk_ranges_count 67108865 Ht))).
  split; [lia | discriminate].
Defined.

Lemma fold_left_add_acc {A} (f : A -> Z) (l : list A) : forall a,
  fold_left (fun acc r => acc + f r) l a
  = a + fold_left (fun acc r => acc + f r) l 0.
Proof.
  induction l as [|x l IH]; intros a; cbn [fold_left]; [lia|].
  rewrite (IH (a + f x)), (IH (0 + f x)). lia.
Qed.

(** Over contiguous ranges answered exactly or not at all, the bytes add
    up to the whole exactly when no request failed. *)
Lemma completed_size_contiguous (m : ultra_mirror) (l : list (Z * Z)) : forall s e,
  contiguous s l e ->
  (forall r n, In r l -> u_chunk m r = Some n -> Z.of_N n = snd r - fst r + 1) ->
  completed_size m l <= e - s + 1
  /\ (completed_size m l = e - s + 1 <-> forall r, In r l -> u_chunk m r <> None).
Proof.
  unfold completed_size.
  induction l as [|[a b] l IH]; intros s e Hc Hex.
  - simpl in *. split; [lia|]. split; [intros _ r [] | intros _; lia].
  - destruct Hc as (-> & Hab & Hl).
    destruct (IH _ _ Hl (fun r n Hr => Hex r n (or_intror Hr))) as [Hle Hiff].
    cbn [fold_left]. rewrite fold_left_add_acc.
    change (download_chunk m (s, b))
      with (match u_chunk m (s, b) with Some n => Z.of_N n | None => 0 end).
    destruct (u_chunk m (s, b)) as [n|] eqn:E.
    + pose proof (Hex (s, b) n (or_introl eq_refl) E) as Hn. simpl in Hn.
      split; [lia|]. split.
      * intros H r [<-|Hr]; [congruence|].
        apply Hiff; [lia | exact Hr].
      * intros H.
        assert (fold_left (fun acc r => acc + download_chunk m r) l 0 = e - (b + 1) + 1).
        { apply Hiff. intros r Hr. apply H. right. exact Hr. }
        lia.
    + split; [lia|]. split.
      * intros H. lia.
      * intros H. exfalso. exact (H (s, b) (or_introl eq_refl) E).
Qed.

(** X8: [completed_size], which the code only shows in the progress message,
    would tell a failed chunk: when every answer that arrives has the
    length of its range, the bytes counted reach [total_size] exactly when
    no chunk request raised, and stay below it otherwise. *)
Theorem completed_size_tells_failures (m : ultra_mirror) (total_size : Z) :
  0 < total_size ->
  (forall r n, In r (chunk_ranges total_size) -> u_chunk m r = Some n ->
               Z.of_N n = snd r - fst r + 1) ->
  completed_size m (chunk_ranges total_size) <= total_size
  /\ (completed_size m (chunk_ranges total_size) = total_size
      <-> forall r, In r (chunk_ranges total_size) -> u_chunk m r <> None).
Proof.
  intros Ht Hex.
  destruct (chunk_ranges_contiguous total_size Ht) as [Hc _].
  destruct (completed_size_contiguous m _ _ _ Hc Hex) as [Hle Hiff].
  replace (total_size - 1 - 0 + 1) with total_size in * by lia.
  split; assumption.
Qed.

Lemma completed_size_tells_failures_witness :
  let m := {| u_head := Some (Length 5242880);
              u_chunk := fun r => if fst r =? 2097152 then None
                                  else Some (Z.to_N (snd r - fst r + 1));
              u_timeout := false; u_zip := BadZip |} in
  0 < 5242880
  /\ completed_size m (chunk_ranges 5242880) = 3145728
  /\ completed_size m (chunk_ranges 5242880) <= 5242880.
Proof.
  intros m.
  assert (Ht : 0 < 5242880) by lia.
  split; [exact Ht|]. split; [reflexivity|].
  refine (proj1 (completed_size_tells_failures m 5242880 Ht _)).
  intros r n Hr. vm_compute in Hr.
  destruct Hr as [<-|[<-|[<-|[]]]]; vm_compute; intros [= <-]; reflexivity.
Defined.

Lemma chunk_ranges_nonpositive (total_size : Z) :
  total_size <= 0 -> chunk_ranges total_size = [].
Proof.
  intros Ht. unfold chunk_ranges, py_range. cbv zeta.
  set (c := Z.max CHUNK_SIZE (total_size / MAX_CONNECTIONS)).
  assert (Hc : 0 < c) by (unfold c, CHUNK_SIZE; lia).
  assert (Hq : (total_size + c - 1) / c < 1).
  { apply Z.div_lt_upper_bound; lia. }
  replace (Z.to_nat ((total_size + c - 1) / c)) with 0%nat by lia.
  reflexivity.
Qed.

Lemma In_chunk_ranges_bounds (total_size : Z) (r : Z * Z) :
  In r (chunk_ranges total_size) -> 0 <= fst r <= snd r /\ snd r < total_size.
Proof.
  intros Hr.
  destruct (Z.le_gt_cases total_size 0) as [Ht|Ht].
  - rewrite (chunk_ranges_nonpositive _ Ht) in Hr. destruct Hr.
  - destruct (chunk_ranges_contiguous total_size ltac:(lia)) as [Hc _].
    destruct r as [a b].
    pose proof (contiguous_In _ _ _ _ _ Hc Hr). simpl. lia.
Qed.

Lemma fold_size_after_write_ge (chunks : list (Z * Z)) : forall size,
  size <= fold_left size_after_write chunks size
  /\ forall start len, In (start, len) chunks -> len <> 0 ->
                       start + len <= fold_left size_after_write chunks size.
Proof.
  induction chunks as [|[s l] chunks IH]; intros size; simpl.
  - split; [lia | intros ? ? []].
  - destruct (IH (if l =? 0 then size else Z.max size (s + l))) as [Hge Hin].
    split.
    + destruct (l =? 0); lia.
    + intros start len [[= <- <-]|H] Hlen.
      * destruct (Z.eqb_spec l 0); lia.
      * apply Hin; assumption.
Qed.

Lemma fetch_chunks_complete (m : ultra_mirror) (ranges : list (Z * Z)) (r : Z * Z) (n : N) :
  In r ranges -> u_chunk m r = Some n -> In (fst r, Z.of_N n) (fetch_chunks m ranges).
Proof.
  induction ranges as [|[s e] ranges IH]; simpl; [intros []|].
  intros [<-|Hin] Hn.
  - rewrite Hn. left. reflexivity.
  - destruct (u_chunk m (s, e)); [right|]; apply IH; assumption.
Qed.

Lemma write_file_lookup (p : path) (size : Z) (w w1 : world) :
  write_file p size w = Returns tt w1 -> lookup p (disk w1) = Some (File size).
Proof.
  unfold write_file.
  destruct (lookup p (disk w)) as [[s|es]|]; try discriminate;
    destruct (store p (Some (File size)) (disk w)) as [d|] eqn:Es;
    try discriminate; intros [= <-]; exact (lookup_store_same _ _ _ _ Es).
Qed.

Lemma write_file_outcome (p : path) (size : Z) (w : world) :
  (exists w1, write_file p size w = Returns tt w1) \/ write_file p size w = Raises w.
Proof.
  unfold write_file.
  destruct (lookup p (disk w)) as [[s|es]|]; eauto;
    destruct (store p (Some (File size)) (disk w)); eauto.
Qed.

Lemma same_but_archive_refl (w : world) : same_but_archive w w.
Proof. split; [|split]; reflexivity. Qed.

(** Writing [ffmpeg_temp.zip] changes nothing else. *)
Lemma write_archive_only (w0 w w1 : world) (size : Z) :
  same_but_archive w0 w ->
  write_file filename size w = Returns tt w1 ->
  same_but_archive w0 w1.
Proof.
  intros (Ht & Hin & Hout). unfold write_file.
  assert (Hs : forall d, store filename (Some (File size)) (disk w) = Some d ->
                         same_but_archive w0 (set_disk d w)).
  { intros d Es. split; [exact Ht|]. split.
    - intros x q Hx. rewrite <- (Hin x q Hx). cbn [set_disk disk].
      apply (lookup_store_sibling get_ffmpeg_folder "ffmpeg_temp.zip" x q
               (Some (File size))); [congruence | exact Es].
    - intros y q Hy. rewrite <- (Hout y q Hy). cbn [set_disk disk].
      unfold filename, get_ffmpeg_folder in Es. cbn [app] in Es.
      destruct (disk w) as [s|es]; [discriminate|].
      rewrite store_more in Es.
      destruct (get_entry "FFmpeg" es) as [c|]; [|discriminate].
      destruct (store ["ffmpeg_temp.zip"] (Some (File size)) c) as [c'|];
        [|discriminate].
      injection Es as <-.
      rewrite !lookup_cons, get_entry_set_entry_neq by exact Hy. reflexivity. }
  destruct (lookup filename (disk w)) as [[s|es]|]; try discriminate;
    (destruct (store filename (Some (File size)) (disk w)) as [d|];
     [|discriminate]; intros [= <-]; apply Hs; reflexivity).
Qed.

(** X9: The size check does reject a file that grew.  When an answer runs
    past the end of the file (a mirror that ignores the [Range] header and
    sends more than the range asked for), the turn goes on to the next
    mirror and nothing is extracted, whatever the archive holds: no
    staging folder is made, the installed [bin] is as it was, and nothing
    but [ffmpeg_temp.zip] has changed on the disk. *)
Theorem oversized_answer_rejects_mirror
    (m : ultra_mirror) (total_size : Z) (r : Z * Z) (n : N) (w : world) :
  probe_size m = Some total_size ->
  In r (chunk_ranges total_size) ->
  u_chunk m r = Some n ->
  total_size < fst r + Z.of_N n ->
  exists w',
    ultra_attempt m w = Returns None w'
    /\ same_but_archive w w'
    /\ lookup temp_extract (disk w') = lookup temp_extract (disk w)
    /\ forall q, lookup (bin_target ++ q)%list (disk w')
                 = lookup (bin_target ++ q)%list (disk w).
Proof.
  intros Hp Hr Hn Hbig.
  assert (Hgoal : exists w',
            ultra_attempt m w = Returns None w' /\ same_but_archive w w').
  { pose proof (In_chunk_ranges_bounds _ _ Hr) as Hb.
    pose proof (same_but_archive_refl w) as H.
    unfold ultra_attempt. rewrite Hp.
    unfold try_except, bind at 1, preallocate, bind at 1.
    destruct (write_file_outcome filename 0 w) as [[w0 E0]|E0]; rewrite E0;
      [|eexists; split; [reflexivity | exact H]].
    pose proof (write_archive_only w w w0 0 H E0) as H0.
    unfold bind at 1, seek.
    destruct (total_size - 1 <? 0); [eexists; split; [reflexivity | exact H0]|].
    unfold ret at 1.
    destruct (write_file_outcome filename total_size w0) as [[w1 E1]|E1]; rewrite E1;
      [|eexists; split; [reflexivity | exact H0]].
    pose proof (write_archive_only w w0 w1 total_size H0 E1) as H1.
    unfold bind at 1.
    destruct (u_timeout m); [eexists; split; [reflexivity | exact H1]|].
    unfold ret at 1, bind at 1, assemble, bind at 1, getsize at 1.
    rewrite (write_file_lookup _ _ _ _ E1).
    set (size := fold_left size_after_write
                   (fetch_chunks m (chunk_ranges total_size)) total_size).
    destruct (write_file_outcome filename size w1) as [[w2 E2]|E2]; rewrite E2;
      [|eexists; split; [reflexivity | exact H1]].
    pose proof (write_archive_only w w1 w2 size H1 E2) as H2.
    unfold bind at 1, getsize. rewrite (write_file_lookup _ _ _ _ E2).
    assert (Hsize : total_size < size).
    { destruct (fold_size_after_write_ge
                  (fetch_chunks m (chunk_ranges total_size)) total_size) as [_ Hin].
      specialize (Hin (fst r) (Z.of_N n) (fetch_chunks_complete _ _ _ _ Hr Hn)
                    ltac:(lia)).
      fold size in Hin. lia. }
    destruct (Z.eqb_spec size total_size); [lia|].
    eexists. split; [reflexivity | exact H2]. }
  destruct Hgoal as (w' & E & Hsame).
  exists w'. split; [exact E|]. split; [exact Hsame|].
  destruct Hsame as (_ & Hin & _). split.
  - apply (Hin "temp" []). discriminate.
  - intros q. apply (Hin "bin" q). discriminate.
Qed.

Lemma oversized_answer_rejects_mirror_witness :
  let m := {| u_head := Some (Length 5242880);
              u_chunk := fun _ => Some 5242880%N;
              u_timeout := false;
              u_zip := Unpacked [("ffmpeg", Dir [("bin", Dir [("ffmpeg.exe", File 1)])])] |} in
  let w := World (Dir [("FFmpeg", Dir [("bin", Dir [("ffmpeg.exe", File 7)])])]) None in
  ultra_attempt m w
  = Returns None
      (World (Dir [("FFmpeg", Dir [("bin", Dir [("ffmpeg.exe", File 7)]);
                                   ("ffmpeg_temp.zip", File 9437184)])]) None)
  /\ exists w',
      ultra_attempt m w = Returns None w'
      /\ same_but_archive w w'
      /\ lookup temp_extract (disk w') = lookup temp_extract (disk w)
      /\ forall q, lookup (bin_target ++ q)%list (disk w')
                   = lookup (bin_target ++ q)%list (disk w).
Proof.
  intros m w. split; [reflexivity|].
  apply (oversized_answer_rejects_mirror m 5242880 (2097152, 4194303) 5242880%N w).
  - reflexivity.
  - vm_compute. right. left. reflexivity.
  - reflexivity.
  - simpl. lia.
Defined.

(** ** Sequencing *)

Lemma bind_returns {A B} (m : M A) (k : A -> M B) (w w1 : world) (a : A) :
  m w = Returns a w1 -> bind m k w = k a w1.
Proof. intros H. unfold bind. rewrite H. reflexivity. Qed.

Lemma bind_raises {A B} (m : M A) (k : A -> M B) (w w1 : world) :
  m w = Raises w1 -> bind m k w = Raises w1.
Proof. intros H. unfold bind. rewrite H. reflexivity. Qed.

Lemma bind_assoc_seq {A B C} (a : M A) (b : M B) (c : M C) (w : world) :
  (a ;; b ;; c) w = ((a ;; b) ;; c) w.
Proof. unfold bind. destruct (a w); reflexivity. Qed.

(** ** Installing into the application directory *)

Section Install.

(** What the application directory holds besides the [FFmpeg] folder. *)
Variable es : list (string * node).

(** The world whose application directory has [ff] as its [FFmpeg]
    folder. *)
Let W (ff : node) (t : option Z) : world := World (Dir (set_entry "FFmpeg" ff es)) t.

Lemma lookup_W (ff : node) (t : option Z) (p : path) :
  lookup ("FFmpeg" :: p) (disk (W ff t)) = lookup p ff.
Proof. simpl. rewrite get_entry_set_entry_eq. reflexivity. Qed.

Lemma store_W (ff : node) (t : option Z) (x : string) (p : path) (v : option node) :
  store ("FFmpeg" :: x :: p) v (disk (W ff t))
  = match store (x :: p) v ff with
    | Some ff' => Some (disk (W ff' t))
    | None => None
    end.
Proof.
  unfold W. simpl disk.
  change (store ("FFmpeg" :: x :: p) v (Dir (set_entry "FFmpeg" ff es)))
    with (match get_entry "FFmpeg" (set_entry "FFmpeg" ff es) with
          | Some c =>
              match store (x :: p) v c with
              | Some c' => Some (Dir (set_entry "FFmpeg" c' (set_entry "FFmpeg" ff es)))
              | None => None
              end
          | None => None
          end).
  rewrite get_entry_set_entry_eq.
  destruct (store (x :: p) v ff); [|reflexivity].
  rewrite set_entry_set_entry. reflexivity.
Qed.

Lemma path_exists_W (ff : node) (t : option Z) (p : path) :
  path_exists ("FFmpeg" :: p) (W ff t) = Returns (exists_ p ff) (W ff t).
Proof. unfold path_exists, gets, exists_. rewrite lookup_W. reflexivity. Qed.

Lemma listdir_W (ff : node) (t : option Z) (p : path) :
  listdir ("FFmpeg" :: p) (W ff t)
  = match lookup p ff with
    | Some (Dir l) => Returns l (W ff t)
    | _ => Raises (W ff t)
    end.
Proof. unfold listdir. rewrite lookup_W. reflexivity. Qed.

Lemma getsize_W (ff : node) (t : option Z) (p : path) :
  getsize ("FFmpeg" :: p) (W ff t)
  = match lookup p ff with
    | Some (File n) => Returns n (W ff t)
    | _ => Raises (W ff t)
    end.
Proof. unfold getsize. rewrite lookup_W. reflexivity. Qed.

Lemma rmtree_W (ff : node) (t : option Z) (x : string) (p : path) :
  rmtree ("FFmpeg" :: x :: p) (W ff t)
  = match lookup (x :: p) ff with
    | Some (Dir _) =>
        match store (x :: p) None ff with
        | Some ff' => Returns tt (W ff' t)
        | None => Raises (W ff t)
        end
    | _ => Raises (W ff t)
    end.
Proof.
  unfold rmtree. rewrite lookup_W, store_W.
  destruct (lookup (x :: p) ff) as [[s|l]|]; try reflexivity.
  destruct (store (x :: p) None ff); reflexivity.
Qed.

Lemma os_remove_W (ff : node) (t : option Z) (x : string) (p : path) :
  os_remove ("FFmpeg" :: x :: p) (W ff t)
  = match lookup (x :: p) ff with
    | Some (File _) =>
        match store (x :: p) None ff with
        | Some ff' => Returns tt (W ff' t)
        | None => Raises (W ff t)
        end
    | _ => Raises (W ff t)
    end.
Proof.
  unfold os_remove. rewrite lookup_W, store_W.
  destruct (lookup (x :: p) ff) as [[s|l]|]; try reflexivity.
  destruct (store (x :: p) None ff); reflexivity.
Qed.

Lemma write_file_W (ff : node) (t : option Z) (x : string) (p : path) (size : Z) :
  write_file ("FFmpeg" :: x :: p) size (W ff t)
  = match lookup (x :: p) ff with
    | Some (Dir _) => Raises (W ff t)
    | _ =>
        match store (x :: p) (Some (File size)) ff with
        | Some ff' => Returns tt (W ff' t)
        | None => Raises (W ff t)
        end
    end.
Proof.
  unfold write_file. rewrite lookup_W, store_W.
  destruct (lookup (x :: p) ff) as [[s|l]|];
    try reflexivity; destruct (store (x :: p) _ ff); reflexivity.
Qed.

Lemma extractall_W (ff : node) (t : option Z) (z : unzip) :
  extractall z (W ff t)
  = if negb (isfile ["ffmpeg_temp.zip"] ff) then Raises (W ff t)
    else
      match z with
      | BadZip => Raises (W ff t)
      | ExtractRaises listing =>
          match lookup ["temp"] ff with
          | Some (File _) => Raises (W ff t)
          | _ =>
              match store ["temp"] (Some (Dir listing)) ff with
              | Some ff' => Raises (W ff' t)
              | None => Raises (W ff t)
              end
          end
      | Unpacked [] => Returns tt (W ff t)
      | Unpacked listing =>
          match lookup ["temp"] ff with
          | Some (File _) => Raises (W ff t)
          | _ =>
              match store ["temp"] (Some (Dir listing)) ff with
              | Some ff' => Returns tt (W ff' t)
              | None => Raises (W ff t)
              end
          end
      end.
Proof.
  unfold extractall, isfile, filename, temp_extract, get_ffmpeg_folder.
  cbn [app]. rewrite !lookup_W.
  destruct (lookup ["ffmpeg_temp.zip"] ff) as [[s|l]|]; try reflexivity.
  cbn [negb].
  destruct z as [|listing|[|e listing]]; try reflexivity; rewrite store_W;
    destruct (lookup ["temp"] ff) as [[s'|l']|]; try reflexivity;
    destruct (store ["temp"] _ ff); reflexivity.
Qed.

(** An archive with members is unpacked into the staging folder. *)
Lemma extractall_members_W (ff : node) (t : option Z) (listing : list (string * node)) :
  listing <> [] ->
  extractall (Unpacked listing) (W ff t)
  = if negb (isfile ["ffmpeg_temp.zip"] ff) then Raises (W ff t)
    else
      match lookup ["temp"] ff with
      | Some (File _) => Raises (W ff t)
      | _ =>
          match store ["temp"] (Some (Dir listing)) ff with
          | Some ff' => Returns tt (W ff' t)
          | None => Raises (W ff t)
          end
      end.
Proof.
  intros Hne. rewrite extractall_W.
  destruct listing as [|e listing]; [congruence | reflexivity].
Qed.

(** A rename inside the [FFmpeg] folder, to a name that is free. *)
Lemma move_W (ff ff1 ff2 : node) (t : option Z) (x y : string) (p q : path) (c : node) :
  lookup (x :: p) ff = Some c ->
  lookup (y :: q) ff = None ->
  store (x :: p) None ff = Some ff1 ->
  store (y :: q) (Some c) ff1 = Some ff2 ->
  move ("FFmpeg" :: x :: p) ("FFmpeg" :: y :: q) (W ff t) = Returns tt (W ff2 t).
Proof.
  intros Hsrc Hdst H1 H2. unfold move.
  rewrite !lookup_W, Hsrc, Hdst. cbv beta iota zeta.
  rewrite store_W, H1. cbv beta iota.
  rewrite store_W, H2. reflexivity.
Qed.

Lemma move_tmp_W (fs : list (string * node)) (size : Z) (x : string) :
  (forall l, get_entry x fs <> Some (Dir l)) ->
  move_tmp ["FFmpeg"; x] (W (Dir fs) (Some size))
  = Returns tt (W (Dir (set_entry x (File size) fs)) None).
Proof.
  intros Hx. unfold move_tmp.
  change (tmp (W (Dir fs) (Some size))) with (Some size). cbv beta iota zeta.
  rewrite !lookup_W, !lookup_one.
  destruct (get_entry x fs) as [[s|l]|] eqn:E; cbv iota.
  - rewrite store_W. reflexivity.
  - exfalso. exact (Hx l eq_refl).
  - rewrite store_W. reflexivity.
Qed.

(** The download block on a body that comes to an end leaves a regular
    file at [filename], and no temporary file. *)
Lemma fetch_to_file_W (fs : list (string * node)) (t : option Z)
    (total_size : Z) (b : body) :
  ends b = true ->
  (forall l, get_entry "ffmpeg_temp.zip" fs <> Some (Dir l)) ->
  exists sz,
    fetch_to_file total_size b (W (Dir fs) t)
    = Returns tt (W (Dir (set_entry "ffmpeg_temp.zip" (File sz) fs)) None).
Proof.
  intros He Hz. unfold fetch_to_file, try_except, bind.
  destruct (0 <? total_size).
  - unfold write_tmp, modify.
    pose proof (mmap_loop_ends total_size b He 0 0) as Hl.
    destruct (mmap_loop total_size 0 0 b) as [d r|]; [|congruence].
    unfold ret. exists total_size.
    change (set_tmp (Some total_size) (W (Dir fs) t))
      with (W (Dir fs) (Some total_size)).
    change filename with ["FFmpeg"; "ffmpeg_temp.zip"].
    rewrite (move_tmp_W _ _ _ Hz). reflexivity.
  - pose proof (stream_loop_ends b He 0) as Hl.
    destruct (stream_loop 0 b) as [d r|]; [|congruence].
    unfold write_tmp, modify. exists d.
    change (set_tmp (Some d) (W (Dir fs) t)) with (W (Dir fs) (Some d)).
    change filename with ["FFmpeg"; "ffmpeg_temp.zip"].
    rewrite (move_tmp_W _ _ _ Hz). reflexivity.
Qed.

(** The archive is unpacked and the [bin] of its first directory moved
    into place, over the entries [fs] and the archive. *)
Lemma unpack_move_W (fs listing rest fes : list (string * node)) (t : option Z)
    (folder : string) (d0 bin : node) (sz : Z) :
  NoDup (map fst fs) ->
  get_entry "temp" fs = None ->
  (forall s, get_entry "bin" fs <> Some (File s)) ->
  filter (fun e => is_dir_node (snd e)) listing = (folder, d0) :: rest ->
  get_entry folder listing = Some (Dir fes) ->
  get_entry "bin" fes = Some bin ->
  (extractall (Unpacked listing) ;; move_bin true)
    (W (Dir (set_entry "ffmpeg_temp.zip" (File sz) fs)) t)
  = Returns tt
      (W (Dir (set_entry "bin" bin
                 (set_entry "temp"
                    (Dir (set_entry folder (Dir (del_entry "bin" fes)) listing))
                    (del_entry "bin"
                       (set_entry "temp" (Dir listing)
                          (set_entry "ffmpeg_temp.zip" (File sz) fs)))))) t).
Proof.
  intros Hnd Htemp Hbinfs Hfilter Hfolder Hbin.
  assert (Hne : listing <> []) by (intros ->; discriminate Hfilter).
  set (f1 := set_entry "ffmpeg_temp.zip" (File sz) fs).
  set (f2 := set_entry "temp" (Dir listing) f1).
  set (f3 := del_entry "bin" f2).
  set (X := Dir (set_entry folder (Dir (del_entry "bin" fes)) listing)).
  set (f4 := set_entry "temp" X f3).
  set (f5 := set_entry "bin" bin f4).
  assert (Hnd1 : NoDup (map fst f1)) by (apply NoDup_set_entry; exact Hnd).
  assert (Hnd2 : NoDup (map fst f2)) by (apply NoDup_set_entry; exact Hnd1).
  assert (Hbin2 : get_entry "bin" f2 = get_entry "bin" fs).
  { unfold f2, f1. rewrite !get_entry_set_entry_neq by discriminate. reflexivity. }
  assert (Htemp3 : get_entry "temp" f3 = Some (Dir listing)).
  { unfold f3. rewrite get_entry_del_entry_neq by discriminate.
    apply get_entry_set_entry_eq. }
  assert (Hbin3 : get_entry "bin" f3 = None).
  { apply get_entry_del_entry_eq. exact Hnd2. }
  (* extractall *)
  unfold bind at 1. rewrite (extractall_members_W _ _ _ Hne).
  unfold isfile. rewrite !lookup_one. fold f1.
  replace (get_entry "ffmpeg_temp.zip" f1) with (Some (File sz))
    by (symmetry; apply get_entry_set_entry_eq).
  cbn [negb]. cbv iota.
  replace (get_entry "temp" f1) with (@None node)
    by (unfold f1; rewrite get_entry_set_entry_neq by discriminate; congruence).
  rewrite store_one. fold f2.
  (* the first directory of the staging folder *)
  unfold move_bin, temp_extract, bin_target, get_ffmpeg_folder.
  cbn [app]. unfold bind at 1. rewrite listdir_W, lookup_one.
  replace (get_entry "temp" f2) with (Some (Dir listing))
    by (symmetry; apply get_entry_set_entry_eq).
  rewrite Hfilter. cbv beta iota zeta.
  unfold bind at 1. rewrite path_exists_W.
  assert (Hsrc2 : lookup ["temp"; folder; "bin"] (Dir f2) = Some bin).
  { rewrite lookup_cons.
    replace (get_entry "temp" f2) with (Some (Dir listing))
      by (symmetry; apply get_entry_set_entry_eq).
    rewrite lookup_cons, Hfolder, lookup_one, Hbin. reflexivity. }
  unfold exists_ at 1. rewrite Hsrc2. cbv iota.
  (* the installed bin is removed *)
  assert (Hold :
    (old <- path_exists ["FFmpeg"; "bin"] ;;
     if old then rmtree ["FFmpeg"; "bin"]
     else if true then ret tt else raise) (W (Dir f2) t)
    = Returns tt (W (Dir f3) t)).
  { unfold bind. rewrite path_exists_W. unfold exists_.
    rewrite lookup_one, Hbin2.
    destruct (get_entry "bin" fs) as [[s|l]|] eqn:Eb.
    - exfalso. exact (Hbinfs s eq_refl).
    - rewrite rmtree_W, lookup_one, Hbin2, store_one. reflexivity.
    - unfold ret, f3. rewrite del_entry_absent by congruence. reflexivity. }
  unfold bind at 1. rewrite Hold.
  (* the move *)
  apply (move_W (Dir f3) (Dir f4) (Dir f5) t "temp" "bin" [folder; "bin"] [] bin).
  - rewrite lookup_cons, Htemp3, lookup_cons, Hfolder, lookup_one, Hbin.
    reflexivity.
  - rewrite lookup_one, Hbin3. reflexivity.
  - rewrite store_more, Htemp3, store_more, Hfolder, store_one. reflexivity.
  - rewrite store_one. reflexivity.
Qed.

(** The [FFmpeg] folder once an archive whose first directory holds [bin]
    has been installed over the entries [fs]. *)
Lemma install_W (fs listing rest fes : list (string * node)) (t : option Z)
    (folder : string) (d0 bin : node) (sz : Z) :
  NoDup (map fst fs) ->
  get_entry "temp" fs = None ->
  (forall s, get_entry "bin" fs <> Some (File s)) ->
  filter (fun e => is_dir_node (snd e)) listing = (folder, d0) :: rest ->
  get_entry folder listing = Some (Dir fes) ->
  get_entry "bin" fes = Some bin ->
  ((extractall (Unpacked listing) ;;
    move_bin true ;;
    rmtree_ignore_errors temp_extract) ;;
   os_remove filename)
    (W (Dir (set_entry "ffmpeg_temp.zip" (File sz) fs)) t)
  = Returns tt (W (Dir (after_install fs listing fes folder bin sz)) t).
Proof.
  intros Hnd Htemp Hbinfs Hfilter Hfolder Hbin. unfold after_install.
  pose proof (unpack_move_W fs listing rest fes t folder d0 bin sz
                Hnd Htemp Hbinfs Hfilter Hfolder Hbin) as Hum.
  set (X := Dir (set_entry folder (Dir (del_entry "bin" fes)) listing)) in *.
  set (f5 := set_entry "bin" bin _) in *.
  unfold bind at 1. rewrite bind_assoc_seq, (bind_returns _ _ _ _ _ Hum).
  (* the staging folder and the archive are removed *)
  unfold rmtree_ignore_errors, try_except, temp_extract, get_ffmpeg_folder.
  cbn [app]. rewrite rmtree_W, lookup_one.
  replace (get_entry "temp" f5) with (Some X).
  2:{ unfold f5. rewrite get_entry_set_entry_neq by discriminate.
      symmetry. apply get_entry_set_entry_eq. }
  unfold X at 1. cbv iota. rewrite store_one.
  unfold filename, get_ffmpeg_folder. cbn [app].
  rewrite os_remove_W, lookup_one.
  replace (get_entry "ffmpeg_temp.zip" (del_entry "temp" f5)) with (Some (File sz)).
  2:{ unfold f5.
      rewrite get_entry_del_entry_neq by discriminate.
      rewrite !get_entry_set_entry_neq by discriminate.
      rewrite get_entry_del_entry_neq by discriminate.
      rewrite get_entry_set_entry_neq by discriminate.
      symmetry. apply get_entry_set_entry_eq. }
  rewrite store_one. reflexivity.
Qed.

(** One turn of the sequential fetcher on a mirror that answers, with a
    body that ends and an archive whose first directory holds [bin]. *)
Lemma simple_attempt_installs (m : simple_mirror) (h : header) (b : body)
    (total_size : Z) (fs listing rest fes : list (string * node))
    (t : option Z) (folder : string) (d0 bin : node) :
  s_open m = Some (h, b) ->
  content_length h = Some total_size ->
  ends b = true ->
  s_zip m = Unpacked listing ->
  filter (fun e => is_dir_node (snd e)) listing = (folder, d0) :: rest ->
  get_entry folder listing = Some (Dir fes) ->
  get_entry "bin" fes = Some bin ->
  NoDup (map fst fs) ->
  get_entry "temp" fs = None ->
  (forall l, get_entry "ffmpeg_temp.zip" fs <> Some (Dir l)) ->
  (forall s, get_entry "bin" fs <> Some (File s)) ->
  exists sz,
    simple_attempt m (W (Dir fs) t)
    = Returns (Some true)
        (W (Dir (after_install fs listing fes folder bin sz)) None).
Proof.
  intros Ho Hc He Hz Hfilter Hfolder Hbin Hnd Htemp Hzip Hbinfs.
  destruct (fetch_to_file_W fs (Some 0) total_size b He Hzip) as (sz & Hf).
  exists sz. unfold simple_attempt, try_except at 1.
  rewrite Ho, Hc, Hz.
  unfold bind at 1. unfold create_tmp, modify.
  change (set_tmp (Some 0) (W (Dir fs) t)) with (W (Dir fs) (Some 0)).
  unfold bind at 1. rewrite Hf.
  pose proof (install_W fs listing rest fes None folder d0 bin sz
                Hnd Htemp Hbinfs Hfilter Hfolder Hbin) as Hi.
  unfold bind at 1 in Hi.
  unfold bind at 1.
  match type of Hi with
  | match ?c with _ => _ end = _ =>
      match goal with
      | |- context [match ?c' with _ => _ end] =>
          change c' with c; destruct c as [[] w1|w1|w1]; try discriminate
      end
  end.
  unfold bind at 1. rewrite Hi. reflexivity.
Qed.


(** One turn of the parallel fetcher on a mirror that tells a positive
    length and answers no request with more than was asked for, when the
    archive unpacks and its first directory holds [bin]. *)
Lemma ultra_attempt_installs (m : ultra_mirror) (total_size : Z)
    (fs listing rest fes : list (string * node))
    (t : option Z) (folder : string) (d0 bin : node) :
  probe_size m = Some total_size ->
  0 < total_size ->
  u_timeout m = false ->
  (forall r n, In r (chunk_ranges total_size) -> u_chunk m r = Some n ->
               Z.of_N n <= snd r - fst r + 1) ->
  u_zip m = Unpacked listing ->
  filter (fun e => is_dir_node (snd e)) listing = (folder, d0) :: rest ->
  get_entry folder listing = Some (Dir fes) ->
  get_entry "bin" fes = Some bin ->
  NoDup (map fst fs) ->
  get_entry "temp" fs = None ->
  (forall l, get_entry "ffmpeg_temp.zip" fs <> Some (Dir l)) ->
  (forall s, get_entry "bin" fs <> Some (File s)) ->
  ultra_attempt m (W (Dir fs) t)
  = Returns (Some true)
      (W (Dir (after_install fs listing fes folder bin total_size)) t).
Proof.
  intros Hp Ht Hto Hfit Hz Hfilter Hfolder Hbin Hnd Htemp Hzip Hbinfs.
  pose proof (unpack_move_W fs listing rest fes t folder d0 bin total_size
                Hnd Htemp Hbinfs Hfilter Hfolder Hbin) as Hum.
  unfold after_install.
  set (X := Dir (set_entry folder (Dir (del_entry "bin" fes)) listing)) in *.
  set (f1 := set_entry "ffmpeg_temp.zip" (File total_size) fs) in *.
  set (f5 := set_entry "bin" bin _) in *.
  assert (Hz1 : get_entry "ffmpeg_temp.zip" f1 = Some (File total_size))
    by apply get_entry_set_entry_eq.
  unfold ultra_attempt. rewrite Hp, Hto, Hz. unfold try_except.
  (* the file is pre-allocated *)
  assert (Hpre : preallocate total_size (W (Dir fs) t) = Returns tt (W (Dir f1) t)).
  { unfold preallocate, filename, get_ffmpeg_folder. cbn [app].
    unfold bind at 1. rewrite write_file_W, lookup_one, store_one.
    assert (E0 : match get_entry "ffmpeg_temp.zip" fs with
                 | Some (Dir _) => Raises (W (Dir fs) t)
                 | _ => Returns tt
                          (W (Dir (set_entry "ffmpeg_temp.zip" (File 0) fs)) t)
                 end
                 = Returns tt (W (Dir (set_entry "ffmpeg_temp.zip" (File 0) fs)) t)).
    { destruct (get_entry "ffmpeg_temp.zip" fs) as [[s|l]|] eqn:E; try reflexivity.
      exfalso. exact (Hzip l eq_refl). }
    rewrite E0. unfold bind at 1. unfold seek.
    destruct (Z.ltb_spec (total_size - 1) 0) as [|_]; [lia|]. unfold ret.
    rewrite write_file_W, lookup_one, get_entry_set_entry_eq, store_one,
      set_entry_set_entry.
    reflexivity. }
  rewrite (bind_returns _ _ _ _ _ Hpre).
  unfold bind at 1. unfold ret at 1.
  (* the chunks are written *)
  assert (Hasm : assemble (fetch_chunks m (chunk_ranges total_size)) (W (Dir f1) t)
                 = Returns tt (W (Dir f1) t)).
  { unfold assemble, filename, get_ffmpeg_folder. cbn [app].
    unfold bind. rewrite getsize_W, lookup_one, Hz1.
    rewrite (size_check_blind_to_failures m total_size Hfit Ht).
    rewrite write_file_W, lookup_one, Hz1, store_one.
    unfold f1. rewrite set_entry_set_entry. reflexivity. }
  rewrite (bind_returns _ _ _ _ _ Hasm).
  unfold bind at 1. unfold filename at 1, get_ffmpeg_folder. cbn [app].
  rewrite getsize_W, lookup_one, Hz1, Z.eqb_refl.
  (* the archive is installed *)
  rewrite (bind_returns _ _ _ _ _ Hum).
  assert (Hclean : cleanup (W (Dir f5) t)
                   = Returns tt
                       (W (Dir (del_entry "ffmpeg_temp.zip" (del_entry "temp" f5))) t)).
  { unfold cleanup, try_except, bind, filename, temp_extract, get_ffmpeg_folder.
    cbn [app]. rewrite os_remove_W, lookup_one.
    replace (get_entry "ffmpeg_temp.zip" f5) with (Some (File total_size)).
    2:{ unfold f5. rewrite !get_entry_set_entry_neq by discriminate.
        rewrite get_entry_del_entry_neq by discriminate.
        rewrite get_entry_set_entry_neq by discriminate.
        symmetry. exact Hz1. }
    rewrite store_one, rmtree_W, lookup_one.
    replace (get_entry "temp" (del_entry "ffmpeg_temp.zip" f5)) with (Some X).
    2:{ unfold f5. rewrite get_entry_del_entry_neq by discriminate.
        rewrite get_entry_set_entry_neq by discriminate.
        symmetry. apply get_entry_set_entry_eq. }
    unfold X at 1. cbv iota. rewrite store_one, del_entry_comm. reflexivity. }
  rewrite (bind_returns _ _ _ _ _ Hclean). reflexivity.
Qed.

(** ** Installing from the bundle *)

Section Bundle.

Variable bh : bundle_host.

Lemma makedirs_folder_W (fs : list (string * node)) (t : option Z) :
  makedirs get_ffmpeg_folder (W (Dir fs) t) = Returns tt (W (Dir fs) t).
Proof.
  unfold makedirs, get_ffmpeg_folder. rewrite lookup_W. reflexivity.
Qed.

Lemma makedirs_W (ff : node) (t : option Z) (x : string) (p : path) :
  makedirs ("FFmpeg" :: x :: p) (W ff t)
  = match lookup (x :: p) ff with
    | Some (Dir _) => Returns tt (W ff t)
    | Some (File _) => Raises (W ff t)
    | None =>
        match store (x :: p) (Some (Dir [])) ff with
        | Some ff' => Returns tt (W ff' t)
        | None => Raises (W ff t)
        end
    end.
Proof.
  unfold makedirs. rewrite lookup_W, store_W.
  destruct (lookup (x :: p) ff) as [[s|l]|]; try reflexivity.
  destruct (store (x :: p) _ ff); reflexivity.
Qed.

(** When nothing lies at [resource_path("FFmpeg")] but the install folder,
    that folder is taken for the bundle. *)
Lemma locate_bundle_in_place (fs : list (string * node)) (t : option Z) :
  resource bh = In_place \/ resource bh = Elsewhere None ->
  exists pl,
    locate_bundle bh (W (Dir fs) t) = Returns pl (W (Dir fs) t)
    /\ (forall p fs1 t1, place_lookup bh pl p (W (Dir fs1) t1) = lookup p (Dir fs1))
    /\ (forall n, copy2 bh pl n = raise).
Proof.
  intros [Hr|Hr].
  - exists Resource. split; [|split].
    + unfold locate_bundle, bind, place_exists, gets, place_lookup. rewrite Hr.
      unfold get_ffmpeg_folder. cbn [app]. rewrite lookup_W. reflexivity.
    + intros p fs1 t1. unfold place_lookup. rewrite Hr.
      unfold get_ffmpeg_folder. cbn [app]. apply lookup_W.
    + intros n. unfold copy2. rewrite Hr. reflexivity.
  - exists Beside_executable. split; [|split].
    + unfold locate_bundle, bind, place_exists, gets, place_lookup. rewrite Hr.
      unfold get_ffmpeg_folder. cbn [app]. rewrite lookup_W. reflexivity.
    + intros p fs1 t1. unfold place_lookup.
      unfold get_ffmpeg_folder. cbn [app]. apply lookup_W.
    + intros n. reflexivity.
Qed.

(** What is left to do once the target [bin] is made, when the source is
    the install folder: the first copy raises; with nothing to copy, the
    check for [ffmpeg.exe] does. *)
Lemma in_place_tail (pl : place) (fs2 ex old : list (string * node)) (t : option Z) :
  (forall n, copy2 bh pl n = raise) ->
  get_entry "bin" fs2 = Some (Dir ex) ->
  try_except
    (copy_files bh pl (map fst old) ;;
     extracted_files <- listdir bin_target ;;
     if negb (Nat.eqb (List.length extracted_files) (List.length old))
     then raise
     else
       ok <- path_exists (bin_target ++ ["ffmpeg.exe"])%list ;;
       if negb ok then raise else ret true)
    (ret false) (W (Dir fs2) t)
  = Returns false (W (Dir fs2) t).
Proof.
  intros Hcopy Hbin. unfold try_except, bind at 1.
  destruct old as [|[n c] old]; cbn [map fst copy_files].
  - unfold ret at 1. unfold bind at 1.
    unfold bin_target, get_ffmpeg_folder. cbn [app].
    rewrite listdir_W, lookup_one, Hbin.
    destruct ex as [|e ex]; [|reflexivity].
    cbn [List.length Nat.eqb negb]. unfold bind.
    rewrite path_exists_W. unfold exists_.
    rewrite lookup_cons, Hbin. reflexivity.
  - unfold bind at 1. rewrite Hcopy. reflexivity.
Qed.

Lemma extract_in_place_W (fs : list (string * node)) (t : option Z) :
  resource bh = In_place \/ resource bh = Elsewhere None ->
  exists fs',
    extract_bundled_ffmpeg bh (W (Dir fs) t) = Returns false (W (Dir fs') t)
    /\ (NoDup (map fst fs) ->
        forall old, get_entry "bin" fs = Some (Dir old) ->
        fs' = set_entry "bin" (Dir []) (del_entry "bin" fs)).
Proof.
  intros Hr.
  destruct (locate_bundle_in_place fs t Hr) as (pl & Hloc & Hlook & Hcopy).
  unfold extract_bundled_ffmpeg, try_except.
  unfold bind at 1. rewrite makedirs_folder_W.
  unfold bind at 1. rewrite Hloc.
  unfold bind at 1. unfold place_exists at 1, gets. rewrite Hlook. cbn [lookup negb].
  unfold bind at 1. unfold place_exists at 1, gets. rewrite Hlook, lookup_one.
  destruct (get_entry "bin" fs) as [[s|old]|] eqn:Ebin; cbn [negb].
  - (* a file named bin *)
    unfold bind at 1. unfold place_listdir. rewrite Hlook, lookup_one, Ebin.
    exists fs. split; [reflexivity|]. intros _ old H. discriminate.
  - unfold bind at 1. unfold place_listdir. rewrite Hlook, lookup_one, Ebin.
    unfold bind at 1. unfold bin_target at 1 2, get_ffmpeg_folder. cbn [app].
    rewrite path_exists_W. unfold exists_. rewrite lookup_one, Ebin.
    unfold bind at 1. unfold bind at 1.
    rewrite rmtree_W, lookup_one, Ebin, store_one.
    unfold bind at 1. unfold bin_target at 1, get_ffmpeg_folder. cbn [app].
    rewrite makedirs_W, lookup_one, store_one.
    destruct (get_entry "bin" (del_entry "bin" fs)) as [[s|ex]|] eqn:Edel.
    + exists (del_entry "bin" fs). split; [reflexivity|].
      intros Hnd. rewrite (get_entry_del_entry_eq _ _ Hnd) in Edel. discriminate.
    + exists (del_entry "bin" fs). split.
      * exact (in_place_tail pl _ ex old t Hcopy Edel).
      * intros Hnd. rewrite (get_entry_del_entry_eq _ _ Hnd) in Edel. discriminate.
    + exists (set_entry "bin" (Dir []) (del_entry "bin" fs)). split; [|reflexivity].
      apply (in_place_tail pl _ [] old t Hcopy). apply get_entry_set_entry_eq.
  - exists fs. split; [reflexivity|]. intros _ old H. discriminate.
Qed.

(** One copy out of a bundle that lies elsewhere, into a [bin] that lists
    the regular files [acc]. *)
Lemma copy2_W (b : node) (files fs0 acc : list (string * node)) (t : option Z)
    (n : string) :
  resource bh = Elsewhere (Some b) ->
  lookup ["bin"] b = Some (Dir files) ->
  Forall (fun e => is_dir_node (snd e) = false) acc ->
  copy2 bh Resource n (W (Dir (set_entry "bin" (Dir acc) fs0)) t)
  = match get_entry n files with
    | Some (File size) =>
        Returns tt
          (W (Dir (set_entry "bin" (Dir (set_entry n (File size) acc)) fs0)) t)
    | _ => Raises (W (Dir (set_entry "bin" (Dir acc) fs0)) t)
    end.
Proof.
  intros Hr Hb Hacc. unfold copy2, place_lookup. rewrite Hr.
  replace (lookup ["bin"; n] b) with (get_entry n files).
  2:{ destruct b as [s|bes]; [discriminate|].
      rewrite lookup_one in Hb. rewrite lookup_cons, Hb, lookup_one. reflexivity. }
  destruct (get_entry n files) as [[size|l]|]; try reflexivity.
  unfold bin_target, get_ffmpeg_folder. cbn [app].
  rewrite lookup_W, lookup_cons, get_entry_set_entry_eq, lookup_one.
  assert (Hn : forall l, get_entry n acc <> Some (Dir l)).
  { intros l E. apply get_entry_In in E.
    rewrite Forall_forall in Hacc. specialize (Hacc _ E). discriminate. }
  assert (Hw : write_file ["FFmpeg"; "bin"; n] size
                 (W (Dir (set_entry "bin" (Dir acc) fs0)) t)
               = Returns tt
                   (W (Dir (set_entry "bin" (Dir (set_entry n (File size) acc)) fs0)) t)).
  { rewrite write_file_W, lookup_cons, get_entry_set_entry_eq, lookup_one.
    rewrite store_more, get_entry_set_entry_eq, store_one, set_entry_set_entry.
    destruct (get_entry n acc) as [[s|l]|] eqn:E; try reflexivity.
    exfalso. exact (Hn l eq_refl). }
  destruct (get_entry n acc) as [[s|l]|] eqn:E; try exact Hw.
  exfalso. exact (Hn l eq_refl).
Qed.

(** The copies add at most one entry each, and regular files only. *)
Lemma copy_files_length (b : node) (files fs0 : list (string * node)) (t : option Z) :
  resource bh = Elsewhere (Some b) ->
  lookup ["bin"] b = Some (Dir files) ->
  forall names acc w',
    Forall (fun e => is_dir_node (snd e) = false) acc ->
    copy_files bh Resource names (W (Dir (set_entry "bin" (Dir acc) fs0)) t)
    = Returns tt w' ->
    exists acc',
      w' = W (Dir (set_entry "bin" (Dir acc') fs0)) t
      /\ Forall (fun e => is_dir_node (snd e) = false) acc'
      /\ (List.length acc' <= List.length acc + List.length names)%nat.
Proof.
  intros Hr Hb. induction names as [|n names IH]; intros acc w' Hacc.
  - cbn [copy_files]. intros [= <-]. exists acc.
    split; [reflexivity|]. split; [exact Hacc | lia].
  - cbn [copy_files]. unfold bind at 1.
    rewrite (copy2_W b files fs0 acc t n Hr Hb Hacc).
    destruct (get_entry n files) as [[size|l]|]; try discriminate.
    intros Hrun.
    destruct (IH (set_entry n (File size) acc) w') as (acc' & Ew & Hf & Hl);
      [apply Forall_set_entry; [reflexivity | exact Hacc] | exact Hrun |].
    exists acc'. split; [exact Ew|]. split; [exact Hf|].
    pose proof (length_set_entry_le n (File size) acc). cbn [List.length]. lia.
Qed.

(** When the copies leave as many entries as there were names, the target
    lists what the source lists. *)
Lemma copy_files_exact (b : node) (files fs0 : list (string * node)) (t : option Z) :
  resource bh = Elsewhere (Some b) ->
  lookup ["bin"] b = Some (Dir files) ->
  forall rest pre w',
    files = (pre ++ rest)%list ->
    Forall (fun e => is_dir_node (snd e) = false) pre ->
    copy_files bh Resource (map fst rest) (W (Dir (set_entry "bin" (Dir pre) fs0)) t)
    = Returns tt w' ->
    exists acc',
      w' = W (Dir (set_entry "bin" (Dir acc') fs0)) t
      /\ (List.length acc' = List.length pre + List.length rest ->
          acc' = files /\ Forall (fun e => is_dir_node (snd e) = false) files)%nat.
Proof.
  intros Hr Hb. induction rest as [|[n c] rest IH]; intros pre w' Hfiles Hpre.
  - cbn [map copy_files]. intros [= <-]. exists pre. split; [reflexivity|].
    intros _. rewrite app_nil_r in Hfiles. subst files. split; [reflexivity | exact Hpre].
  - cbn [map fst copy_files]. unfold bind at 1.
    rewrite (copy2_W b files fs0 pre t n Hr Hb Hpre).
    destruct (get_entry n files) as [[size|l]|] eqn:Esrc; try discriminate.
    destruct (get_entry n pre) as [c0|] eqn:En.
    + (* the name is there already: an entry is lost *)
      assert (Hlen : List.length (set_entry n (File size) pre) = List.length pre)
        by (apply (length_set_entry_present n (File size) c0 pre); exact En).
      intros Hrun.
      destruct (copy_files_length b files fs0 t Hr Hb (map fst rest)
                  (set_entry n (File size) pre) w') as (acc' & Ew & _ & Hl);
        [apply Forall_set_entry; [reflexivity | exact Hpre] | exact Hrun |].
      exists acc'. split; [exact Ew|].
      rewrite length_map in Hl. cbn [List.length]. lia.
    + rewrite (set_entry_absent _ _ _ En).
      assert (Ec : c = File size).
      { rewrite Hfiles, get_entry_app, En in Esrc. simpl in Esrc.
        rewrite String.eqb_refl in Esrc. congruence. }
      subst c. intros Hrun.
      destruct (IH (pre ++ [(n, File size)])%list w') as (acc' & Ew & Hex).
      * rewrite <- app_assoc. exact Hfiles.
      * apply Forall_app. split; [exact Hpre|]. constructor; [reflexivity | constructor].
      * exact Hrun.
      * exists acc'. split; [exact Ew|]. intros Hl. apply Hex.
        rewrite length_app. cbn [List.length] in *. lia.
Qed.

(** The copies and the two checks after them. *)
Lemma copy_tail_true (b : node) (files fs0 : list (string * node)) (t : option Z)
    (w' : world) :
  resource bh = Elsewhere (Some b) ->
  lookup ["bin"] b = Some (Dir files) ->
  (copy_files bh Resource (map fst files) ;;
   extracted_files <- listdir bin_target ;;
   if negb (Nat.eqb (List.length extracted_files) (List.length files))
   then raise
   else
     ok <- path_exists (bin_target ++ ["ffmpeg.exe"])%list ;;
     if negb ok then raise else ret true)
    (W (Dir (set_entry "bin" (Dir []) fs0)) t)
  = Returns true w' ->
  w' = W (Dir (set_entry "bin" (Dir files) fs0)) t
  /\ Forall (fun e => is_dir_node (snd e) = false) files
  /\ get_entry "ffmpeg.exe" files <> None.
Proof.
  intros Er Eb. unfold bind at 1.
  destruct (copy_files bh Resource (map fst files)
              (W (Dir (set_entry "bin" (Dir []) fs0)) t)) as [[] w2|w2|w2] eqn:Ecopy;
    try discriminate.
  destruct (copy_files_exact b files fs0 t Er Eb files [] w2 eq_refl
              (Forall_nil _) Ecopy) as (acc' & -> & Hex).
  unfold bind at 1. unfold bin_target at 1, get_ffmpeg_folder. cbn [app].
  rewrite listdir_W, lookup_one, get_entry_set_entry_eq.
  destruct (Nat.eqb_spec (List.length acc') (List.length files)) as [Hl|Hl];
    cbn [negb]; [|discriminate].
  destruct (Hex Hl) as [-> Hfiles].
  unfold bind at 1. unfold bin_target at 1, get_ffmpeg_folder. cbn [app].
  rewrite path_exists_W. unfold exists_.
  rewrite lookup_cons, get_entry_set_entry_eq, lookup_one.
  destruct (get_entry "ffmpeg.exe" files) as [c|] eqn:Eexe; cbn [negb];
    [|discriminate].
  intros [= <-]. split; [reflexivity|]. split; [exact Hfiles | congruence].
Qed.

(** A run that returns [True]: the bundle lies elsewhere, and the install
    folder has got a [bin] that lists what the [bin] of the bundle lists. *)
Lemma extract_true_W (fs : list (string * node)) (t : option Z) (w' : world) :
  NoDup (map fst fs) ->
  extract_bundled_ffmpeg bh (W (Dir fs) t) = Returns true w' ->
  exists b files,
    resource bh = Elsewhere (Some b)
    /\ lookup ["bin"] b = Some (Dir files)
    /\ w' = W (Dir (set_entry "bin" (Dir files) (del_entry "bin" fs))) t
    /\ Forall (fun e => is_dir_node (snd e) = false) files
    /\ get_entry "ffmpeg.exe" files <> None.
Proof.
  intros Hnd.
  destruct (resource bh) as [|[b|]] eqn:Er.
  - destruct (extract_in_place_W fs t (or_introl Er)) as (fs' & -> & _).
    discriminate.
  - unfold extract_bundled_ffmpeg, try_except.
    unfold bind at 1. rewrite makedirs_folder_W.
    unfold bind at 1.
    assert (Hloc : locate_bundle bh (W (Dir fs) t) = Returns Resource (W (Dir fs) t)).
    { unfold locate_bundle, bind, place_exists, gets, place_lookup.
      rewrite Er. reflexivity. }
    rewrite Hloc.
    unfold bind at 1. unfold place_exists at 1, gets, place_lookup. rewrite Er.
    cbn [lookup negb].
    unfold bind at 1. unfold place_exists at 1, gets, place_lookup. rewrite Er.
    destruct (lookup ["bin"] b) as [[s|files]|] eqn:Eb; cbn [negb];
      try discriminate.
    { unfold bind at 1. unfold place_listdir, place_lookup. rewrite Er, Eb.
      discriminate. }
    unfold bind at 1. unfold place_listdir, place_lookup. rewrite Er, Eb.
    unfold bind at 1. unfold bin_target at 1 2, get_ffmpeg_folder. cbn [app].
    rewrite path_exists_W. unfold exists_. rewrite lookup_one.
    unfold bind at 1.
    assert (Htail : forall r,
      match r with
      | Returns a w0 => Returns a w0
      | Raises w0 => ret false w0
      | Hangs w0 => Hangs w0
      end = Returns true w' -> r = Returns true w').
    { intros [a w0|w0|w0]; try discriminate. intros H. exact H. }
    destruct (get_entry "bin" fs) as [[s|old]|] eqn:Ebin.
    + rewrite rmtree_W, lookup_one, Ebin. discriminate.
    + rewrite rmtree_W, lookup_one, Ebin, store_one.
      unfold bind at 1. unfold bin_target at 1, get_ffmpeg_folder. cbn [app].
      rewrite makedirs_W, lookup_one, (get_entry_del_entry_eq _ _ Hnd), store_one.
      intros H. apply Htail in H.
      destruct (copy_tail_true b files _ t w' Er Eb H) as (Ew & Hf & Hexe).
      exists b, files. repeat split; assumption.
    + unfold ret at 1.
      unfold bind at 1. unfold bin_target at 1, get_ffmpeg_folder. cbn [app].
      rewrite makedirs_W, lookup_one, Ebin, store_one.
      intros H. apply Htail in H.
      destruct (copy_tail_true b files _ t w' Er Eb H) as (Ew & Hf & Hexe).
      rewrite (del_entry_absent _ _ Ebin).
      exists b, files. repeat split; assumption.
  - destruct (extract_in_place_W fs t (or_intror Er)) as (fs' & -> & _).
    discriminate.
Qed.

End Bundle.
End Install.

(** What the [FFmpeg] folder holds after an installation. *)
Lemma after_install_entries (fs listing fes : list (string * node))
    (folder : string) (bin : node) (sz : Z) :
  NoDup (map fst fs) ->
  get_entry "bin" (after_install fs listing fes folder bin sz) = Some bin
  /\ get_entry "ffmpeg_temp.zip" (after_install fs listing fes folder bin sz) = None
  /\ get_entry "temp" (after_install fs listing fes folder bin sz) = None
  /\ forall x, x <> "bin" -> x <> "temp" -> x <> "ffmpeg_temp.zip" ->
       get_entry x (after_install fs listing fes folder bin sz) = get_entry x fs.
Proof.
  intros Hnd. unfold after_install.
  set (f3 := del_entry "bin" _).
  set (f5 := set_entry "bin" bin _).
  assert (Hnd5 : NoDup (map fst f5)).
  { unfold f5, f3.
    repeat first [apply NoDup_set_entry | apply NoDup_del_entry]. exact Hnd. }
  repeat split.
  - rewrite !get_entry_del_entry_neq by discriminate.
    apply get_entry_set_entry_eq.
  - apply get_entry_del_entry_eq. apply NoDup_del_entry. exact Hnd5.
  - rewrite get_entry_del_entry_neq by discriminate.
    apply get_entry_del_entry_eq. exact Hnd5.
  - intros x Hb Ht Hz. unfold f5, f3.
    rewrite !get_entry_del_entry_neq by assumption.
    rewrite !get_entry_set_entry_neq by assumption.
    rewrite get_entry_del_entry_neq by assumption.
    rewrite !get_entry_set_entry_neq by assumption.
    reflexivity.
Qed.

(** A world whose application directory has an [FFmpeg] folder. *)
Lemma world_with_folder (w : world) (ff : node) :
  lookup get_ffmpeg_folder (disk w) = Some ff ->
  exists es, w = World (Dir (set_entry "FFmpeg" ff es)) (tmp w)
             /\ get_entry "FFmpeg" es = Some ff.
Proof.
  destruct w as [[s|es] t]; simpl; [discriminate|].
  destruct (get_entry "FFmpeg" es) as [c|] eqn:E; [|discriminate].
  intros [= ->]. exists es. rewrite (set_entry_present _ _ _ E).
  split; [reflexivity | exact E].
Qed.

(** What [lookup] finds in the first directory of an archive. *)
Lemma lookup_folder_bin (listing : list (string * node)) (folder : string)
    (bin : node) :
  lookup [folder; "bin"] (Dir listing) = Some bin ->
  exists fes, get_entry folder listing = Some (Dir fes)
              /\ get_entry "bin" fes = Some bin.
Proof.
  rewrite lookup_cons.
  destruct (get_entry folder listing) as [[s|fes]|]; try discriminate.
  rewrite lookup_one. intros H. exists fes. split; [reflexivity | exact H].
Qed.



(** X11: On a machine without an [FFmpeg] folder, when the first mirror answers
    with a body that ends and an archive whose first directory holds
    [bin], the sequential fetcher returns [True] and leaves an [FFmpeg]
    folder that holds that [bin] and nothing else; the rest of the
    application directory is as it was. *)
Theorem first_install_creates_folder
    (system url : string) (n : net) (h : header) (b : body) (total_size : Z)
    (listing rest es : list (string * node)) (folder : string) (d0 bin : node)
    (w : world) :
  get_ffmpeg_download_url system = Some url ->
  s_open (simple n url) = Some (h, b) ->
  content_length h = Some total_size ->
  ends b = true ->
  s_zip (simple n url) = Unpacked listing ->
  filter (fun e => is_dir_node (snd e)) listing = (folder, d0) :: rest ->
  lookup [folder; "bin"] (Dir listing) = Some bin ->
  disk w = Dir es ->
  lookup get_ffmpeg_folder (disk w) = None ->
  exists w',
    download_with_requests_simple system n w = Returns true w'
    /\ tmp w' = None
    /\ lookup get_ffmpeg_folder (disk w') = Some (Dir [("bin", bin)])
    /\ (forall y q, y <> "FFmpeg" ->
          lookup (y :: q) (disk w') = lookup (y :: q) (disk w)).
Proof.
  intros Hurl Ho Hc He Hz Hfilter Hsrc Hd Hff.
  destruct (lookup_folder_bin _ _ _ Hsrc) as (fes & Hfolder & Hbin).
  destruct w as [d t]. cbn [disk] in *. subst d.
  unfold get_ffmpeg_folder in *. rewrite lookup_one in Hff.
  destruct (simple_attempt_installs es (simple n url) h b total_size [] listing
              rest fes t folder d0 bin Ho Hc He Hz Hfilter Hfolder Hbin)
    as (sz & Hrun);
    [constructor | reflexivity | discriminate | discriminate |].
  change (after_install [] listing fes folder bin sz) with [("bin", bin)] in Hrun.
  exists (World (Dir (set_entry "FFmpeg" (Dir [("bin", bin)]) es)) None).
  split.
  { unfold download_with_requests_simple, try_except.
    unfold bind at 1. unfold makedirs, get_ffmpeg_folder. cbn [disk].
    rewrite lookup_one, Hff, store_one. unfold set_disk. cbn [disk tmp].
    unfold get_ffmpeg_download_url in Hurl.
    destruct (get_ffmpeg_download_urls system) as [|url0 urls]; [discriminate|].
    injection Hurl as ->.
    cbn [for_each]. unfold bind at 1. unfold bind at 1.
    rewrite Hrun. reflexivity. }
  cbn [disk tmp]. repeat split.
  - rewrite lookup_one. apply get_entry_set_entry_eq.
  - intros y q Hy.
    rewrite !lookup_cons, get_entry_set_entry_neq by exact Hy. reflexivity.
Qed.

Lemma first_install_creates_folder_witness :
  let n := {| ultra := fun _ => {| u_head := None; u_chunk := fun _ => None;
                                   u_timeout := false; u_zip := BadZip |};
              simple := fun _ =>
                {| s_open := Some (Absent, Next (ReadBytes 5) (Next ReadRaises Closed));
                   s_zip := Unpacked
                     [("ffmpeg-7.1-essentials_build",
                       Dir [("bin", Dir [("ffmpeg.exe", File 100)])])] |};
              aria := fun _ => {| a_run := None; a_zip := BadZip |} |} in
  let w := World (Dir [("videos", Dir [])]) None in
  exists w',
    download_with_requests_simple "Windows" n w = Returns true w'
    /\ tmp w' = None
    /\ lookup get_ffmpeg_folder (disk w')
       = Some (Dir [("bin", Dir [("ffmpeg.exe", File 100)])])
    /\ (forall y q, y <> "FFmpeg" ->
          lookup (y :: q) (disk w') = lookup (y :: q) (disk w)).
Proof.
  intros n w.
  apply (first_install_creates_folder "Windows"
           "https://www.gyan.dev/ffmpeg/builds/ffmpeg-release-essentials.zip"
           n Absent (Next (ReadBytes 5) (Next ReadRaises Closed)) 0
           [("ffmpeg-7.1-essentials_build",
             Dir [("bin", Dir [("ffmpeg.exe", File 100)])])]
           [] [("videos", Dir [])]
           "ffmpeg-7.1-essentials_build"
           (Dir [("bin", Dir [("ffmpeg.exe", File 100)])])
           (Dir [("ffmpeg.exe", File 100)]) w);
    reflexivity.
Defined.

(** ** The aria2 strategy on a machine without an installed [bin] *)

Section AriaFresh.

Variable w0 : world.
Hypothesis no_bin : lookup bin_target (disk w0) = None.

Lemma same_install_no_bin (w : world) :
  same_install w0 w -> exists_ bin_target (disk w) = false.
Proof.
  intros [_ Hb]. specialize (Hb []). rewrite app_nil_r in Hb.
  unfold exists_. rewrite Hb, no_bin. reflexivity.
Qed.

Lemma preserves_write_filename (size : Z) :
  preserves (same_install w0) (write_file filename size).
Proof.
  intros w H. unfold write_file.
  destruct (lookup filename (disk w)) as [[s|es]|]; try exact H;
    (destruct (store filename _ (disk w)) as [d|] eqn:Es; [|exact H];
     eapply (store_sibling_install w0 w "ffmpeg_temp.zip");
     [discriminate | exact H | exact Es]).
Qed.

Lemma preserves_external_write (size : option Z) :
  preserves (same_install w0) (external_write filename size).
Proof.
  destruct size as [n|]; simpl.
  - apply preserves_try_except;
      [apply preserves_write_filename | apply preserves_ret].
  - apply preserves_ret.
Qed.

Lemma preserves_extractall (z : unzip) :
  preserves (same_install w0) (extractall z).
Proof.
  intros w H. unfold extractall.
  destruct (negb (isfile filename (disk w))); [exact H|].
  destruct z as [|listing|[|e listing]]; try exact H;
    (destruct (lookup temp_extract (disk w)) as [[s|es]|]; try exact H;
     (destruct (store temp_extract _ (disk w)) as [d|] eqn:Es; [|exact H];
      eapply (store_sibling_install w0 w "temp");
      [discriminate | exact H | exact Es])).
Qed.

Lemma preserves_rmtree_temp :
  preserves (same_install w0) (rmtree temp_extract).
Proof.
  intros w H. unfold rmtree.
  destruct (lookup temp_extract (disk w)) as [[s|es]|]; try exact H.
  destruct (store temp_extract None (disk w)) as [d|] eqn:Es; [|exact H].
  apply (store_sibling_install w0 w "temp" None d);
    [discriminate | exact H | exact Es].
Qed.

Lemma preserves_cleanup : preserves (same_install w0) cleanup.
Proof.
  unfold cleanup. apply preserves_try_except; [|apply preserves_ret].
  apply preserves_bind; [apply preserves_os_remove_filename|].
  intros _. apply preserves_rmtree_temp.
Qed.

(** Without an installed [bin] the name [shutil] is not bound when
    [shutil.move] is reached: the block raises before anything is moved. *)
Lemma preserves_move_bin_unbound :
  preserves (same_install w0) (move_bin false).
Proof.
  intros w H. unfold move_bin, bind, listdir.
  destruct (lookup temp_extract (disk w)) as [[s|listing]|]; try exact H.
  destruct (filter _ listing) as [|[folder c] l]; [exact H|].
  unfold path_exists, gets.
  destruct (exists_ _ (disk w)); [|exact H].
  rewrite (same_install_no_bin w H). exact H.
Qed.

(** One turn of the loop returns, with no [bin] installed. *)
Lemma aria_attempt_no_bin (m : aria_mirror) (w : world) :
  same_install w0 w ->
  exists r w',
    aria_attempt m w = Returns r w' /\ same_install w0 w'
    /\ (r = None \/ r = Some true).
Proof.
  intros H.
  assert (Hp : preserves (same_install w0) (aria_attempt m)).
  { unfold aria_attempt. apply preserves_try_except; [|apply preserves_ret].
    destruct (a_run m) as [e|]; [|apply preserves_raise].
    apply preserves_bind; [apply preserves_external_write|]. intros _.
    apply preserves_bind; [apply preserves_gets|]. intros present.
    destruct (_ && present); [|apply preserves_ret].
    apply preserves_bind.
    - apply preserves_bind; [apply preserves_extractall|].
      intros _. apply preserves_move_bin_unbound.
    - intros _. apply preserves_bind; [apply preserves_cleanup|].
      intros _. apply preserves_ret. }
  specialize (Hp w H).
  assert (Hd : disk_only (aria_attempt m)).
  { unfold aria_attempt, external_write, cleanup.
    apply disk_only_try_except; [|apply disk_only_ret].
    destruct (a_run m) as [e|]; [|apply disk_only_raise].
    apply disk_only_bind.
    - destruct (wrote e) as [k|]; [|apply disk_only_ret].
      apply disk_only_try_except; [|apply disk_only_ret].
      unfold write_file. disk_only_prim.
    - intros _. apply disk_only_bind; [apply disk_only_path_exists|].
      intros present. destruct (_ && present); auto 10 with disk_only. }
  specialize (Hd w).
  assert (Hr : forall w1, aria_attempt m w <> Raises w1).
  { unfold aria_attempt. intros w1. apply try_except_no_raise.
    intros w2 w3. discriminate. }
  assert (Hv : forall r w1, aria_attempt m w = Returns r w1 ->
                            r = None \/ r = Some true).
  { unfold aria_attempt, try_except, bind. intros r w1.
    destruct (a_run m) as [e|]; [|intros [= <- _]; left; reflexivity].
    destruct (external_write filename (wrote e) w) as [[] w2|w2|w2];
      try (intros [= <- _]; left; reflexivity); try discriminate.
    unfold path_exists, gets.
    destruct (_ && _); [|intros [= <- _]; left; reflexivity].
    destruct (extractall (a_zip m) w2) as [[] w3|w3|w3];
      try (intros [= <- _]; left; reflexivity); try discriminate.
    destruct (move_bin false w3) as [[] w4|w4|w4];
      try (intros [= <- _]; left; reflexivity); try discriminate.
    destruct (cleanup w4) as [[] w5|w5|w5];
      try (intros [= <- _]; left; reflexivity); try discriminate.
    intros [= <- _]. right. reflexivity. }
  destruct (aria_attempt m w) as [r w'|w'|w'].
  - exists r, w'. split; [reflexivity|]. split; [exact Hp | exact (Hv r w' eq_refl)].
  - exfalso. exact (Hr w' eq_refl).
  - destruct Hd.
Qed.

Lemma aria_loop_no_bin (n : net) (urls : list string) : forall w,
  same_install w0 w ->
  exists r w',
    for_each (fun url => aria_attempt (aria n url)) urls w = Returns r w'
    /\ same_install w0 w' /\ (r = None \/ r = Some true).
Proof.
  induction urls as [|url urls IH]; intros w H.
  - exists None, w. split; [reflexivity|]. split; [exact H | left; reflexivity].
  - cbn [for_each]. unfold bind at 1.
    destruct (aria_attempt_no_bin (aria n url) w H) as (r & w1 & -> & H1 & [->| ->]).
    + apply IH. exact H1.
    + exists (Some true), w1. split; [reflexivity|].
      split; [exact H1 | right; reflexivity].
Qed.

End AriaFresh.



(** ** [extract_bundled_ffmpeg] *)

(** Where [os.makedirs(ffmpeg_folder, exist_ok=True)] leaves the folder. *)
Lemma makedirs_folder_result (w w1 : world) :
  makedirs get_ffmpeg_folder w = Returns tt w1 ->
  tmp w1 = tmp w
  /\ exists fs1,
      lookup get_ffmpeg_folder (disk w1) = Some (Dir fs1)
      /\ (lookup get_ffmpeg_folder (disk w) = Some (Dir fs1)
          \/ (fs1 = [] /\ lookup get_ffmpeg_folder (disk w) = None)).
Proof.
  unfold makedirs.
  destruct (lookup get_ffmpeg_folder (disk w)) as [[s|fs]|] eqn:E; try discriminate.
  - intros [= <-]. split; [reflexivity|]. exists fs. split; [exact E|]. left. reflexivity.
  - destruct (store get_ffmpeg_folder (Some (Dir [])) (disk w)) as [d|] eqn:Es;
      [|discriminate].
    intros [= <-]. split; [reflexivity|]. exists [].
    split; [exact (lookup_store_same _ _ _ _ Es)|]. right. split; reflexivity.
Qed.

Lemma extract_after_makedirs (bh : bundle_host) (w w1 : world) :
  makedirs get_ffmpeg_folder w = Returns tt w1 ->
  extract_bundled_ffmpeg bh w = extract_bundled_ffmpeg bh w1.
Proof.
  intros H. unfold extract_bundled_ffmpeg, try_except.
  rewrite (bind_returns _ _ _ _ _ H).
  rewrite (bind_returns _ _ _ _ _ (makedirs_idempotent _ _ _ H)).
  reflexivity.
Qed.

(** X13: Unless a copy of FFmpeg lies at [resource_path("FFmpeg")], away from
    the install folder, [extract_bundled_ffmpeg] returns [False]: the
    install folder itself is taken for the bundle, and a [bin] that was
    installed in it is left empty, removed before the first file is copied
    out of it. *)
Theorem extract_without_bundle_empties_bin (bh : bundle_host) (w : world) :
  resource bh = In_place \/ resource bh = Elsewhere None ->
  exists w',
    extract_bundled_ffmpeg bh w = Returns false w'
    /\ tmp w' = tmp w
    /\ forall fs old,
         lookup get_ffmpeg_folder (disk w) = Some (Dir fs) ->
         NoDup (map fst fs) ->
         get_entry "bin" fs = Some (Dir old) ->
         lookup bin_target (disk w') = Some (Dir []).
Proof.
  intros Hr.
  destruct (makedirs_outcome get_ffmpeg_folder w) as [[w1 E]|E].
  - rewrite (extract_after_makedirs bh w w1 E).
    destruct (makedirs_folder_result w w1 E) as (Ht & fs1 & Hf1 & Hor).
    destruct (world_with_folder w1 _ Hf1) as (es & Hw1 & _).
    destruct (extract_in_place_W es bh fs1 (tmp w1) Hr) as (fs' & Hrun & Hfs').
    rewrite Hw1. rewrite Hrun.
    eexists. split; [reflexivity|]. split; [exact Ht|].
    intros fs old Hf Hnd Hbin. cbn [disk].
    destruct Hor as [Hsame | [_ Hnone]]; [|congruence].
    assert (fs1 = fs) by congruence. subst fs1.
    rewrite (Hfs' Hnd old Hbin).
    unfold bin_target, get_ffmpeg_folder. cbn [app].
    rewrite lookup_cons, get_entry_set_entry_eq, lookup_one.
    apply get_entry_set_entry_eq.
  - exists w. split.
    + unfold extract_bundled_ffmpeg, try_except.
      rewrite (bind_raises _ _ _ _ E). reflexivity.
    + split; [reflexivity|]. intros fs old Hf _ _.
      unfold makedirs in E. rewrite Hf in E. discriminate.
Qed.

Lemma extract_without_bundle_empties_bin_witness :
  let bh := {| has_meipass := false; resource := In_place |} in
  let w := World (Dir [("FFmpeg", Dir [("bin", Dir [("ffmpeg.exe", File 1000);
                                                    ("ffprobe.exe", File 900)])])])
                 None in
  exists w',
    extract_bundled_ffmpeg bh w = Returns false w'
    /\ tmp w' = tmp w
    /\ forall fs old,
         lookup get_ffmpeg_folder (disk w) = Some (Dir fs) ->
         NoDup (map fst fs) ->
         get_entry "bin" fs = Some (Dir old) ->
         lookup bin_target (disk w') = Some (Dir []).
Proof.
  intros bh w. apply (extract_without_bundle_empties_bin bh w).
  left. reflexivity.
Defined.

(** X14: [extract_bundled_ffmpeg] returns [True] only when the bundle lies away
    from the install folder and holds a [bin] of regular files, one of them
    [ffmpeg.exe]; the installed [bin] then lists exactly what the [bin] of
    the bundle lists, the temporary file is as it was, and on Windows the
    availability gate answers true. *)
Theorem extract_true_is_exact_copy (bh : bundle_host) (w w' : world) :
  (forall fs, lookup get_ffmpeg_folder (disk w) = Some (Dir fs) ->
              NoDup (map fst fs)) ->
  extract_bundled_ffmpeg bh w = Returns true w' ->
  exists b files,
    resource bh = Elsewhere (Some b)
    /\ lookup ["bin"] b = Some (Dir files)
    /\ lookup bin_target (disk w') = Some (Dir files)
    /\ Forall (fun e => is_dir_node (snd e) = false) files
    /\ (exists size, get_entry "ffmpeg.exe" files = Some (File size))
    /\ tmp w' = tmp w
    /\ is_ffmpeg_available "Windows" w' = Returns true w'.
Proof.
  intros Hnd Hrun.
  destruct (makedirs_outcome get_ffmpeg_folder w) as [[w1 E]|E].
  - rewrite (extract_after_makedirs bh w w1 E) in Hrun.
    destruct (makedirs_folder_result w w1 E) as (Ht & fs1 & Hf1 & Hor).
    destruct (world_with_folder w1 _ Hf1) as (es & Hw1 & _).
    assert (Hnd1 : NoDup (map fst fs1)).
    { destruct Hor as [Hsame | [-> _]]; [exact (Hnd _ Hsame) | constructor]. }
    rewrite Hw1 in Hrun.
    destruct (extract_true_W es bh fs1 (tmp w1) w' Hnd1 Hrun)
      as (b & files & Hr & Hb & -> & Hfiles & Hexe).
    assert (Hsize : exists size, get_entry "ffmpeg.exe" files = Some (File size)).
    { destruct (get_entry "ffmpeg.exe" files) as [[size|l]|] eqn:Eexe.
      - exists size. reflexivity.
      - exfalso. apply get_entry_In in Eexe.
        rewrite Forall_forall in Hfiles. specialize (Hfiles _ Eexe). discriminate.
      - exfalso. apply Hexe. reflexivity. }
    exists b, files. split; [exact Hr|]. split; [exact Hb|].
    unfold bin_target, get_ffmpeg_folder. cbn [app disk tmp].
    split; [|split; [exact Hfiles|split; [exact Hsize|split; [exact Ht|]]]].
    + rewrite lookup_cons, get_entry_set_entry_eq, lookup_one.
      apply get_entry_set_entry_eq.
    + destruct Hsize as [size Hsize].
      unfold is_ffmpeg_available, gets, exists_, isfile, get_ffmpeg_executable,
        get_ffmpeg_folder.
      cbn [String.eqb Ascii.eqb Bool.eqb app disk].
      rewrite lookup_cons, get_entry_set_entry_eq.
      rewrite lookup_cons, get_entry_set_entry_eq, lookup_one, Hsize.
      reflexivity.
  - unfold extract_bundled_ffmpeg, try_except in Hrun.
    rewrite (bind_raises _ _ _ _ E) in Hrun. discriminate.
Qed.

Lemma extract_true_is_exact_copy_witness :
  let bh := {| has_meipass := true;
               resource := Elsewhere (Some (Dir [("bin",
                             Dir [("ffmpeg.exe", File 1000);
                                  ("ffprobe.exe", File 900)]);
                                                 ("LICENSE", File 5)])) |} in
  let w := World (Dir [("FFmpeg", Dir [("bin", Dir [("old.dll", File 1)]);
                                       ("notes.txt", File 3)])]) (Some 7) in
  let w' := World (Dir [("FFmpeg", Dir [("notes.txt", File 3);
                                        ("bin", Dir [("ffmpeg.exe", File 1000);
                                                     ("ffprobe.exe", File 900)])])])
                  (Some 7) in
  exists b files,
    resource bh = Elsewhere (Some b)
    /\ lookup ["bin"] b = Some (Dir files)
    /\ lookup bin_target (disk w') = Some (Dir files)
    /\ Forall (fun e => is_dir_node (snd e) = false) files
    /\ (exists size, get_entry "ffmpeg.exe" files = Some (File size))
    /\ tmp w' = tmp w
    /\ is_ffmpeg_available "Windows" w' = Returns true w'.
Proof.
  intros bh w w'. apply (extract_true_is_exact_copy bh w w').
  - intros fs [= <-]. repeat constructor; simpl; intuition discriminate.
  - reflexivity.
Defined.

(** ** The command the tools run *)

(** X15: [get_ffmpeg_command] answers the local executable whenever the
    availability gate is open, and the bare name [ffmpeg] exactly when
    nothing exists at the path of the local executable; the two part ways
    on a directory at that path, which the gate refuses and the command
    accepts. *)
Theorem get_ffmpeg_command_follows_gate (system : string) (w : world) :
  exists c available,
    get_ffmpeg_command system w = Returns c w
    /\ is_ffmpeg_available system w = Returns available w
    /\ (available = true -> c = Local (get_ffmpeg_executable system))
    /\ (c = Program "ffmpeg"
        <-> lookup (get_ffmpeg_executable system) (disk w) = None)
    /\ (c = Local (get_ffmpeg_executable system) /\ available = false
        <-> exists l, lookup (get_ffmpeg_executable system) (disk w) = Some (Dir l)).
Proof.
  unfold get_ffmpeg_command, is_ffmpeg_available, bind, path_exists, gets,
    exists_, isfile.
  destruct (lookup (get_ffmpeg_executable system) (disk w)) as [[s|l]|];
    eexists; eexists; (split; [reflexivity|]); (split; [reflexivity|]);
    cbn [andb].
  - split; [reflexivity|]. split; [split; discriminate|].
    split; [intros [_ H]; discriminate | intros [l H]; discriminate].
  - split; [reflexivity|]. split; [split; discriminate|].
    split; [intros _; exists l; reflexivity | intros _; split; reflexivity].
  - split; [discriminate|]. split; [split; reflexivity|].
    split; [intros [H _]; discriminate | intros [l H]; discriminate].
Qed.

(** X16: The guard of the two blur tools never holds: the command is the local
    executable only when that exists, and is the bare name [ffmpeg]
    otherwise, so the question "Download now?" is never asked, whatever is
    on the disk. *)
Theorem blur_never_asks_to_download
    (system : string) (in_cwd : string -> bool) (w : world) :
  blur_asks_to_download system in_cwd w = Returns false w.
Proof.
  unfold blur_asks_to_download, get_ffmpeg_command, bind, path_exists, gets.
  destruct (exists_ (get_ffmpeg_executable system) (disk w)) eqn:E;
    unfold ret, command_exists, path_exists, gets, ret.
  - rewrite E. reflexivity.
  - cbn [is_not_ffmpeg]. rewrite String.eqb_refl, Bool.andb_false_r. reflexivity.
Qed.

(** ** GPU encoders *)

(** X17: The encoder chosen is [libx264], with no GPU reported, or a hardware
    encoder that the probe, ended with code 0, has listed; of those listed,
    NVIDIA's goes before AMD's and AMD's before Intel's. *)
Theorem chosen_encoder_is_listed (run : option (Z * string)) :
  let gpu_encoders := detect_gpu_encoders run in
  let s := get_optimal_encoding_settings gpu_encoders in
  ((encoder s = "libx264" /\ gpu_type s = "cpu" /\ cpu_only gpu_encoders = true
    /\ forall out, run = Some (0, out) ->
         contains "h264_nvenc" out = false /\ contains "h264_amf" out = false
         /\ contains "h264_qsv" out = false)
   \/ (exists out,
         run = Some (0, out) /\ contains (encoder s) out = true
         /\ cpu_only gpu_encoders = false
         /\ (encoder s = "h264_nvenc"
             \/ (encoder s = "h264_amf" /\ contains "h264_nvenc" out = false)
             \/ (encoder s = "h264_qsv" /\ contains "h264_nvenc" out = false
                 /\ contains "h264_amf" out = false)))).
Proof.
  destruct run as [[rc out]|]; cbn zeta.
  - unfold detect_gpu_encoders.
    destruct (Z.eqb_spec rc 0) as [->|Hrc].
    + destruct (contains "h264_nvenc" out) eqn:En;
        destruct (contains "h264_amf" out) eqn:Ea;
        destruct (contains "h264_qsv" out) eqn:Ei;
        cbn;
        first
          [ right; exists out; split; [reflexivity|]; split; [assumption|];
            split; [reflexivity|];
            first [ left; reflexivity
                  | right; left; split; [reflexivity | assumption]
                  | right; right; split; [reflexivity|]; split; assumption ]
          | left; split; [reflexivity|]; split; [reflexivity|]; split; [reflexivity|];
            intros out' [= <-]; split; [assumption|]; split; assumption ].
    + left. cbn. split; [reflexivity|]. split; [reflexivity|]. split; [reflexivity|].
      intros out' [= H _]. contradiction.
  - left. cbn. split; [reflexivity|]. split; [reflexivity|]. split; [reflexivity|].
    intros out' H. discriminate.
Qed.

(** X18: The first call of [get_gpu_settings] after the module is loaded fixes
    the answer: it returns what its own probe gives, also when that probe
    failed, and every later call returns the same settings and leaves the
    globals alone, whatever its probe would find. *)
Theorem gpu_settings_pinned_by_first_probe (run1 : option (Z * string)) :
  let first := get_gpu_settings run1 gpu_cache_at_load in
  fst first = Some (get_optimal_encoding_settings (detect_gpu_encoders run1))
  /\ (forall run2, get_gpu_settings run2 (snd first) = first)
  /\ ((forall out, run1 <> Some (0, out)) ->
      forall run2 s, fst (get_gpu_settings run2 (snd first)) = Some s ->
                     encoder s = "libx264").
Proof.
  cbn zeta. split; [reflexivity|]. split; [reflexivity|].
  intros Hfail run2 s. cbn. intros [= <-].
  destruct run1 as [[rc out]|]; [|reflexivity].
  unfold detect_gpu_encoders.
  destruct (Z.eqb_spec rc 0) as [->|Hrc]; [|reflexivity].
  exfalso. exact (Hfail out eq_refl).
Qed.

(** ** The licence dates *)

(** X19: Read at one instant, the two functions agree: an expired token has 0
    days left; the days left are never negative, and a positive number [d]
    of them means the token has not expired and has at least [d] whole days
    to go; without an expiry date the token never expires and the answer is
    "Lifetime"; a date that cannot be read counts as expired, with 0 days.
    A token in its last day is not expired and has 0 days left. *)
Theorem remaining_days_agree_with_expiry
    (fromisoformat : string -> option Z) (now : Z) (expires_at : option string) :
  (is_token_expired fromisoformat now expires_at = true ->
   get_remaining_days fromisoformat now expires_at = Days 0)
  /\ (forall d, get_remaining_days fromisoformat now expires_at = Days d ->
        0 <= d
        /\ (0 < d ->
            is_token_expired fromisoformat now expires_at = false
            /\ exists s exp_date,
                 expires_at = Some s
                 /\ fromisoformat (replace_Z s) = Some exp_date
                 /\ now + d * day <= exp_date < now + (d + 1) * day))
  /\ (get_remaining_days fromisoformat now expires_at = Lifetime
      <-> truthy expires_at = false)
  /\ (truthy expires_at = false ->
      is_token_expired fromisoformat now expires_at = false)
  /\ (forall s, expires_at = Some s -> truthy expires_at = true ->
        fromisoformat (replace_Z s) = None ->
        is_token_expired fromisoformat now expires_at = true
        /\ get_remaining_days fromisoformat now expires_at = Days 0)
  /\ (forall s exp_date, expires_at = Some s -> truthy expires_at = true ->
        fromisoformat (replace_Z s) = Some exp_date ->
        now < exp_date < now + day ->
        is_token_expired fromisoformat now expires_at = false
        /\ get_remaining_days fromisoformat now expires_at = Days 0).
Proof.
  unfold is_token_expired, get_remaining_days, day.
  change (86400 * 1000000) with 86400000000.
  destruct expires_at as [s|].
  2:{ repeat split; try discriminate; try reflexivity. }
  destruct (truthy (Some s)) eqn:Et; cbn [negb].
  2:{ repeat split; try discriminate; try reflexivity. }
  destruct (fromisoformat (replace_Z s)) as [exp_date|] eqn:Ef.
  - split; [|split; [|split; [|split; [|split]]]].
    + intros H. apply Z.leb_le in H. f_equal.
      assert ((exp_date - now) / 86400000000 <= 0).
      { apply Z.div_le_upper_bound; lia. }
      set (q := (exp_date - now) / 86400000000) in *. lia.
    + intros d [= <-].
      pose proof (Z.mul_div_le (exp_date - now) 86400000000 ltac:(lia)) as H1.
      pose proof (Z.mul_succ_div_gt (exp_date - now) 86400000000 ltac:(lia))
        as H2.
      set (q := (exp_date - now) / 86400000000) in *. clearbody q.
      split; [lia|]. intros Hd.
      assert (Hq : 0 < q) by lia.
      rewrite Z.max_r by lia.
      split.
      * apply Z.leb_gt. lia.
      * exists s, exp_date. split; [reflexivity|]. split; [exact Ef|]. lia.
    + split; discriminate.
    + discriminate.
    + intros s' [= <-] _ H. congruence.
    + intros s' e' [= <-] _ H [H1 H2].
      assert (e' = exp_date) by congruence. subst e'. split.
      * apply Z.leb_gt. exact H1.
      * f_equal. rewrite Z.div_small by lia. reflexivity.
  - split; [|split; [|split; [|split; [|split]]]].
    + reflexivity.
    + intros d [= <-]. split; [lia|]. intros H. lia.
    + split; discriminate.
    + discriminate.
    + intros s' _ _ _. split; reflexivity.
    + intros s' e' [= <-] _ H. congruence.
Qed.

(** ** The list of imported videos *)

Lemma listed_In (path : string) (videos : list video) :
  listed path videos = true <-> In path (map v_path videos).
Proof.
  unfold listed. rewrite existsb_exists. split.
  - intros (v & Hv & E). apply String.eqb_eq in E. subst path.
    apply in_map. exact Hv.
  - intros H. apply in_map_iff in H. destruct H as (v & E & Hv).
    exists v. split; [exact Hv|]. apply String.eqb_eq. exact E.
Qed.

Lemma add_videos_spec (probe : string -> option (Z * Z)) (basename : string -> string)
    (paths : list string) : forall videos added,
  NoDup (map v_path videos) ->
  exists new,
    add_videos probe basename paths videos added
    = ((videos ++ new)%list, added + Z.of_nat (List.length new))
    /\ NoDup (map v_path (videos ++ new)%list)
    /\ Forall (fun v => In (v_path v) paths
                        /\ probe (v_path v) = Some (v_width v, v_height v)
                        /\ v_name v = basename (v_path v)) new.
Proof.
  induction paths as [|path rest IH]; intros videos added Hnd.
  - exists []. cbn [add_videos List.length Z.of_nat]. rewrite app_nil_r, Z.add_0_r.
    split; [reflexivity|]. split; [exact Hnd | constructor].
  - cbn [add_videos].
    destruct (listed path videos) eqn:El; cbn [negb].
    + destruct (IH videos added Hnd) as (new & E & Hnd' & Hnew).
      exists new. split; [exact E|]. split; [exact Hnd'|].
      eapply Forall_impl; [|exact Hnew]. intros v (H1 & H2). split; [right; exact H1 | exact H2].
    + destruct (probe path) as [[width height]|] eqn:Ep.
      * set (v0 := {| v_path := path; v_name := basename path;
                      v_width := width; v_height := height |}).
        assert (Hnd0 : NoDup (map v_path (videos ++ [v0])%list)).
        { rewrite map_app. cbn [map v_path v0].
          apply NoDup_app; [exact Hnd | repeat constructor; intros [] |].
          intros x Hx [<-|[]].
          apply listed_In in Hx. congruence. }
        destruct (IH (videos ++ [v0])%list (added + 1) Hnd0) as (new & E & Hnd' & Hnew).
        exists (v0 :: new). rewrite <- app_assoc in E, Hnd'. cbn [app] in E, Hnd'.
        split.
        { rewrite E. f_equal. cbn [List.length]. lia. }
        split; [exact Hnd'|].
        constructor.
        { cbn. split; [left; reflexivity|]. split; [exact Ep | reflexivity]. }
        eapply Forall_impl; [|exact Hnew].
        intros v (H1 & H2). split; [right; exact H1 | exact H2].
      * destruct (IH videos added Hnd) as (new & E & Hnd' & Hnew).
        exists new. split; [exact E|]. split; [exact Hnd'|].
        eapply Forall_impl; [|exact Hnew].
        intros v (H1 & H2). split; [right; exact H1 | exact H2].
Qed.

Lemma remove_video_spec (index : Z) (videos : list video) :
  (0 <= index < Z.of_nat (List.length videos) ->
   exists v, videos = (firstn (Z.to_nat index) videos ++ v
                        :: skipn (S (Z.to_nat index)) videos)%list
             /\ remove_video index videos
                = (firstn (Z.to_nat index) videos
                     ++ skipn (S (Z.to_nat index)) videos)%list)
  /\ (~ 0 <= index < Z.of_nat (List.length videos) ->
      remove_video index videos = videos).
Proof.
  unfold remove_video. split; intros H.
  - destruct (Z.leb_spec 0 index); [|lia].
    destruct (Z.ltb_spec index (Z.of_nat (List.length videos))); [|lia].
    cbn [andb].
    assert (Hi : (Z.to_nat index < List.length videos)%nat) by lia.
    revert Hi. generalize (Z.to_nat index). clear.
    intros i. revert videos. induction i as [|i IH]; intros [|v videos] Hi;
      cbn [List.length] in Hi; try lia.
    + exists v. split; reflexivity.
    + destruct (IH videos ltac:(lia)) as (u & E & _).
      exists u. split; [|reflexivity].
      cbn [firstn skipn app]. f_equal. exact E.
  - destruct (Z.leb_spec 0 index); [|reflexivity].
    destruct (Z.ltb_spec index (Z.of_nat (List.length videos))); [lia | reflexivity].
Qed.

(** X20: Whatever is imported, removed and cleared, in whatever order, the list
    never holds a path twice, and every video in it was opened by the
    probe, which gave its width and height; a removal with an index
    outside the list, negative ones included, changes nothing. *)
Theorem imported_paths_stay_distinct
    (probe : string -> option (Z * Z)) (basename : string -> string)
    (actions : list list_action) :
  let videos := fold_left (act probe basename) actions [] in
  NoDup (map v_path videos)
  /\ Forall (fun v => probe (v_path v) = Some (v_width v, v_height v)
                      /\ v_name v = basename (v_path v)) videos
  /\ forall index, ~ 0 <= index < Z.of_nat (List.length videos) ->
                   act probe basename videos (Remove index) = videos.
Proof.
  cbn zeta.
  assert (Hinv : forall actions videos,
    NoDup (map v_path videos)
    /\ Forall (fun v => probe (v_path v) = Some (v_width v, v_height v)
                        /\ v_name v = basename (v_path v)) videos ->
    NoDup (map v_path (fold_left (act probe basename) actions videos))
    /\ Forall (fun v => probe (v_path v) = Some (v_width v, v_height v)
                        /\ v_name v = basename (v_path v))
         (fold_left (act probe basename) actions videos)).
  { clear actions. induction actions as [|a actions IH]; intros videos [Hnd Hok];
      [split; assumption|].
    cbn [fold_left]. apply IH. destruct a as [paths|index|]; cbn [act].
    - destruct (add_videos_spec probe basename paths videos 0 Hnd)
        as (new & -> & Hnd' & Hnew).
      cbn [fst]. split; [exact Hnd'|].
      apply Forall_app. split; [exact Hok|].
      eapply Forall_impl; [|exact Hnew]. intros v (_ & H). exact H.
    - destruct (remove_video_spec index videos) as [Hin Hout].
      destruct (Z.leb_spec 0 index);
        [destruct (Z.ltb_spec index (Z.of_nat (List.length videos)))|].
      + destruct (Hin ltac:(lia)) as (v & E & ->).
        rewrite E in Hnd, Hok. split.
        * rewrite map_app in *. cbn [map] in Hnd. exact (NoDup_remove_1 _ _ _ Hnd).
        * apply Forall_app in Hok. destruct Hok as [H1 H2].
          inversion H2; subst. apply Forall_app. split; assumption.
      + rewrite (Hout ltac:(lia)). split; assumption.
      + rewrite (Hout ltac:(lia)). split; assumption.
    - split; constructor. }
  destruct (Hinv actions [] (conj (NoDup_nil _) (Forall_nil _))) as [H1 H2].
  split; [exact H1|]. split; [exact H2|].
  intros index Hout. cbn [act].
  exact (proj2 (remove_video_spec index _) Hout).
Qed.

(** ** The percentage of the sequential fetcher *)

Lemma progress_bounds (rnd : Q -> Q) (completed_size total_size : Z) :
  rounding rnd ->
  0 < total_size -> 0 <= completed_size <= total_size ->
  0 <= progress rnd completed_size total_size <= 100.
Proof.
  intros Hr Ht Hc. unfold progress, fmul, truediv.
  set (q := (inject_Z completed_size / inject_Z total_size)%Q).
  assert (Ht' : (0 < inject_Z total_size)%Q).
  { change 0%Q with (inject_Z 0). rewrite <- Zlt_Qlt. exact Ht. }
  assert (Hq0 : (inject_Z 0 <= q)%Q).
  { unfold q. apply Qle_shift_div_l; [exact Ht'|].
    rewrite Qmult_0_l. change 0%Q with (inject_Z 0). rewrite <- Zle_Qle. lia. }
  assert (Hq1 : (q <= inject_Z 1)%Q).
  { unfold q. apply Qle_shift_div_r; [exact Ht'|].
    rewrite Qmult_1_l. rewrite <- Zle_Qle. lia. }
  assert (Hr0 : (inject_Z 0 <= rnd q)%Q).
  { apply (rnd_ge_integer rnd Hr); [simpl; lia | exact Hq0]. }
  assert (Hr1 : (rnd q <= inject_Z 1)%Q).
  { apply (rnd_le_integer rnd Hr); [simpl; lia | exact Hq1]. }
  apply int_bounds; [lia | |].
  - apply (rnd_ge_integer rnd Hr); [simpl; lia|].
    change (inject_Z 0) with (inject_Z 0 * inject_Z 100)%Q.
    apply Qmult_le_compat_r; [exact Hr0 | discriminate].
  - apply (rnd_le_integer rnd Hr); [simpl; lia|].
    change (inject_Z 100) with (inject_Z 1 * inject_Z 100)%Q.
    apply Qmult_le_compat_r; [exact Hr1 | discriminate].
Qed.

(** X21: In the known-size branch of the sequential fetcher the bytes counted
    when the loop is left lie between 0 and [total_size], whatever the
    reads deliver: a read that would run past the end of the map is
    dropped.  The percentage computed from them is between 0 and 100. *)
Theorem sequential_progress_in_range
    (rnd : Q -> Q) (total_size : Z) (b : body) (downloaded : Z) (reads : nat) :
  rounding rnd ->
  0 < total_size ->
  mmap_loop total_size 0 0 b = Left_loop downloaded reads ->
  0 <= downloaded <= total_size
  /\ 0 <= progress rnd downloaded total_size <= 100.
Proof.
  intros Hr Ht Hloop.
  pose proof (mmap_loop_bounded total_size b 0 0 eq_refl ltac:(lia)) as Hb.
  rewrite Hloop in Hb.
  split; [exact Hb|]. apply progress_bounds; assumption.
Qed.

Lemma sequential_progress_in_range_witness :
  0 <= 3000 <= 5000
  /\ 0 <= progress (fun x => x) 3000 5000 <= 100.
Proof.
  apply (sequential_progress_in_range (fun x => x) 5000
           (Next (ReadBytes 3000) (Next (ReadBytes 4000) Closed)) 3000 3).
  - split; [intros x y Hxy; exact Hxy | intros n _; apply Qeq_refl].
  - lia.
  - reflexivity.
Defined.

(** ** The parallel fetcher installs the archive *)


